(** * scripts/build-dbt.py: the release script of dbt, embedded in Rocq

    The script bumps the version, builds and uploads the PyPI packages and
    writes, tests and commits a Homebrew formula.  This development embeds
    its data model ([Version], [DbtHomebrewTemplate]), its pure helpers
    ([_extract_parts], the two projections of a version, the rendering of
    the formula) and its effectful pipeline ([upgrade_to] and everything it
    calls) and proves properties of them.

    Conventions of the embedding.
    - A Python [str] is a [string]; its characters are the 8-bit code points.
      On that range [\d] is exactly [0-9], and [str.isspace] holds of the
      codes 9-13, 28-32, 133 and 160.
    - A Python [int] that comes from a [\d+] capture is an [N].
    - A [pathlib.Path] is the list of its components.
    - Effectful code lives in a state-and-exception monad over a [World]
      (the file system and the log of what the script did); the behaviour
      of external programs and of the operator is a parameter. *)

From stdpp Require Import gmap strings list fin_maps.
From Stdlib Require Import Ascii String DecimalString DecimalN NArith.

Local Open Scope string_scope.
Local Open Scope list_scope.

(** ** Characters and strings *)

Definition code (c : ascii) : N := N_of_ascii c.

(** [\d] on 8-bit characters. *)
Definition is_digit (c : ascii) : bool :=
  (48 <=? code c)%N && (code c <=? 57)%N.

(** [[a-z]]. *)
Definition is_lower (c : ascii) : bool :=
  (97 <=? code c)%N && (code c <=? 122)%N.

Definition is_upper (c : ascii) : bool :=
  (65 <=? code c)%N && (code c <=? 90)%N.

(** [str.isspace] on 8-bit characters. *)
Definition is_space (c : ascii) : bool :=
  ((9 <=? code c)%N && (code c <=? 13)%N)
  || ((28 <=? code c)%N && (code c <=? 32)%N)
  || (code c =? 133)%N || (code c =? 160)%N.

Definition is_char (d : ascii) (c : ascii) : bool := bool_decide (c = d).

Definition dq : string := String "034"%char "".
Definition nl : string := String "010"%char "".

Definition string_forall (p : ascii -> bool) (s : string) : bool :=
  forallb p (list_ascii_of_string s).

(** The longest prefix of [s] whose characters satisfy [p], and what
    follows it. *)
Fixpoint span (p : ascii -> bool) (s : string) : string * string :=
  match s with
  | String c s' =>
      if p c then let (run, rest) := span p s' in (String c run, rest)
      else ("", s)
  | EmptyString => ("", "")
  end.

(** [int(s)] for a string of decimal digits; anything else is refused
    (Python's [int] also takes signs, blanks and underscores, which a [\d+]
    capture never holds). *)
Definition int_of_str (s : string) : option N :=
  match s with
  | EmptyString => None
  | _ => N.of_uint <$> NilEmpty.uint_of_string s
  end.

(** [str(n)], also what an f-string writes for [{n}]. *)
Definition str_of_int (n : N) : string :=
  NilEmpty.string_of_uint (N.to_uint n).

Definition upper (c : ascii) : ascii :=
  if is_lower c then ascii_of_N (code c - 32) else c.

Definition lower (c : ascii) : ascii :=
  if is_upper c then ascii_of_N (code c + 32) else c.

Definition is_cased (c : ascii) : bool := is_lower c || is_upper c.

(** [str.title]: a cased character is upper-cased when the character before
    it is not cased, and lower-cased otherwise.  Cased means an ASCII
    letter here; the script applies [title] to [[a-z]+] captures only. *)
Fixpoint title_from (previous_is_cased : bool) (s : string) : string :=
  match s with
  | String c s' =>
      String (if previous_is_cased then lower c else upper c)
             (title_from (is_cased c) s')
  | EmptyString => ""
  end.

Definition title (s : string) : string := title_from false s.

(** ** Exceptions and results *)

Inductive exn :=
| AttributeError (msg : string)
| TypeError (msg : string)
| ValueError (msg : string)
| AssertionError (msg : string)
| OSError (msg : string)
| EOFError.

Inductive result (A : Type) :=
| Ok (a : A)
| Raise (e : exn).
Arguments Ok {A} a.
Arguments Raise {A} e.

Definition rbind {A B} (r : result A) (f : A -> result B) : result B :=
  match r with
  | Ok a => f a
  | Raise e => Raise e
  end.

(** ** A backtracking matcher for the regular expressions of the script *)

Module Re.

Inductive regex :=
| Class (p : ascii -> bool)          (* one character of a class *)
| Cat (r1 r2 : regex)                (* r1 r2 *)
| Plus (p : ascii -> bool)           (* [p]+, greedy *)
| Opt (r : regex)                    (* (r)?, greedy *)
| Named (name : string) (r : regex). (* (?P<name>r) *)

(** What a match object holds: the text matched and the named groups that
    took part in the match.  A group that did not take part is absent
    here and [None] in Python's [groupdict()]. *)
Record match_object := { matched : string; groupdict : gmap string string }.

Section Matcher.
Context {A : Type}.

(** [p*] after [acc]: first the longest run, then shorter ones. *)
Fixpoint star (p : ascii -> bool) (s acc : string)
    (k : string -> string -> option A) : option A :=
  match s with
  | String c s' =>
      if p c then
        match star p s' (acc +:+ String c "") k with
        | Some r => Some r
        | None => k acc s
        end
      else k acc s
  | EmptyString => k acc s
  end.

(** [run r s g k] matches [r] at the start of [s] with the groups [g]
    set so far, and hands the text consumed, the rest of the input and
    the groups to [k]; when [k] refuses, the next alternative is
    tried. *)
Fixpoint run (r : regex) (s : string) (g : gmap string string)
    (k : string -> string -> gmap string string -> option A) : option A :=
  match r with
  | Class p =>
      match s with
      | String c s' => if p c then k (String c "") s' g else None
      | EmptyString => None
      end
  | Cat r1 r2 =>
      run r1 s g (fun c1 s1 g1 =>
        run r2 s1 g1 (fun c2 s2 g2 => k (c1 +:+ c2) s2 g2))
  | Plus p =>
      match s with
      | String c s' =>
          if p c then star p s' (String c "") (fun t s'' => k t s'' g)
          else None
      | EmptyString => None
      end
  | Opt r' =>
      match run r' s g k with
      | Some x => Some x
      | None => k "" s g
      end
  | Named name r' =>
      run r' s g (fun c s' g' => k c s' (<[name:=c]> g'))
  end.
End Matcher.

(** [pattern.match(s)]: a match of a prefix of [s]. *)
Definition match_ (r : regex) (s : string) : option match_object :=
  run r s ∅ (fun c _ g => Some {| matched := c; groupdict := g |}).

End Re.

(** ** Version *)

(** [VERSION_PATTERN]:
    [(?P<major>\d+)\.(?P<minor>\d+)\.(?P<patch>\d+)((?P<prerelease>[a-z]+)(?P<num>\d+))?] *)
Definition VERSION_PATTERN : Re.regex :=
  Re.Cat (Re.Named "major" (Re.Plus is_digit))
  (Re.Cat (Re.Class (is_char "."))
  (Re.Cat (Re.Named "minor" (Re.Plus is_digit))
  (Re.Cat (Re.Class (is_char "."))
  (Re.Cat (Re.Named "patch" (Re.Plus is_digit))
          (Re.Opt (Re.Cat (Re.Named "prerelease" (Re.Plus is_lower))
                          (Re.Named "num" (Re.Plus is_digit)))))))).

Record Version := {
  raw : string;
  major : N;
  minor : N;
  patch : N;
  prerelease : option string;
  num : option N
}.

(** [int(groups[name])]. *)
Definition int_group (groups : gmap string string) (name : string) : result N :=
  match groups !! name with
  | None => Raise (TypeError "int() argument must be a string, not NoneType")
  | Some s =>
      match int_of_str s with
      | Some n => Ok n
      | None => Raise (ValueError "invalid literal for int() with base 10")
      end
  end.

(** [Version.__init__]. *)
Definition Version_init (raw : string) : result Version :=
  match Re.match_ VERSION_PATTERN raw with
  | None =>
      Raise (AttributeError "'NoneType' object has no attribute 'groupdict'")
  | Some m =>
      let groups := Re.groupdict m in
      rbind (int_group groups "major") (fun major =>
      rbind (int_group groups "minor") (fun minor =>
      rbind (int_group groups "patch") (fun patch =>
      match groups !! "num" with
      | Some _ =>
          rbind (int_group groups "num") (fun num =>
          Ok {| raw := raw; major := major; minor := minor; patch := patch;
                prerelease := groups !! "prerelease"; num := Some num |})
      | None =>
          Ok {| raw := raw; major := major; minor := minor; patch := patch;
                prerelease := None; num := None |}
      end)))
  end.

(** [Version.__str__]. *)
Definition Version_str (v : Version) : string := raw v.

(** [Version.homebrew_class_name]. *)
Definition homebrew_class_name (v : Version) : string :=
  let name :=
    "DbtAT" +:+ str_of_int (major v) +:+ str_of_int (minor v)
            +:+ str_of_int (patch v) in
  match prerelease v, num v with
  | Some pre, Some n => name +:+ title pre +:+ str_of_int n
  | _, _ => name
  end.

(** [Version.homebrew_filename]. *)
Definition homebrew_filename (v : Version) : string :=
  let version_str :=
    str_of_int (major v) +:+ "." +:+ str_of_int (minor v) +:+ "."
      +:+ str_of_int (patch v) in
  let version_str :=
    match prerelease v, num v with
    | Some pre, Some n => version_str +:+ "-" +:+ pre +:+ str_of_int n
    | _, _ => version_str
    end in
  "dbt@" +:+ version_str +:+ ".rb".

(** ** Extraction of the url and hash lines *)

(** [s.split('\n')]: never empty. *)
Fixpoint split_lines (s : string) : list string :=
  match s with
  | EmptyString => [""]
  | String c s' =>
      if bool_decide (c = "010"%char) then "" :: split_lines s'
      else match split_lines s' with
           | line :: lines => String c line :: lines
           | [] => [String c ""]
           end
  end.

Definition lstrip (s : string) : string := (span is_space s).2.

Fixpoint rstrip (s : string) : string :=
  match s with
  | EmptyString => ""
  | String c s' =>
      match rstrip s' with
      | EmptyString => if is_space c then "" else String c ""
      | r => String c r
      end
  end.

(** [s.strip()]. *)
Definition strip (s : string) : string := rstrip (lstrip s).

Definition resource_dbt_do : string := "resource " +:+ dq +:+ "dbt" +:+ dq +:+ " do".

(** The loop of [_extract_parts] over the remaining lines; the result is
    the sequence of the values the generator yields. *)
Fixpoint extract_loop (collecting : bool) (lines : list string) : list string :=
  match lines with
  | [] => []
  | line :: lines' =>
      let line := strip line in
      if negb collecting then
        if String.eqb line resource_dbt_do then extract_loop true lines'
        else extract_loop collecting lines'
      else
        if String.eqb line "end" then []
        else line :: extract_loop collecting lines'
  end.

(** [_extract_parts]. *)
Definition _extract_parts (poet_data : string) : list string :=
  extract_loop false (split_lines poet_data).

(** [a, b = values]: unpacking into exactly two names. *)
Definition unpack2 (values : list string) : result (string * string) :=
  match values with
  | [a; b] => Ok (a, b)
  | _ :: _ :: _ :: _ => Raise (ValueError "too many values to unpack (expected 2)")
  | _ => Raise (ValueError "not enough values to unpack (expected 2)")
  end.

(** ** The formula template *)

Definition unlines (lines : list string) : string := String.concat nl lines.

Definition quoted (s : string) : string := dq +:+ s +:+ dq.

(** [DBT_HOMEBREW_TRAILER]. *)
Definition DBT_HOMEBREW_TRAILER : string :=
  unlines [
    "";
    "  def install";
    "    venv = virtualenv_create(libexec, " +:+ quoted "python3" +:+ ")";
    "";
    "    res = resources.map(&:name).to_set";
    "";
    "    res.each do |r|";
    "      venv.pip_install resource(r)";
    "    end";
    "";
    "    venv.pip_install_and_link buildpath";
    "";
    "    bin.install_symlink " +:+ quoted "#{libexec}/bin/dbt" +:+ " => "
      +:+ quoted "dbt";
    "  end";
    "";
    "  test do";
    "    (testpath/" +:+ quoted "dbt_project.yml" +:+ ").write("
      +:+ quoted "{name: 'test', version: '0.0.1', profile: 'default'}" +:+ ")";
    "    (testpath/" +:+ quoted ".dbt/profiles.yml" +:+ ").write(";
    "      " +:+ dq +:+ "{default: {outputs: {default: {type: 'postgres', threads: 1, host: 'localhost', port: 5432,";
    "      user: 'root', pass: 'password', dbname: 'test', schema: 'test'}}, target: 'default'}}"
      +:+ dq +:+ ",";
    "    )";
    "    (testpath/" +:+ quoted "models/test.sql" +:+ ").write("
      +:+ quoted "select * from test" +:+ ")";
    "    system " +:+ quoted "#{bin}/dbt" +:+ ", " +:+ quoted "test";
    "  end";
    ""
  ].

(** [DBT_HOMEBREW_FORMULA.format(...)]: the literal text of the template
    with its six fields replaced. *)
Definition DBT_HOMEBREW_FORMULA_format
    (formula_name url_data hash_data version dependencies trailer : string)
    : string :=
  unlines [
    "";
    "class " +:+ formula_name +:+ " < Formula";
    "  include Language::Python::Virtualenv";
    "";
    "  desc " +:+ quoted "Data build tool";
    "  homepage " +:+ quoted "https://github.com/fishtown-analytics/dbt";
    "  " +:+ url_data;
    "  " +:+ hash_data;
    "  version " +:+ quoted version;
    "  revision 1";
    "";
    "  depends_on " +:+ quoted "python3";
    "  depends_on " +:+ quoted "openssl";
    "  depends_on " +:+ quoted "postgresql";
    "";
    "  bottle do";
    "    root_url " +:+ quoted "http://bottles.getdbt.com";
    "    # bottle hashes + versions go here";
    "  end";
    "";
    "  " +:+ dependencies;
    "";
    "  " +:+ trailer;
    "end";
    ""
  ].

Record DbtHomebrewTemplate := {
  url_data : string;
  hash_data : string;
  dependencies : string;
  version : Version
}.

(** [DbtHomebrewTemplate.contents]; the version is formatted with its
    [__str__]. *)
Definition contents (self : DbtHomebrewTemplate) (versioned : bool) : string :=
  let formula_name :=
    if versioned then homebrew_class_name (version self) else "Dbt" in
  DBT_HOMEBREW_FORMULA_format
    formula_name (url_data self) (hash_data self)
    (Version_str (version self)) (dependencies self) DBT_HOMEBREW_TRAILER.

(** [line] is a line of [text], with a line before it and a line after
    it. *)
Definition has_line (text line : string) : Prop :=
  exists before after, text = before +:+ nl +:+ line +:+ nl +:+ after.

(** ** The world the script runs in *)

Abbreviation Path := (list string) (only parsing).

(** [str(path)]. *)
Definition path_str (p : Path) : string :=
  match p with
  | [] => "."
  | _ => String.concat "/" p
  end.

Inductive node :=
| File (text : string)
| Dir.

(** The file system: what is found at each path.  Paths are taken
    literally (no symbolic links, no [..]); the empty path is the current
    directory. *)
Abbreviation FS := (gmap (list string) node) (only parsing).

(** An element of the argument list handed to [subprocess.check_output]:
    the script passes strings, [Path]s and, in [set_version], the [Version]
    object of its arguments.  [subprocess] takes [str], [bytes] and
    path-like objects and refuses anything else with a [TypeError] before
    it starts the program, which is the outcome [NotRun]
    ([run_program] below). *)
Inductive arg :=
| Str (s : string)
| PathArg (p : Path)
| VersionArg (v : Version).

Inductive exception :=
| Exn (e : exn)
| CalledProcessError (returncode : Z) (cmd : list arg) (output : string)
| SystemExit (status : Z).

(** What an external program did: it ran and exited with a status and its
    captured output, or [subprocess] could not run it at all. *)
Inductive outcome :=
| Exited (returncode : Z) (output : string)
| NotRun (e : exn).

(** What the script did to the outside, in order.  A call of an external
    program records the file system the program found and its outcome. *)
Inductive event :=
| EvExec (cmd : list arg) (cwd : option Path) (found : FS) (out : outcome)
| EvPrint (text : string)
| EvInput (prompt : string) (answer : option string)
| EvRmtree (p : Path)
| EvMakedirs (p : Path)
| EvCopy (src dst : Path)
| EvWriteText (p : Path) (text : string)
| EvRemove (p : Path)
| EvMkdtemp (p : Path)
| EvRmdir (p : Path)
| EvVenv (p : Path).

Record World := { fs : FS; trace : list event }.

(** The behaviour of everything outside the script.  Each may depend on the
    whole history. *)
Record Env := {
  (* an external program: its outcome and the file system it leaves *)
  spawn : list arg -> option Path -> World -> outcome * FS;
  (* a line typed by the operator, if any *)
  stdin : string -> World -> option string;
  (* [venv.EnvBuilder.create] up to [post_setup]: the [env_exe] of its
     context, or an error; and the file system it leaves *)
  venv_setup : Path -> World -> (exn + string) * FS;
  (* the name [tempfile.mkdtemp] picks *)
  mkdtemp_name : World -> Path;
  (* [sys.version_info[:2]] and whether [import wheel] works *)
  python_version : N * N;
  wheel_importable : bool
}.

(** *** File-system operations *)

Definition exists_ (fs : FS) (p : Path) : bool :=
  match p with
  | [] => true
  | _ => bool_decide (is_Some (fs !! p))
  end.

Definition is_dir (fs : FS) (p : Path) : bool :=
  match p with
  | [] => true
  | _ => match fs !! p with Some Dir => true | _ => false end
  end.

Definition parent (p : Path) : Path := removelast p.

Definition basename (p : Path) : string := List.last p "".

(** Everything at or below [d] removed. *)
Definition remove_tree (d : Path) (fs : FS) : FS :=
  filter (λ kv, ¬ d `prefix_of` kv.1) fs.

Definition has_children (fs : FS) (d : Path) : bool :=
  existsb (fun q => bool_decide (d `prefix_of` q ∧ q ≠ d)) (map_to_list fs).*1.

(** Whether [s] ends with [suffix]: [s] or one of its tails is [suffix]. *)
Fixpoint ends_with (suffix s : string) : bool :=
  String.eqb s suffix
  || match s with
     | String _ s' => ends_with suffix s'
     | EmptyString => false
     end.

(** The entries of directory [d] whose name ends with [suffix], in the
    order the map lists them. *)
Definition glob_suffix (fs : FS) (d : Path) (suffix : string) : list Path :=
  List.filter
    (fun q => bool_decide (q ≠ [] ∧ parent q = d) && ends_with suffix (basename q))
    (map_to_list fs).*1.

(** Every proper, non-empty prefix of [p], shortest first, then [p]. *)
Definition prefixes (p : Path) : list Path :=
  List.map (fun n => take n p) (seq 1 (List.length p)).

(** ** The monad of the script: state and exceptions *)

Inductive res (A : Type) :=
| Return (a : A)
| Raised (e : exception).
Arguments Return {A} a.
Arguments Raised {A} e.

Definition M (A : Type) : Type := World -> res A * World.

Definition ret {A} (a : A) : M A := fun w => (Return a, w).

Definition bind {A B} (m : M A) (f : A -> M B) : M B :=
  fun w =>
    match m w with
    | (Return a, w') => f a w'
    | (Raised e, w') => (Raised e, w')
    end.

Definition raise {A} (e : exception) : M A := fun w => (Raised e, w).

Declare Scope io_scope.
Delimit Scope io_scope with io.
Notation "x <- m ;; k" := (bind m (fun x => k))
  (at level 100, m at next level, right associativity) : io_scope.
Notation "m ;; k" := (bind m (fun _ => k))
  (at level 100, right associativity) : io_scope.
Local Open Scope io_scope.

Definition log (e : event) : M unit :=
  fun w => (Return tt, {| fs := fs w; trace := trace w ++ [e] |}).

Definition get_fs : M FS := fun w => (Return (fs w), w).

Definition set_fs (fs' : FS) : M unit :=
  fun w => (Return tt, {| fs := fs'; trace := trace w |}).

(** [try: body finally: final]. *)
Definition try_finally {A} (body : M A) (final : M unit) : M A :=
  fun w =>
    let (r, w1) := body w in
    match final w1 with
    | (Return _, w2) => (r, w2)
    | (Raised e, w2) => (Raised e, w2)
    end.

(** [for x in xs: s = body(s, x)]. *)
Fixpoint for_fold {A S} (xs : list A) (s : S) (body : S -> A -> M S) : M S :=
  match xs with
  | [] => ret s
  | x :: xs' => s' <- body s x ;; for_fold xs' s' body
  end.

(** [of_result r]: a pure computation that may have raised. *)
Definition of_result {A} (r : result A) : M A :=
  match r with
  | Ok a => ret a
  | Raise e => raise (Exn e)
  end.

(** [str(a)] for an element of an argument list. *)
Definition format_arg (a : arg) : string :=
  match a with
  | Str s => s
  | PathArg p => path_str p
  | VersionArg v => Version_str v
  end.

Record Arguments := {
  args_version : Version;
  args_part : string;
  args_path : Path;
  args_homebrew_path : Path;
  args_homebrew_set_default : bool
}.

(** What [argparse] reads from the command line, defaults filled in. *)
Record CommandLine := {
  cl_version : string;
  cl_part : string;
  cl_path : Path;
  cl_homebrew_path : Path;
  cl_homebrew_set_default : bool
}.

Definition HOMEBREW_PYTHON : N * N := (3, 7)%N.

(** [_SUBPACKAGES], each as the path it denotes. *)
Definition _SUBPACKAGES : list Path :=
  [ ["core"];
    ["plugins"; "postgres"];
    ["plugins"; "redshift"];
    ["plugins"; "bigquery"];
    ["plugins"; "snowflake"] ].

(** Whether an argument list holds an object that is neither a string nor
    a path. *)
Definition holds_object (cmd : list arg) : bool :=
  existsb (fun a => match a with VersionArg _ => true | _ => false end) cmd.

(** The error of [subprocess] on such an argument list. *)
Definition not_a_string : exn :=
  TypeError "expected str, bytes or os.PathLike object, not Version".

(** An ancestor of [p] is a regular file. *)
Definition file_on_the_way (fs : FS) (p : Path) : bool :=
  existsb (fun q => match fs !! q with Some (File _) => true | _ => false end)
          (prefixes (parent p)).

Section Script.
Context (E : Env).

(** *** Library calls *)

(** [p.exists()]. *)
Definition path_exists (p : Path) : M bool :=
  fs0 <- get_fs ;; ret (exists_ fs0 p).

(** [shutil.rmtree(p)]. *)
Definition shutil_rmtree (p : Path) : M unit :=
  log (EvRmtree p) ;;
  fs0 <- get_fs ;;
  match fs0 !! p with
  | Some Dir => set_fs (remove_tree p fs0)
  | Some (File _) => raise (Exn (OSError "Not a directory"))
  | None => raise (Exn (OSError "No such file or directory"))
  end.

(** [os.makedirs(p, exist_ok=exist_ok)]. *)
Definition os_makedirs (p : Path) (exist_ok : bool) : M unit :=
  log (EvMakedirs p) ;;
  fs0 <- get_fs ;;
  if file_on_the_way fs0 p
  then raise (Exn (OSError "Not a directory"))
  else if match fs0 !! p with Some (File _) => true | _ => false end
  then raise (Exn (OSError "File exists"))
  else if exists_ fs0 p && negb exist_ok
  then raise (Exn (OSError "File exists"))
  else set_fs (foldr (fun q m => <[q:=Dir]> m) fs0 (prefixes p)).

(** [shutil.copy(src, dst)]. *)
Definition shutil_copy (src dst : Path) : M unit :=
  log (EvCopy src dst) ;;
  fs0 <- get_fs ;;
  match fs0 !! src with
  | Some (File text) =>
      let target := if is_dir fs0 dst then dst ++ [basename src] else dst in
      if bool_decide (target = src)
      then raise (Exn (OSError "are the same file"))
      else if is_dir fs0 target
      then raise (Exn (OSError "Is a directory"))
      else if is_dir fs0 (parent target)
      then set_fs (<[target:=File text]> fs0)
      else raise (Exn (OSError "No such file or directory"))
  | Some Dir => raise (Exn (OSError "Is a directory"))
  | None => raise (Exn (OSError "No such file or directory"))
  end.

(** [p.write_text(text)]. *)
Definition write_text (p : Path) (text : string) : M unit :=
  log (EvWriteText p text) ;;
  fs0 <- get_fs ;;
  if file_on_the_way fs0 p
  then raise (Exn (OSError "Not a directory"))
  else if is_dir fs0 p
  then raise (Exn (OSError "Is a directory"))
  else if is_dir fs0 (parent p)
  then set_fs (<[p:=File text]> fs0)
  else raise (Exn (OSError "No such file or directory")).

(** [os.remove(p)]. *)
Definition os_remove (p : Path) : M unit :=
  log (EvRemove p) ;;
  fs0 <- get_fs ;;
  match fs0 !! p with
  | Some (File _) => set_fs (delete p fs0)
  | Some Dir => raise (Exn (OSError "Is a directory"))
  | None => raise (Exn (OSError "No such file or directory"))
  end.

(** [tempfile.mkdtemp()]. *)
Definition tempfile_mkdtemp : M Path :=
  fun w =>
    let p := mkdtemp_name E w in
    (Return p, {| fs := <[p:=Dir]> (fs w); trace := trace w ++ [EvMkdtemp p] |}).

(** [os.rmdir(p)]. *)
Definition os_rmdir (p : Path) : M unit :=
  log (EvRmdir p) ;;
  fs0 <- get_fs ;;
  match fs0 !! p with
  | Some Dir =>
      if has_children fs0 p
      then raise (Exn (OSError "Directory not empty"))
      else set_fs (delete p fs0)
  | Some (File _) => raise (Exn (OSError "Not a directory"))
  | None => raise (Exn (OSError "No such file or directory"))
  end.

(** What [subprocess] does with an argument list: one that holds an object
    that is neither a string nor a path is refused before any program is
    started; otherwise the program runs, as the environment has it. *)
Definition run_program (cmd : list arg) (cwd : option Path) (w : World)
    : outcome * FS :=
  if holds_object cmd then (NotRun not_a_string, fs w) else spawn E cmd cwd w.

(** [subprocess.check_output(cmd, cwd=cwd)]: the output of the program
    when it exits with status 0, [CalledProcessError] with the status,
    the command and the captured output when it exits with another. *)
Definition check_output (cmd : list arg) (cwd : option Path) : M string :=
  fun w =>
    let (out, fs') := run_program cmd cwd w in
    let tr := trace w ++ [EvExec cmd cwd (fs w) out] in
    match out with
    | Exited rc output =>
        if (rc =? 0)%Z
        then (Return output, {| fs := fs'; trace := tr |})
        else (Raised (CalledProcessError rc cmd output),
              {| fs := fs'; trace := tr |})
    | NotRun e => (Raised (Exn e), {| fs := fs w; trace := tr |})
    end.

(** [print(text)]. *)
Definition print (text : string) : M unit := log (EvPrint text).

(** [input(prompt)]. *)
Definition input (prompt : string) : M string :=
  fun w =>
    let answer := stdin E prompt w in
    let w' := {| fs := fs w; trace := trace w ++ [EvInput prompt answer] |} in
    match answer with
    | Some line => (Return line, w')
    | None => (Raised (Exn EOFError), w')
    end.

(** [venv.EnvBuilder.create(env_dir)] up to the call of [post_setup];
    the result is [context.env_exe]. *)
Definition EnvBuilder_setup (env_dir : Path) : M string :=
  fun w =>
    let (r, fs') := venv_setup E env_dir w in
    let w' := {| fs := fs'; trace := trace w ++ [EvVenv env_dir] |} in
    match r with
    | inl e => (Raised (Exn e), w')
    | inr env_exe => (Return env_exe, w')
    end.

(** [assert cond, msg]. *)
Definition assert_ (cond : bool) (msg : string) : M unit :=
  if cond then ret tt else raise (Exn (AssertionError msg)).

(** *** The script *)

(** [clean_dist]: what the context manager does before it yields, and
    the value it yields; it does nothing on exit. *)
Definition clean_dist (path : Path) (make : bool) : M Path :=
  let dist_path := path ++ ["dist"] in
  ex <- path_exists dist_path ;;
  (if ex then shutil_rmtree dist_path else ret tt) ;;
  (if make then os_makedirs dist_path false else ret tt) ;;
  ret dist_path.

(** [set_version].  Its caller passes the [Version] object itself, which
    goes into the command as it is. *)
Definition set_version (path : Path) (version : arg) (part : string) : M unit :=
  let cmd := [Str "bumpversion"; Str "--commit"; Str "--no-tag";
              Str "--new-version"; version; Str part] in
  check_output cmd (Some path) ;;
  print ("bumped version to " +:+ format_arg version).

Definition build_cmd : list arg :=
  [Str "python"; Str "setup.py"; Str "sdist"; Str "bdist_wheel"].

(** [build_pypi_package]. *)
Definition build_pypi_package (path : Path) : M unit :=
  check_output build_cmd (Some path) ;; ret tt.

(** [_all_packages_in]. *)
Definition _all_packages_in (path : Path) : M (list Path) :=
  fs0 <- get_fs ;;
  ret (glob_suffix fs0 path ".tar.gz" ++ glob_suffix fs0 path ".whl").

(** [build_pypi_packages]. *)
Definition build_pypi_packages (dbt_path : Path) : M Path :=
  dist_path <- clean_dist dbt_path false ;;
  sub_pkgs <- for_fold _SUBPACKAGES [] (fun sub_pkgs path =>
    let subpath := dbt_path ++ path in
    sub_dist <- clean_dist subpath false ;;
    build_pypi_package subpath ;;
    found <- _all_packages_in sub_dist ;;
    ret (sub_pkgs ++ found)) ;;
  build_pypi_package dbt_path ;;
  for_fold sub_pkgs tt (fun _ package => shutil_copy package dist_path) ;;
  print "built pypi packages" ;;
  ret dist_path.

(** [upload_pypi_packages]. *)
Definition upload_pypi_packages (dist_path : Path) (test : bool) : M unit :=
  let cmd := [Str "twine"; Str "upload"] in
  let cmd := if test then cmd ++ [Str "--repository"; Str "pypitest"] else cmd in
  found <- _all_packages_in dist_path ;;
  let cmd := cmd ++ List.map (fun p => Str (path_str p)) found in
  print ("uploading packages: " +:+ String.concat " " (List.map format_arg cmd)) ;;
  check_output cmd None ;;
  ret tt.

(** [PoetVirtualenv.post_setup], with [context.env_exe] given. *)
Definition post_setup (dbt_version : Version) (env_exe : string) : M unit :=
  tmp <- tempfile_mkdtemp ;;
  let cmd := [Str env_exe; Str "-m"; Str "pip"; Str "install"; Str "--upgrade";
              Str "homebrew-pypi-poet";
              Str ("dbt==" +:+ Version_str dbt_version)] in
  print ("installing homebrew-pypi-poet and dbt==" +:+ Version_str dbt_version) ;;
  result <- try_finally (check_output cmd (Some tmp)) (os_rmdir tmp) ;;
  print "done:" ;;
  print result.

(** [PoetVirtualenv(dbt_version).create(env_dir)]. *)
Definition PoetVirtualenv_create (dbt_version : Version) (env_dir : Path) : M unit :=
  env_exe <- EnvBuilder_setup env_dir ;;
  post_setup dbt_version env_exe.

(** [make_venv]. *)
Definition make_venv (dbt_path : Path) (dbt_version : Version) : M Path :=
  let build_path := dbt_path ++ ["build"] in
  let venv_path := build_path ++ ["tmp-venv"] in
  os_makedirs build_path true ;;
  ex <- path_exists venv_path ;;
  (if ex then shutil_rmtree venv_path else ret tt) ;;
  PoetVirtualenv_create dbt_version venv_path ;;
  ret venv_path.

(** [homebrew_formula_template]. *)
Definition homebrew_formula_template (dbt_path : Path) (version : Version)
    : M DbtHomebrewTemplate :=
  env_path <- make_venv dbt_path version ;;
  print "done setting up virtualenv" ;;
  let poet := env_path ++ ["bin"; "poet"] in
  output <- check_output [PathArg poet; Str "-s"; Str "dbt"] None ;;
  parts <- of_result (unpack2 (_extract_parts output)) ;;
  dependencies <- check_output [PathArg poet; Str "-r"; Str "dbt"] None ;;
  ret {| url_data := parts.1; hash_data := parts.2;
         dependencies := dependencies; version := version |}.

(** [create_homebrew_formula]. *)
Definition create_homebrew_formula (template : DbtHomebrewTemplate)
    (version : Version) (homebrew_path : Path) : M Path :=
  let formula_contents := contents template true in
  let homebrew_formula_root := homebrew_path ++ ["Formula"] in
  let homebrew_formula_path :=
    homebrew_formula_root ++ [homebrew_filename version] in
  ex <- path_exists homebrew_formula_path ;;
  (if ex then raise (Exn (ValueError "Homebrew formula path already exists!"))
   else ret tt) ;;
  write_text homebrew_formula_path formula_contents ;;
  ret homebrew_formula_path.

(** [homebrew_run_tests]. *)
Definition homebrew_run_tests (formula_path : Path) : M unit :=
  check_output [Str "brew"; Str "uninstall"; Str "--force"; PathArg formula_path] None ;;
  check_output [Str "brew"; Str "install"; PathArg formula_path] None ;;
  check_output [Str "brew"; Str "test"; Str "dbt"] None ;;
  check_output [Str "brew"; Str "audit"; Str "--strict"; Str "dbt"] None ;;
  ret tt.

(** [homebrew_commit_formula]. *)
Definition homebrew_commit_formula (formula_path : Path) (version : Version)
    (homebrew_path : Path) : M unit :=
  check_output [Str "git"; Str "add"; PathArg formula_path] (Some homebrew_path) ;;
  check_output [Str "git"; Str "commit"; Str "-m";
                Str ("add dbt@" +:+ Version_str version)] (Some homebrew_path) ;;
  ret tt.

(** [set_default_homebrew_package].  Its last call hands [check_output]
    four positional arguments, of which [Popen] takes the second for its
    [bufsize] and refuses it. *)
Definition set_default_homebrew_package (template : DbtHomebrewTemplate)
    (version : Version) (homebrew_path : Path) : M unit :=
  let default_path := homebrew_path ++ ["Formula"; "dbt.rb"] in
  os_remove default_path ;;
  let formula_contents := contents template false in
  write_text default_path formula_contents ;;
  check_output [Str "git"; Str "add"; PathArg default_path] (Some homebrew_path) ;;
  raise (Exn (TypeError "bufsize must be an integer")).

(** [build_homebrew_package]. *)
Definition build_homebrew_package (dbt_path : Path) (version : Version)
    (homebrew_path : Path) (set_default : bool) : M Path :=
  template <- homebrew_formula_template dbt_path version ;;
  formula_path <- create_homebrew_formula template version homebrew_path ;;
  homebrew_run_tests formula_path ;;
  homebrew_commit_formula formula_path version homebrew_path ;;
  (if set_default then
     assert_ false "should not be set!!!" ;;
     set_default_homebrew_package template version homebrew_path
   else ret tt) ;;
  ret formula_path.

(** [sanity_check]. *)
Definition sanity_check : M unit :=
  (if bool_decide (python_version E = HOMEBREW_PYTHON) then ret tt
   else
     print "This script must be run with python 3.7" ;;
     raise (SystemExit 1)) ;;
  if wheel_importable E then ret tt
  else
    print ("The wheel package is required to build. Please run:" +:+ nl
           +:+ "pip install -r dev_requirements") ;;
    raise (SystemExit 1).

(** [Arguments.parse]: the conversion of the [version] argument is
    [Version]; [argparse] reports a [TypeError] or [ValueError] of a
    conversion as a usage error and lets any other exception through. *)
Definition Arguments_parse (cl : CommandLine) : M Arguments :=
  match Version_init (cl_version cl) with
  | Ok v =>
      ret {| args_version := v; args_part := cl_part cl;
             args_path := cl_path cl;
             args_homebrew_path := cl_homebrew_path cl;
             args_homebrew_set_default := cl_homebrew_set_default cl |}
  | Raise (TypeError _) | Raise (ValueError _) =>
      print "error: argument version: invalid Version value" ;;
      raise (SystemExit 2)
  | Raise e => raise (Exn e)
  end.

(** [upgrade_to]. *)
Definition upgrade_to (args : Arguments) : M unit :=
  set_version (args_path args) (VersionArg (args_version args)) (args_part args) ;;
  dist_path <- build_pypi_packages (args_path args) ;;
  upload_pypi_packages dist_path true ;;
  input ("Ensure https://test.pypi.org/project/dbt/"
         +:+ Version_str (args_version args)
         +:+ "/ exists and looks reasonable") ;;
  upload_pypi_packages dist_path false ;;
  build_homebrew_package (args_path args) (args_version args)
    (args_homebrew_path args) (args_homebrew_set_default args) ;;
  ret tt.

(** [main]. *)
Definition main (cl : CommandLine) : M unit :=
  sanity_check ;;
  args <- Arguments_parse cl ;;
  upgrade_to args.

End Script.

(** ** The pattern read as a scanner *)

(** What [VERSION_PATTERN.match] finds, written as one left-to-right scan:
    a run of digits, a dot, a run of digits, a dot, a run of digits and,
    when a run of lower-case letters and then a run of digits follow, that
    pair.  [match_VERSION_PATTERN] proves that the matcher computes this. *)
Definition scan_version (s : string) : option (gmap string string) :=
  let (ma, r1) := span is_digit s in
  match ma, r1 with
  | String _ _, String "." r2 =>
      let (mi, r3) := span is_digit r2 in
      match mi, r3 with
      | String _ _, String "." r4 =>
          let (pa, r5) := span is_digit r4 in
          let (tag, r6) := span is_lower r5 in
          let (nu, _) := span is_digit r6 in
          let core := <["patch":=pa]> (<["minor":=mi]> (<["major":=ma]> ∅)) in
          match pa, tag, nu with
          | String _ _, String _ _, String _ _ =>
              Some (<["num":=nu]> (<["prerelease":=tag]> core))
          | String _ _, _, _ => Some core
          | _, _, _ => None
          end
      | _, _ => None
      end
  | _, _ => None
  end.

(** What a greedy [[p]+] comes to when only its longest run can lead to a
    match: nothing when no character of the class is there, and otherwise
    the continuation on the longest run. *)
Definition plus_spec {A} p s (g : gmap string string)
    (k : string -> string -> gmap string string -> option A) : option A :=
  match (span p s).1 with
  | EmptyString => None
  | t => k t (span p s).2 g
  end.

(** [int(s)] as a total function (0 where [int] raises). *)
Definition int_of (s : string) : N := default 0%N (int_of_str s).

Definition no_match : exn :=
  AttributeError "'NoneType' object has no attribute 'groupdict'".

(** [Version(s)] written as one scan of [s], without the matcher: three
    runs of digits separated by dots are required at the start of [s]; the
    run of letters and the run of digits after them are taken together or
    not at all; what follows is not looked at.  [Version_init_scan] proves
    that [Version_init] computes this. *)
Definition Version_scan (s : string) : result Version :=
  let (ma, r1) := span is_digit s in
  match ma, r1 with
  | String _ _, String "." r2 =>
      let (mi, r3) := span is_digit r2 in
      match mi, r3 with
      | String _ _, String "." r4 =>
          let (pa, r5) := span is_digit r4 in
          let (tag, r6) := span is_lower r5 in
          let (nu, _) := span is_digit r6 in
          match pa, tag, nu with
          | String _ _, String _ _, String _ _ =>
              Ok {| raw := s; major := int_of ma; minor := int_of mi;
                    patch := int_of pa;
                    prerelease := Some tag; num := Some (int_of nu) |}
          | String _ _, _, _ =>
              Ok {| raw := s; major := int_of ma; minor := int_of mi;
                    patch := int_of pa; prerelease := None; num := None |}
          | _, _, _ => Raise no_match
          end
      | _, _ => Raise no_match
      end
  | _, _ => Raise no_match
  end.

(** ** The shapes of version strings the properties speak of *)

(** A non-empty run of decimal digits. *)
Definition digits (s : string) : Prop :=
  s <> "" /\ string_forall is_digit s = true.

(** A non-empty run of lower-case letters. *)
Definition letters (s : string) : Prop :=
  s <> "" /\ string_forall is_lower s = true.

(** [M.N.P]. *)
Definition core_text (ma mi pa : string) : string :=
  ma +:+ "." +:+ mi +:+ "." +:+ pa.

Definition pair_text (pair : option (string * string)) : string :=
  match pair with
  | Some (tag, nu) => tag +:+ nu
  | None => ""
  end.

(** [M.N.P] or [M.N.P<tag><num>]. *)
Definition version_text (ma mi pa : string) (pair : option (string * string))
    : string :=
  core_text ma mi pa +:+ pair_text pair.

Definition well_formed_pair (pair : option (string * string)) : Prop :=
  match pair with
  | Some (tag, nu) => letters tag /\ digits nu
  | None => True
  end.

(** [s] begins with [M.N.P]. *)
Definition starts_with_core (s : string) : Prop :=
  exists ma mi pa rest,
    digits ma /\ digits mi /\ digits pa /\ s = core_text ma mi pa +:+ rest.

(** Whether text that follows a version string makes the pattern match
    more than the version string: a digit extends the last number, and,
    when no pair was there, letters followed by a digit are a pair. *)
Definition extends_match (has_pair : bool) (trailing : string) : bool :=
  match trailing with
  | EmptyString => false
  | String c _ =>
      is_digit c
      || (negb has_pair
          && match span is_lower trailing with
             | (String _ _, String d _) => is_digit d
             | _ => false
             end)
  end.

(** The decimal numeral of the number a run of digits denotes: the run
    without its superfluous leading zeros. *)
Definition canon (s : string) : string := str_of_int (int_of s).

(** A run of digits that is [0] or does not start with [0]. *)
Definition canonical (s : string) : Prop :=
  digits s /\ (s = "0" \/ exists c r, s = String c r /\ c <> "0"%char).

Definition is_alnum (c : ascii) : bool := is_digit c || is_lower c || is_upper c.

(** The version [Version(s)] is when [s] is [M.N.P] or [M.N.P<tag><num>]
    followed by text that does not extend the match. *)
Definition version_of_text (s ma mi pa : string) (pair : option (string * string))
    : Version :=
  {| raw := s; major := int_of ma; minor := int_of mi; patch := int_of pa;
     prerelease := fst <$> pair; num := (fun p => int_of p.2) <$> pair |}.

(** ** The shapes of helper-tool output the properties speak of *)





(** ** Runs and their events *)

(** The events logged between [w] and a later world [w']. *)
Definition new_events (w w' : World) : list event :=
  drop (List.length (trace w)) (trace w').

Definition already_exists : exception :=
  Exn (ValueError "Homebrew formula path already exists!").

(** The path of the formula of a version. *)
Definition formula_path (homebrew_path : Path) (version : Version) : Path :=
  (homebrew_path ++ ["Formula"]) ++ [homebrew_filename version].

(** Every event of every run of [m] satisfies [P]. *)
Definition only (P : event -> Prop) {A} (m : M A) : Prop :=
  forall w, exists evs, trace (m w).2 = trace w ++ evs /\ Forall P evs.

(** Every run of [m] stops at the first program, among those whose command
    [sel] selects, that exits with a status other than 0: that call is the
    last event and the run raises its [CalledProcessError]. *)
Definition failfast (sel : list arg -> Prop) {A} (m : M A) : Prop :=
  forall w, exists evs,
    trace (m w).2 = trace w ++ evs
    /\ forall cmd cwd found rc out,
         sel cmd -> EvExec cmd cwd found (Exited rc out) ∈ evs -> rc <> 0%Z ->
         (m w).1 = Raised (CalledProcessError rc cmd out)
         /\ exists evs0, evs = evs0 ++ [EvExec cmd cwd found (Exited rc out)].

(** What [set_default_homebrew_package] does to the default formula
    [Formula/dbt.rb]: [os.remove] (which nothing else in the script
    calls) and the write of the new text. *)
Definition touches_default (homebrew_path : Path) (e : event) : Prop :=
  match e with
  | EvRemove _ => True
  | EvWriteText p _ => p = homebrew_path ++ ["Formula"; "dbt.rb"]
  | _ => False
  end.

Definition should_not_be_set : exception :=
  Exn (AssertionError "should not be set!!!").

(** ** The publication protocol *)

(** [twine upload ...]. *)
Definition is_upload (cmd : list arg) : bool :=
  match cmd with
  | Str a :: Str b :: _ => String.eqb b "upload" && String.eqb a "twine"
  | _ => false
  end.

(** [... --repository pypitest ...]: the upload goes to the staging index. *)
Definition is_staging (cmd : list arg) : bool :=
  match cmd with
  | _ :: _ :: Str c :: Str d :: _ =>
      String.eqb c "--repository" && String.eqb d "pypitest"
  | _ => false
  end.

Definition succeeded (out : outcome) : bool :=
  match out with
  | Exited rc _ => (rc =? 0)%Z
  | NotRun _ => false
  end.

(** The steps of the publication, each with whether it went through: an
    upload to the staging index, the answer of the operator to the prompt,
    an upload to the production index. *)
Inductive step :=
| Staging (ok : bool)
| Confirmation (ok : bool)
| Production (ok : bool).

Definition step_of (e : event) : option step :=
  match e with
  | EvExec cmd _ _ out =>
      if is_upload cmd
      then Some ((if is_staging cmd then Staging else Production) (succeeded out))
      else None
  | EvInput _ answer => Some (Confirmation (bool_decide (is_Some answer)))
  | _ => None
  end.

(** The publication steps among the events, in order. *)
Definition publication (evs : list event) : list step := omap step_of evs.

(** ** The stages of the pipeline *)

(** The command of [set_version] as [upgrade_to] calls it. *)
Definition set_version_cmd (args : Arguments) : list arg :=
  [Str "bumpversion"; Str "--commit"; Str "--no-tag"; Str "--new-version";
   VersionArg (args_version args); Str (args_part args)].

(** The events of the build stage before anything is copied or reported:
    the removals of [dist] directories and the calls of the build tool. *)
Definition build_stage_event (e : event) : Prop :=
  match e with
  | EvRmtree _ => True
  | EvExec cmd _ _ _ => cmd = build_cmd
  | _ => False
  end.

(** Every run of [m] logs events of the kind [P] and then events of the
    kind [Q]. *)
Definition in_two_stages (P Q : event -> Prop) {A} (m : M A) : Prop :=
  forall w, exists early later,
    trace (m w).2 = trace w ++ early ++ later
    /\ Forall P early /\ Forall Q later.

(** ** What the operator sees *)

(** What the script prints, in order. *)
Definition printed (evs : list event) : list string :=
  omap (fun e => match e with EvPrint text => Some text | _ => None end) evs.

(** A printable ASCII character other than the quotes and the backslash:
    [repr] writes it as it is. *)
Definition is_plain (c : ascii) : bool :=
  (32 <=? code c)%N && (code c <=? 126)%N
  && negb (code c =? 34)%N && negb (code c =? 39)%N && negb (code c =? 92)%N.

(** [repr(s)] for a string of such characters; for others [repr] escapes
    or picks other quotes, which is not modelled. *)
Definition repr_str (s : string) : option string :=
  if string_forall is_plain s then Some ("'" +:+ s +:+ "'") else None.

(** [repr] of an argument list of such strings. *)
Definition repr_cmd (cmd : list arg) : option string :=
  match mapM (fun a => match a with Str s => repr_str s | _ => None end) cmd with
  | Some texts => Some ("[" +:+ String.concat ", " texts +:+ "]")
  | None => None
  end.

(** [str(e)] for a [CalledProcessError] with a positive status, which is
    what the interpreter reports of the error when nothing catches it: it
    names the command and the status.  (A negative status stands for a
    signal, whose message is not modelled.) *)
Definition CalledProcessError_str (returncode : Z) (cmd : list arg)
    : option string :=
  if (0 <? returncode)%Z
  then (fun c => "Command '" +:+ c +:+ "' returned non-zero exit status "
                 +:+ str_of_int (Z.to_N returncode) +:+ ".")
         <$> repr_cmd cmd
  else None.

(** Whether [needle] occurs in [s]. *)
Fixpoint occurs_in (needle s : string) : bool :=
  String.prefix needle s
  || match s with
     | String _ s' => occurs_in needle s'
     | EmptyString => false
     end.

(** ** The first external call of a run *)

Definition is_exec (e : event) : bool :=
  match e with
  | EvExec _ _ _ _ => true
  | _ => false
  end.

(** The first call of an external program among the events. *)
Definition first_exec (evs : list event) : option event := List.find is_exec evs.

(** ** A sample release, for the examples *)

Definition sample_version : Version :=
  {| raw := "0.15.2"; major := 0; minor := 15; patch := 2;
     prerelease := None; num := None |}.

Definition sample_url : string :=
  "url " +:+ quoted "https://files.pythonhosted.org/packages/dbt-0.15.2.tar.gz".

Definition sample_hash : string :=
  "sha256 " +:+ quoted "7d29fb072a8ea7f04acae1519eade967f08b0f44ee7944169b446431dbff8d40".

(** What [poet -s dbt] prints. *)
Definition sample_poet_output : string :=
  unlines [resource_dbt_do; "  " +:+ sample_url; "  " +:+ sample_hash; "end"; ""].

Definition sample_template : DbtHomebrewTemplate :=
  {| url_data := sample_url; hash_data := sample_hash; dependencies := "";
     version := sample_version |}.

Definition sample_args : Arguments :=
  {| args_version := sample_version; args_part := "patch";
     args_path := ["dbt"]; args_homebrew_path := ["homebrew-dbt"];
     args_homebrew_set_default := false |}.

(** A checkout of the formula repository, and nothing else. *)
Definition sample_world : World :=
  {| fs := {[ ["homebrew-dbt"; "Formula"] := Dir ]}; trace := [] |}.

(** The same with a release directory left by an earlier build. *)
Definition sample_world_with_dist : World :=
  {| fs := <[ ["dbt"; "dist"; "dbt-0.15.1.tar.gz"] := File "old release" ]>
           (<[ ["dbt"; "dist"] := Dir ]>
            (<[ ["dbt"] := Dir ]> (fs sample_world)));
     trace := [] |}.

(** The world after the formula of the sample version has been written. *)
Definition sample_world_written : World :=
  (create_homebrew_formula sample_template sample_version ["homebrew-dbt"]
     sample_world).2.

Definition is_python_setup (cmd : list arg) : bool :=
  match cmd with
  | Str a :: Str b :: _ => String.eqb a "python" && String.eqb b "setup.py"
  | _ => false
  end.

(** An environment in which every program succeeds and leaves the file
    system as it is, except that the build fails in the directory
    [failing], if one is given; the operator answers the prompt. *)
Definition sample_env (failing : option (list string)) : Env :=
  {| spawn cmd cwd w :=
       if is_python_setup cmd && bool_decide (is_Some failing /\ cwd = failing)
       then (Exited 1 "error: could not build", fs w)
       else match cmd with
            | [PathArg _; Str "-s"; Str "dbt"] =>
                (Exited 0 sample_poet_output, fs w)
            | _ => (Exited 0 "", fs w)
            end;
     stdin _ _ := Some "";
     venv_setup env_dir w := (inr (path_str (env_dir ++ ["bin"; "python"])), fs w);
     mkdtemp_name _ := ["tmp"; "tmpdir"];
     python_version := (3, 7)%N;
     wheel_importable := true |}.

(** ** The order of the external calls *)

(** [get_targets]: the values the generator yields, in order. *)
Definition get_targets (path : list string) : list (list string) :=
  List.map (fun subpath => path ++ subpath) _SUBPACKAGES.

(** The calls of external programs among the events, in order. *)
Definition calls (evs : list event) : list event := List.filter is_exec evs.

(** The call [e] is of the shape [shape] and the program exited with 0. *)
Definition went_through (shape : list arg -> option (list string) -> Prop)
    (e : event) : Prop :=
  match e with
  | EvExec cmd cwd _ (Exited rc _) => rc = 0%Z /\ shape cmd cwd
  | _ => False
  end.

(** Every call of the list [shapes] was made, in this order, and every
    program exited with 0. *)
Definition completed (shapes : list (list arg -> option (list string) -> Prop))
    (evs : list event) : Prop :=
  Forall2 went_through shapes evs.

(** The calls [evs] follow the list [shapes] from its start: each call is
    of the next shape, and only the last one may have failed. *)
Inductive in_order :
    list (list arg -> option (list string) -> Prop) -> list event -> Prop :=
| in_order_stop shapes : in_order shapes []
| in_order_fail (shape : list arg -> option (list string) -> Prop)
      shapes cmd cwd found out :
    shape cmd cwd -> succeeded out = false ->
    in_order (shape :: shapes) [EvExec cmd cwd found out]
| in_order_next (shape : list arg -> option (list string) -> Prop)
      shapes cmd cwd found output evs :
    shape cmd cwd -> in_order shapes evs ->
    in_order (shape :: shapes) (EvExec cmd cwd found (Exited 0 output) :: evs).

(** Every run of [m] calls external programs in the order of [shapes],
    stops calling at the first that fails, and returns only when all of
    them went through. *)
Definition calls_in_order (shapes : list (list arg -> option (list string) -> Prop))
    {A} (m : M A) : Prop :=
  forall w, exists evs,
    trace (m w).2 = trace w ++ evs
    /\ in_order shapes (calls evs)
    /\ (forall a, (m w).1 = Return a -> completed shapes (calls evs)).

(** The call of exactly this command in this directory. *)
Definition exactly (cmd : list arg) (cwd : option (list string))
    : list arg -> option (list string) -> Prop :=
  fun cmd' cwd' => cmd' = cmd /\ cwd' = cwd.

(** The command of [post_setup]. *)
Definition pip_cmd (dbt_version : Version) (env_exe : string) : list arg :=
  [Str env_exe; Str "-m"; Str "pip"; Str "install"; Str "--upgrade";
   Str "homebrew-pypi-poet"; Str ("dbt==" +:+ Version_str dbt_version)].

(** The call of [pip] by [post_setup]: the interpreter of the virtual
    environment, in some temporary directory. *)
Definition pip_install (dbt_version : Version)
    : list arg -> option (list string) -> Prop :=
  fun cmd cwd => exists env_exe tmp, cmd = pip_cmd dbt_version env_exe /\ cwd = Some tmp.

(** The command of [upload_pypi_packages] for the files [files]. *)
Definition twine_cmd (test : bool) (files : list (list string)) : list arg :=
  [Str "twine"; Str "upload"]
  ++ (if test then [Str "--repository"; Str "pypitest"] else [])
  ++ List.map (fun p => Str (path_str p)) files.

(** A call of [twine] by [upload_pypi_packages]: on entries of the release
    directory. *)
Definition twine_upload (dist_path : list string) (test : bool)
    : list arg -> option (list string) -> Prop :=
  fun cmd cwd =>
    cwd = None
    /\ exists files,
         Forall (fun p => p <> [] /\ parent p = dist_path) files
         /\ cmd = twine_cmd test files.

(** The builds of [build_pypi_packages]: the subpackages, then the main
    package. *)
Definition pypi_build_calls (dbt_path : list string)
    : list (list arg -> option (list string) -> Prop) :=
  List.map (fun p => exactly build_cmd (Some p)) (get_targets dbt_path ++ [dbt_path]).

Definition poet_path (dbt_path : list string) : list string :=
  ((dbt_path ++ ["build"]) ++ ["tmp-venv"]) ++ ["bin"; "poet"].

(** The calls of [build_homebrew_package]. *)
Definition homebrew_calls (dbt_path : list string) (v : Version)
    (homebrew_path : list string)
    : list (list arg -> option (list string) -> Prop) :=
  let p := formula_path homebrew_path v in
  [ pip_install v;
    exactly [PathArg (poet_path dbt_path); Str "-s"; Str "dbt"] None;
    exactly [PathArg (poet_path dbt_path); Str "-r"; Str "dbt"] None;
    exactly [Str "brew"; Str "uninstall"; Str "--force"; PathArg p] None;
    exactly [Str "brew"; Str "install"; PathArg p] None;
    exactly [Str "brew"; Str "test"; Str "dbt"] None;
    exactly [Str "brew"; Str "audit"; Str "--strict"; Str "dbt"] None;
    exactly [Str "git"; Str "add"; PathArg p] (Some homebrew_path);
    exactly [Str "git"; Str "commit"; Str "-m";
             Str ("add dbt@" +:+ Version_str v)] (Some homebrew_path) ].

(** ** Failures *)

(** [<python> -m pip install ...]: the command of [post_setup], the one
    call of the script that sits in a [try] with a [finally]. *)
Definition is_pip_install (cmd : list arg) : bool :=
  match cmd with
  | _ :: Str b :: Str c :: Str d :: _ =>
      String.eqb b "-m" && String.eqb c "pip" && String.eqb d "install"
  | _ => false
  end.

(** [brew test ...]. *)
Definition is_brew_test (cmd : list arg) : bool :=
  match cmd with
  | Str a :: Str b :: _ => String.eqb a "brew" && String.eqb b "test"
  | _ => false
  end.

(** The sample environment, except that the programs whose command [bad]
    selects fail. *)
Definition sample_env_where (bad : list arg -> bool) : Env :=
  {| spawn cmd cwd w :=
       if bad cmd then (Exited 1 "failed", fs w)
       else spawn (sample_env None) cmd cwd w;
     stdin := stdin (sample_env None);
     venv_setup := venv_setup (sample_env None);
     mkdtemp_name := mkdtemp_name (sample_env None);
     python_version := python_version (sample_env None);
     wheel_importable := wheel_importable (sample_env None) |}.

(** ** The names of the formula of a version *)

(** The prerelease of a parsed version: a tag of lower-case letters
    together with a number, or neither. *)
Definition well_formed_prerelease (v : Version) : Prop :=
  match prerelease v, num v with
  | Some tag, Some _ => string_forall is_lower tag = true
  | None, None => True
  | _, _ => False
  end.

(** What follows the three numbers in the file name. *)
Definition filename_tail (v : Version) : string :=
  match prerelease v, num v with
  | Some pre, Some n => String "-" (pre +:+ (str_of_int n +:+ String "." "rb"))
  | _, _ => String "." "rb"
  end.

(** Not the writing of a file. *)
Definition not_write (e : event) : Prop :=
  match e with
  | EvWriteText _ _ => False
  | _ => True
  end.

(** ** What is copied into the release directory *)

(** An artifact of one of the subpackages: an entry of its [dist]
    directory whose name ends with [.tar.gz] or [.whl]. *)
Definition subpackage_artifact (dbt_path q : list string) : Prop :=
  q <> []
  /\ (exists sub, sub ∈ _SUBPACKAGES /\ parent q = (dbt_path ++ sub) ++ ["dist"])
  /\ (ends_with ".tar.gz" (basename q) = true
      \/ ends_with ".whl" (basename q) = true).

(** Every value [m] returns satisfies [Q]. *)
Definition returns {A} (Q : A -> Prop) (m : M A) : Prop :=
  forall w a w', m w = (Return a, w') -> Q a.

Definition not_copy (e : event) : Prop :=
  match e with
  | EvCopy _ _ => False
  | _ => True
  end.

(** An environment in which a build leaves a wheel in the [dist]
    directory of the package it builds, and every other program does
    nothing and succeeds. *)
Definition sample_env_building : Env :=
  {| spawn cmd cwd w :=
       match cwd with
       | Some p =>
           if is_python_setup cmd
           then (Exited 0 "",
                 <[p ++ ["dist"; "dbt.whl"] := File "wheel"]>
                   (<[p ++ ["dist"] := Dir]> (fs w)))
           else (Exited 0 "", fs w)
       | None => (Exited 0 "", fs w)
       end;
     stdin := stdin (sample_env None);
     venv_setup := venv_setup (sample_env None);
     mkdtemp_name := mkdtemp_name (sample_env None);
     python_version := python_version (sample_env None);
     wheel_importable := wheel_importable (sample_env None) |}.

(** * Properties *)

(** ** Strings *)

Lemma append_cons (c : ascii) (s t : string) :
  String c s +:+ t = String c (s +:+ t).
Proof. reflexivity. Qed.

Lemma append_nil_l (s : string) : "" +:+ s = s.
Proof. reflexivity. Qed.

Lemma append_nil_r (s : string) : s +:+ "" = s.
Proof. induction s as [|c s IH]; [done | by rewrite append_cons, IH]. Qed.

Lemma append_assoc (s t u : string) : (s +:+ t) +:+ u = s +:+ (t +:+ u).
Proof.
  induction s as [|c s IH]; [done | by rewrite !append_cons, IH].
Qed.

Lemma append_snoc (s : string) (c : ascii) (t : string) :
  (s +:+ String c "") +:+ t = s +:+ String c t.
Proof. by rewrite append_assoc, append_cons, append_nil_l. Qed.

(** ** The matcher *)

(** A greedy run followed by something that refuses every input starting
    with a character of the class takes the longest run or fails. *)
Lemma star_refusing {A} p s acc (k : string -> string -> option A) :
  (forall t c r, p c = true -> k t (String c r) = None) ->
  Re.star p s acc k = k (acc +:+ (span p s).1) (span p s).2.
Proof.
  intros Hk. revert acc.
  induction s as [|c s IH]; intros acc; simpl.
  - by rewrite append_nil_r.
  - destruct (p c) eqn:Hc; simpl.
    + rewrite IH. destruct (span p s) as [run rest]; simpl.
      rewrite append_snoc.
      destruct (k (acc +:+ String c run) rest); [done |].
      by apply Hk.
    + by rewrite append_nil_r.
Qed.

(** A greedy run followed by something that accepts everything takes the
    longest run. *)
Lemma star_accepting {A} p s acc (k : string -> string -> option A) :
  (forall t r, is_Some (k t r)) ->
  Re.star p s acc k = k (acc +:+ (span p s).1) (span p s).2.
Proof.
  intros Hk. revert acc.
  induction s as [|c s IH]; intros acc; simpl.
  - by rewrite append_nil_r.
  - destruct (p c) eqn:Hc; simpl.
    + rewrite IH. destruct (span p s) as [run rest]; simpl.
      rewrite append_snoc.
      by destruct (Hk (acc +:+ String c run) rest) as [x ->].
    + by rewrite append_nil_r.
Qed.

Lemma run_plus_refusing {A} p s g
    (k : string -> string -> gmap string string -> option A) :
  (forall t c r, p c = true -> k t (String c r) g = None) ->
  Re.run (Re.Plus p) s g k = plus_spec p s g k.
Proof.
  intros Hk. unfold plus_spec. destruct s as [|c s]; simpl; [done |].
  destruct (p c) eqn:Hc; simpl; [| done].
  rewrite (star_refusing p s _ (fun t r => k t r g)) by (intros; by apply Hk).
  by destruct (span p s).
Qed.

Lemma run_plus_accepting {A} p s g
    (k : string -> string -> gmap string string -> option A) :
  (forall t r, is_Some (k t r g)) ->
  Re.run (Re.Plus p) s g k = plus_spec p s g k.
Proof.
  intros Hk. unfold plus_spec. destruct s as [|c s]; simpl; [done |].
  destruct (p c) eqn:Hc; simpl; [| done].
  rewrite (star_accepting p s _ (fun t r => k t r g)) by (intros; by apply Hk).
  by destruct (span p s).
Qed.

Lemma digit_not_dot c : is_digit c = true -> is_char "." c = false.
Proof.
  unfold is_char. intros H. apply bool_decide_eq_false. intros ->. done.
Qed.

Lemma lower_not_digit c : is_lower c = true -> is_digit c = false.
Proof.
  unfold is_lower, is_digit. intros H.
  apply andb_true_iff in H as [H1 H2].
  apply N.leb_le in H1. apply andb_false_iff. right. apply N.leb_gt. lia.
Qed.

Lemma span_stops p s c r : (span p s).2 = String c r -> p c = false.
Proof.
  induction s as [|a s IH]; simpl; [done |].
  destruct (p a) eqn:Ha.
  - destruct (span p s); simpl in *. done.
  - simpl. by intros [= -> ->].
Qed.

Lemma span_all p s : string_forall p (span p s).1 = true.
Proof.
  induction s as [|a s IH]; simpl; [done |].
  destruct (p a) eqn:Ha; [| done].
  destruct (span p s); simpl in *. unfold string_forall in *. simpl.
  by rewrite Ha, IH.
Qed.

Lemma span_append p s : (span p s).1 +:+ (span p s).2 = s.
Proof.
  induction s as [|a s IH]; simpl; [done |].
  destruct (p a); [| done].
  destruct (span p s); simpl in *. by rewrite append_cons, IH.
Qed.

Section RunEquations.
Context {A : Type}.
Implicit Types k : string -> string -> gmap string string -> option A.

Lemma run_cat r1 r2 s g k :
  Re.run (Re.Cat r1 r2) s g k
  = Re.run r1 s g (fun c1 s1 g1 =>
      Re.run r2 s1 g1 (fun c2 s2 g2 => k (c1 +:+ c2) s2 g2)).
Proof. reflexivity. Qed.

Lemma run_named name r s g k :
  Re.run (Re.Named name r) s g k
  = Re.run r s g (fun c s' g' => k c s' (<[name:=c]> g')).
Proof. reflexivity. Qed.

Lemma run_opt r s g k :
  Re.run (Re.Opt r) s g k
  = match Re.run r s g k with Some x => Some x | None => k "" s g end.
Proof. reflexivity. Qed.

Lemma run_class_cons p c s g k :
  Re.run (Re.Class p) (String c s) g k
  = if p c then k (String c "") s g else None.
Proof. reflexivity. Qed.

Lemma run_class_nil p g k : Re.run (Re.Class p) "" g k = None.
Proof. reflexivity. Qed.
End RunEquations.

Lemma is_char_dot c : is_char "." c = true -> c = "."%char.
Proof. unfold is_char. by intros ?%bool_decide_eq_true. Qed.

(** [VERSION_PATTERN.match(s).groupdict()] is what the scan finds. *)
Lemma match_VERSION_PATTERN s :
  Re.groupdict <$> Re.match_ VERSION_PATTERN s = scan_version s.
Proof.
  unfold Re.match_, VERSION_PATTERN, scan_version.
  rewrite run_cat, run_named, run_plus_refusing; cycle 1.
  { intros t c r Hc. rewrite run_cat, run_class_cons.
    by rewrite (digit_not_dot c Hc). }
  unfold plus_spec.
  destruct (span is_digit s) as [ma r1]; cbn [fst snd].
  destruct ma as [|ma0 ma]; [done |].
  destruct r1 as [|c1 r1]; [done |].
  rewrite run_cat, run_class_cons.
  destruct (is_char "." c1) eqn:Hdot; cycle 1.
  { destruct c1 as [[] [] [] [] [] [] [] []]; done. }
  apply is_char_dot in Hdot as ->.
  rewrite run_cat, run_named, run_plus_refusing; cycle 1.
  { intros t c r Hc. rewrite run_cat, run_class_cons.
    by rewrite (digit_not_dot c Hc). }
  unfold plus_spec.
  destruct (span is_digit r1) as [mi r3]; cbn [fst snd].
  destruct mi as [|mi0 mi]; [done |].
  destruct r3 as [|c3 r3]; [done |].
  rewrite run_cat, run_class_cons.
  destruct (is_char "." c3) eqn:Hdot; cycle 1.
  { destruct c3 as [[] [] [] [] [] [] [] []]; done. }
  apply is_char_dot in Hdot as ->.
  rewrite run_cat, run_named, run_plus_accepting; cycle 1.
  { intros t r. rewrite run_opt.
    match goal with |- is_Some (match ?x with _ => _ end) => destruct x end;
      eauto. }
  unfold plus_spec.
  destruct (span is_digit r3) as [pa r5]; cbn [fst snd].
  destruct pa as [|pa0 pa].
  { by destruct (span is_lower r5), (span is_digit _). }
  rewrite run_opt, run_cat, run_named, run_plus_refusing; cycle 1.
  { intros t c r Hc. rewrite run_named. cbn [Re.run].
    by rewrite (lower_not_digit c Hc). }
  unfold plus_spec.
  destruct (span is_lower r5) as [tag r6]; cbn [fst snd].
  destruct tag as [|tag0 tag].
  { by destruct (span is_digit r6). }
  rewrite run_named, run_plus_accepting; cycle 1.
  { intros t r. eauto. }
  unfold plus_spec.
  destruct (span is_digit r6) as [nu r7]; cbn [fst snd].
  destruct nu as [|nu0 nu]; done.
Qed.

(** ** Numbers *)

Lemma uint_of_string_digits s :
  string_forall is_digit s = true -> is_Some (NilEmpty.uint_of_string s).
Proof.
  unfold string_forall.
  induction s as [|a s IH]; cbn [list_ascii_of_string forallb]; [by eauto |].
  intros [Ha Hs]%andb_true_iff. destruct (IH Hs) as [d Hd].
  cbn [NilEmpty.uint_of_string]. rewrite Hd.
  destruct a as [[] [] [] [] [] [] [] []]; vm_compute in Ha;
    try discriminate Ha; by eexists.
Qed.

Lemma int_of_str_digits a s :
  string_forall is_digit (String a s) = true ->
  int_of_str (String a s) = Some (int_of (String a s)).
Proof.
  intros H. unfold int_of, int_of_str.
  destruct (uint_of_string_digits _ H) as [d ->]. done.
Qed.

Lemma int_of_str_of_int n : int_of_str (str_of_int n) = Some n.
Proof.
  unfold int_of_str, str_of_int.
  rewrite NilEmpty.usu. cbn. rewrite DecimalN.Unsigned.of_to.
  destruct (NilEmpty.string_of_uint (N.to_uint n)) eqn:E; [| done].
  exfalso. destruct n; [done |].
  assert (N.to_uint (N.pos p) <> Decimal.Nil) as Hn.
  { intros Hd. pose proof (DecimalN.Unsigned.of_to (N.pos p)) as Ho.
    rewrite Hd in Ho. done. }
  destruct (N.to_uint (N.pos p)); done.
Qed.

Lemma int_of_str_of_int' n : int_of (str_of_int n) = n.
Proof. unfold int_of. by rewrite int_of_str_of_int. Qed.

(** ** Version: the matcher computes the scan *)

Lemma span_fst_all p s t r : span p s = (t, r) -> string_forall p t = true.
Proof. intros H. pose proof (span_all p s) as Ha. by rewrite H in Ha. Qed.

Lemma int_group_insert_eq g name a s :
  string_forall is_digit (String a s) = true ->
  int_group (<[name:=String a s]> g) name = Ok (int_of (String a s)).
Proof.
  intros H. unfold int_group. rewrite lookup_insert_eq.
  by rewrite int_of_str_digits.
Qed.

Lemma int_group_insert_ne g name name' s :
  name' <> name ->
  int_group (<[name':=s]> g) name = int_group g name.
Proof. intros H. unfold int_group. by rewrite lookup_insert_ne. Qed.

Theorem Version_init_scan s : Version_init s = Version_scan s.
Proof.
  unfold Version_init, Version_scan.
  pose proof (match_VERSION_PATTERN s) as Hm. unfold scan_version in Hm.
  destruct (span is_digit s) as [ma r1] eqn:E1.
  destruct ma as [|ma0 ma]; [by destruct (Re.match_ _ _) |].
  destruct r1 as [|c1 r1]; [by destruct (Re.match_ _ _) |].
  destruct (decide (c1 = "."%char)) as [-> | Hc1]; cycle 1.
  { destruct (Re.match_ _ _); [| by destruct c1 as [[] [] [] [] [] [] [] []]].
    exfalso. by destruct c1 as [[] [] [] [] [] [] [] []]. }
  destruct (span is_digit r1) as [mi r3] eqn:E2.
  destruct mi as [|mi0 mi]; [by destruct (Re.match_ _ _) |].
  destruct r3 as [|c3 r3]; [by destruct (Re.match_ _ _) |].
  destruct (decide (c3 = "."%char)) as [-> | Hc3]; cycle 1.
  { destruct (Re.match_ _ _); [| by destruct c3 as [[] [] [] [] [] [] [] []]].
    exfalso. by destruct c3 as [[] [] [] [] [] [] [] []]. }
  destruct (span is_digit r3) as [pa r5] eqn:E3.
  destruct (span is_lower r5) as [tag r6] eqn:E4.
  destruct (span is_digit r6) as [nu r7] eqn:E5.
  apply span_fst_all in E1, E2, E3, E5.
  destruct pa as [|pa0 pa]; [by destruct (Re.match_ _ _) |].
  destruct (Re.match_ VERSION_PATTERN s) as [m|]; cycle 1.
  { by destruct tag, nu. }
  cbn [fmap option_fmap option_map] in Hm.
  destruct tag as [|tag0 tag], nu as [|nu0 nu];
    injection Hm as ->; unfold rbind;
    repeat first
      [ rewrite int_group_insert_eq by done
      | rewrite int_group_insert_ne by done
      | rewrite lookup_insert_eq
      | rewrite lookup_insert_ne by done
      | rewrite lookup_empty ];
    done.
Qed.

(** ** Spans of composed strings *)

Lemma string_forall_cons p c s :
  string_forall p (String c s) = p c && string_forall p s.
Proof. reflexivity. Qed.

Lemma string_forall_app p s t :
  string_forall p (s +:+ t) = string_forall p s && string_forall p t.
Proof.
  induction s as [|c s IH]; [done |].
  by rewrite append_cons, !string_forall_cons, IH, andb_assoc.
Qed.

Lemma span_cons_false p c r : p c = false -> span p (String c r) = ("", String c r).
Proof. intros H. cbn. by rewrite H. Qed.

(** A run of the class in front is taken whole. *)
Lemma span_app_all p t x :
  string_forall p t = true ->
  span p (t +:+ x) = (t +:+ (span p x).1, (span p x).2).
Proof.
  induction t as [|c t IH]; intros H.
  - rewrite !append_nil_l. by destruct (span p x).
  - rewrite string_forall_cons in H. apply andb_true_iff in H as [Hc Ht].
    rewrite !append_cons. cbn [span]. rewrite Hc, (IH Ht). done.
Qed.

Lemma span_app_stop p t c r :
  string_forall p t = true -> p c = false ->
  span p (t +:+ String c r) = (t, String c r).
Proof.
  intros H Hc. rewrite span_app_all by done.
  rewrite span_cons_false by done. cbn. by rewrite append_nil_r.
Qed.

Lemma span_all_nil p t : string_forall p t = true -> span p t = (t, "").
Proof.
  intros H. rewrite <- (append_nil_r t) at 1.
  rewrite span_app_all by done. cbn. by rewrite append_nil_r.
Qed.

Lemma span_nonempty p c t x :
  string_forall p (String c t) = true ->
  exists u, (span p (String c t +:+ x)).1 = String c u.
Proof.
  intros H. rewrite span_app_all by done. rewrite append_cons. by eexists.
Qed.

Lemma dot_not_digit : is_digit "." = false.
Proof. reflexivity. Qed.

Lemma digit_not_lower c : is_digit c = true -> is_lower c = false.
Proof.
  intros H. destruct (is_lower c) eqn:Hl; [| done].
  apply lower_not_digit in Hl. congruence.
Qed.

(** ** Version: what parsing makes of [M.N.P] followed by anything *)

Lemma core_text_app ma mi pa x :
  core_text ma mi pa +:+ x = ma +:+ String "." (mi +:+ String "." (pa +:+ x)).
Proof.
  unfold core_text. rewrite !append_assoc.
  by rewrite !append_cons, !append_nil_l.
Qed.

Lemma digits_inv s : digits s -> exists a t, s = String a t /\ string_forall is_digit (String a t) = true.
Proof. intros [Hne H]. destruct s as [|a t]; [done |]. by exists a, t. Qed.

Lemma letters_inv s : letters s -> exists a t, s = String a t /\ string_forall is_lower (String a t) = true.
Proof. intros [Hne H]. destruct s as [|a t]; [done |]. by exists a, t. Qed.

Lemma Version_scan_core ma mi pa x :
  digits ma -> digits mi -> digits pa ->
  Version_scan (core_text ma mi pa +:+ x)
  = let s := core_text ma mi pa +:+ x in
    let pa' := pa +:+ (span is_digit x).1 in
    let r5 := (span is_digit x).2 in
    let tag := (span is_lower r5).1 in
    let nu := (span is_digit (span is_lower r5).2).1 in
    match tag, nu with
    | String _ _, String _ _ =>
        Ok {| raw := s; major := int_of ma; minor := int_of mi;
              patch := int_of pa';
              prerelease := Some tag; num := Some (int_of nu) |}
    | _, _ =>
        Ok {| raw := s; major := int_of ma; minor := int_of mi;
              patch := int_of pa'; prerelease := None; num := None |}
    end.
Proof.
  intros (a & ma' & -> & Hma)%digits_inv (b & mi' & -> & Hmi)%digits_inv
         (c & pa' & -> & Hpa)%digits_inv.
  cbv zeta. unfold Version_scan.
  rewrite core_text_app.
  rewrite (span_app_stop is_digit _ "." _ Hma dot_not_digit).
  rewrite (span_app_stop is_digit _ "." _ Hmi dot_not_digit).
  rewrite (span_app_all is_digit _ x Hpa).
  rewrite append_cons.
  destruct (span is_digit x) as [more r5]; cbn [fst snd].
  destruct (span is_lower r5) as [tag r6]; cbn [fst snd].
  destruct (span is_digit r6) as [nu r7]; cbn [fst snd].
  by destruct tag, nu.
Qed.

(** Every accepted string begins with [M.N.P]. *)
Lemma Version_scan_Ok_core s v :
  Version_scan s = Ok v -> starts_with_core s.
Proof.
  unfold Version_scan.
  pose proof (span_all is_digit s) as H1. pose proof (span_append is_digit s) as A1.
  destruct (span is_digit s) as [ma r1]; cbn [fst snd] in *.
  destruct ma as [|a ma]; [done |].
  destruct r1 as [|c1 r1]; [done |].
  destruct (decide (c1 = "."%char)) as [-> | Hc1];
    [| by destruct c1 as [[] [] [] [] [] [] [] []]].
  pose proof (span_all is_digit r1) as H2. pose proof (span_append is_digit r1) as A2.
  destruct (span is_digit r1) as [mi r3]; cbn [fst snd] in *.
  destruct mi as [|b mi]; [done |].
  destruct r3 as [|c3 r3]; [done |].
  destruct (decide (c3 = "."%char)) as [-> | Hc3];
    [| by destruct c3 as [[] [] [] [] [] [] [] []]].
  pose proof (span_all is_digit r3) as H3. pose proof (span_append is_digit r3) as A3.
  destruct (span is_digit r3) as [pa r5]; cbn [fst snd] in *.
  destruct (span is_lower r5) as [tag r6].
  destruct (span is_digit r6) as [nu r7].
  destruct pa as [|c pa]; [by destruct tag, nu |].
  intros _. exists (String a ma), (String b mi), (String c pa), r5.
  repeat split; try done.
  rewrite core_text_app, A3, A2, A1. done.
Qed.

Lemma starts_with_core_Ok s :
  starts_with_core s -> exists v, Version_init s = Ok v /\ raw v = s.
Proof.
  intros (ma & mi & pa & rest & Hma & Hmi & Hpa & ->).
  rewrite Version_init_scan, Version_scan_core by done. cbv zeta.
  match goal with
  | |- context [match ?t with EmptyString => _ | String _ _ => _ end] =>
      destruct t
  end;
  [by eexists |].
  match goal with
  | |- context [match ?t with EmptyString => _ | String _ _ => _ end] =>
      destruct t
  end; by eexists.
Qed.

Lemma Version_scan_Raise s e : Version_scan s = Raise e -> e = no_match.
Proof.
  unfold Version_scan.
  destruct (span is_digit s) as [ma r1].
  destruct ma as [|a ma]; [by intros [= <-] |].
  destruct r1 as [|c1 r1]; [by intros [= <-] |].
  destruct (decide (c1 = "."%char)) as [-> | Hc1];
    [| destruct c1 as [[] [] [] [] [] [] [] []];
       first [done | by intros [= <-]]].
  destruct (span is_digit r1) as [mi r3].
  destruct mi as [|b mi]; [by intros [= <-] |].
  destruct r3 as [|c3 r3]; [by intros [= <-] |].
  destruct (decide (c3 = "."%char)) as [-> | Hc3];
    [| destruct c3 as [[] [] [] [] [] [] [] []];
       first [done | by intros [= <-]]].
  destruct (span is_digit r3) as [pa r5].
  destruct (span is_lower r5) as [tag r6].
  destruct (span is_digit r6) as [nu r7].
  destruct pa, tag, nu; by intros [= <-].
Qed.

(** Parsing fails exactly on the strings that do not begin with [M.N.P],
    and then with the error of calling [groupdict] on no match. *)
Lemma Version_init_rejects s :
  ~ starts_with_core s <-> Version_init s = Raise no_match.
Proof.
  split.
  - intros Hn. destruct (Version_init s) as [v | e] eqn:Hv.
    + rewrite Version_init_scan in Hv. by apply Version_scan_Ok_core in Hv.
    + rewrite Version_init_scan in Hv. by apply Version_scan_Raise in Hv as ->.
  - intros Hr (v & Hv & _)%starts_with_core_Ok. congruence.
Qed.

Lemma span_cons_true_fst p c r : p c = true -> (span p (String c r)).1 <> "".
Proof. intros H. cbn. rewrite H. by destruct (span p r). Qed.

Lemma extends_match_digit b x :
  extends_match b x = false -> span is_digit x = ("", x).
Proof.
  destruct x as [|c r]; [done |]. cbn [extends_match].
  intros [Hc _]%orb_false_iff. by apply span_cons_false.
Qed.

Lemma Version_init_text ma mi pa pair trailing :
  digits ma -> digits mi -> digits pa -> well_formed_pair pair ->
  extends_match (bool_decide (is_Some pair)) trailing = false ->
  Version_init (version_text ma mi pa pair +:+ trailing)
  = Ok (version_of_text (version_text ma mi pa pair +:+ trailing) ma mi pa pair).
Proof.
  intros Hma Hmi Hpa Hpair Hext.
  rewrite Version_init_scan. unfold version_text.
  rewrite append_assoc, Version_scan_core by done. cbv zeta.
  rewrite <- append_assoc. unfold version_of_text.
  destruct pair as [[tag nu]|]; cbn [pair_text fmap option_fmap option_map fst snd].
  - destruct Hpair as [(t0 & tag' & -> & Htag)%letters_inv
                       (n0 & nu' & -> & Hnu)%digits_inv].
    pose proof Htag as Ht0. rewrite string_forall_cons in Ht0.
    apply andb_true_iff in Ht0 as [Ht0 _].
    pose proof Hnu as Hn0. rewrite string_forall_cons in Hn0.
    apply andb_true_iff in Hn0 as [Hn0 _].
    rewrite (append_assoc (String t0 tag')).
    assert (span is_digit (String t0 tag' +:+ String n0 nu' +:+ trailing)
            = ("", String t0 tag' +:+ String n0 nu' +:+ trailing)) as ->.
    { rewrite append_cons. apply span_cons_false. by apply lower_not_digit. }
    cbn [fst snd].
    assert (span is_lower (String t0 tag' +:+ String n0 nu' +:+ trailing)
            = (String t0 tag', String n0 nu' +:+ trailing)) as ->.
    { apply (span_app_stop is_lower (String t0 tag') n0 (nu' +:+ trailing));
        [done | by apply digit_not_lower]. }
    cbn [fst snd].
    assert (span is_digit (String n0 nu' +:+ trailing)
            = (String n0 nu', trailing)) as ->.
    { rewrite span_app_all by done.
      rewrite (extends_match_digit _ _ Hext). cbn [fst snd].
      by rewrite append_nil_r. }
    cbn [fst snd]. rewrite append_nil_r. done.
  - rewrite append_nil_l.
    rewrite (extends_match_digit _ _ Hext). cbn [fst snd].
    rewrite (append_nil_r pa).
    destruct trailing as [|c r]; [done |].
    cbn [extends_match] in Hext. apply orb_false_iff in Hext as [Hc Hext].
    rewrite bool_decide_eq_false_2 in Hext by (by intros [? ?]).
    cbn [negb andb] in Hext.
    destruct (span is_lower (String c r)) as [tag r6] eqn:Espan; cbn [fst snd].
    destruct tag as [|t0 tag]; [done |].
    destruct r6 as [|d r6]; [done |].
    rewrite (span_cons_false is_digit d) by done. done.
Qed.

(** ** Numerals and the title case *)

Lemma string_of_uint_digits d :
  string_forall is_digit (NilEmpty.string_of_uint d) = true.
Proof. induction d; cbn [NilEmpty.string_of_uint]; by rewrite ?string_forall_cons. Qed.

Lemma str_of_int_digits n : string_forall is_digit (str_of_int n) = true.
Proof. apply string_of_uint_digits. Qed.

Lemma canon_canonical s : canonical s -> canon s = s.
Proof.
  intros [[Hne Hd] Hc]. unfold canon, int_of, int_of_str, str_of_int.
  destruct (uint_of_string_digits s Hd) as [d Hs].
  destruct s as [|c r]; [done |]. rewrite Hs. simpl.
  rewrite DecimalN.Unsigned.to_of.
  assert (Decimal.unorm d = d) as ->; [| by apply NilEmpty.sus].
  destruct Hc as [[= -> ->] | (c' & r' & [= <- <-] & Hc0)].
  - cbn in Hs. by injection Hs as <-.
  - cbn [NilEmpty.uint_of_string] in Hs.
    destruct (NilEmpty.uint_of_string r) as [d'|];
      destruct c as [[] [] [] [] [] [] [] []]; try done;
      cbn in Hs; by injection Hs as <-.
Qed.

Lemma nzhead_not_D0 d u : Decimal.nzhead d <> Decimal.D0 u.
Proof. induction d; cbn [Decimal.nzhead]; done. Qed.

(** A numeral that normalisation leaves as it is: it is [0] or does not
    start with [0]. *)
Lemma unorm_fixed d :
  Decimal.unorm d = d ->
  d = Decimal.D0 Decimal.Nil
  \/ match d with Decimal.Nil | Decimal.D0 _ => False | _ => True end.
Proof.
  destruct d as [|d| | | | | | | | |]; try by right.
  rewrite DecimalFacts.unorm_D0. unfold Decimal.unorm.
  pose proof (nzhead_not_D0 d) as Hnz.
  destruct (Decimal.nzhead d) eqn:Hd; try discriminate.
  - intros [= <-]. by left.
  - by destruct (Hnz u).
Qed.

(** The decimal numeral of a number is [0] or does not start with [0]. *)
Lemma str_of_int_canonical n : canonical (str_of_int n).
Proof.
  unfold str_of_int.
  assert (Decimal.unorm (N.to_uint n) = N.to_uint n) as Hn.
  { rewrite <- (DecimalN.Unsigned.of_to n) at 2.
    by rewrite DecimalN.Unsigned.to_of. }
  pose proof (string_of_uint_digits (N.to_uint n)) as Hd.
  destruct (unorm_fixed _ Hn) as [-> | Hhead].
  - split; [by split | by left].
  - destruct (N.to_uint n) as [|d|d|d|d|d|d|d|d|d|d]; try done;
      (split; [by split |]); right; cbn [NilEmpty.string_of_uint];
      by eexists _, _.
Qed.

(** Superfluous zeros in front are what [canon] drops, and nothing else:
    it gives a numeral without them, it gives the same for a numeral with
    one more zero in front, and it gives back exactly the numerals that
    have none. *)
Lemma canon_drops_leading_zeros s :
  digits s ->
  canonical (canon s)
  /\ canon (String "0" s) = canon s
  /\ (canon s = s <-> canonical s).
Proof.
  intros [Hne Hd]. split; [apply str_of_int_canonical |]. split.
  - unfold canon, int_of, int_of_str.
    destruct (uint_of_string_digits s Hd) as [d Hs].
    destruct s as [|c r]; [done |].
    cbn [NilEmpty.uint_of_string] in Hs |- *.
    destruct (NilEmpty.uint_of_string r) as [d' |];
      destruct c as [[] [] [] [] [] [] [] []]; try done.
  - split; [| apply canon_canonical].
    intros <-. apply str_of_int_canonical.
Qed.

Lemma lower_is_alnum c :
  is_lower c = true ->
  is_alnum (upper c) = true /\ lower c = c /\ is_cased c = true.
Proof.
  intros H. destruct c as [[] [] [] [] [] [] [] []]; vm_compute in H;
    try discriminate H; by vm_compute.
Qed.

Lemma title_from_true_lower s :
  string_forall is_lower s = true -> title_from true s = s.
Proof.
  induction s as [|c s IH]; [done |].
  rewrite string_forall_cons. intros [Hc Hs]%andb_true_iff.
  destruct (lower_is_alnum c Hc) as (_ & Hl & Hcased).
  cbn [title_from]. by rewrite Hl, Hcased, IH.
Qed.

(** The title case of a run of lower-case letters: its first letter in
    upper case. *)
Lemma title_letters c t :
  string_forall is_lower (String c t) = true ->
  title (String c t) = String (upper c) t.
Proof.
  rewrite string_forall_cons. intros [Hc Ht]%andb_true_iff.
  destruct (lower_is_alnum c Hc) as (_ & _ & Hcased).
  unfold title. cbn [title_from]. by rewrite Hcased, title_from_true_lower.
Qed.

Lemma string_forall_impl (p q : ascii -> bool) s :
  (forall c, p c = true -> q c = true) ->
  string_forall p s = true -> string_forall q s = true.
Proof.
  intros Hpq. induction s as [|c s IH]; [done |].
  rewrite !string_forall_cons. intros [Hc Hs]%andb_true_iff.
  by rewrite (Hpq c Hc), IH.
Qed.

Lemma digits_alnum s :
  string_forall is_digit s = true -> string_forall is_alnum s = true.
Proof.
  apply string_forall_impl. intros c Hc. unfold is_alnum. by rewrite Hc.
Qed.

Lemma lowers_alnum s :
  string_forall is_lower s = true -> string_forall is_alnum s = true.
Proof.
  apply string_forall_impl. intros c Hc. unfold is_alnum. rewrite Hc.
  by rewrite orb_true_r.
Qed.

Lemma canon_alnum s : string_forall is_alnum (canon s) = true.
Proof. apply digits_alnum, str_of_int_digits. Qed.

Lemma title_alnum tag :
  letters tag -> string_forall is_alnum (title tag) = true.
Proof.
  intros (c & t & -> & H)%letters_inv. rewrite title_letters by done.
  rewrite string_forall_cons in *. apply andb_true_iff in H as [Hc Ht].
  destruct (lower_is_alnum c Hc) as (-> & _ & _). cbn [andb].
  by apply lowers_alnum.
Qed.

(** ** Version: the claims *)

Example Version_0_15_2 :
  Version_init "0.15.2"
  = Ok {| raw := "0.15.2"; major := 0; minor := 15; patch := 2;
          prerelease := None; num := None |}.
Proof. vm_compute. reflexivity. Qed.

Example Version_0_16_0b1 :
  Version_init "0.16.0b1"
  = Ok {| raw := "0.16.0b1"; major := 0; minor := 16; patch := 0;
          prerelease := Some "b"; num := Some 1%N |}.
Proof. vm_compute. reflexivity. Qed.

(** C8.  Every [Version] that [Version.__init__] constructs has its
    prerelease tag and its prerelease number both present or both absent:
    for no accepted string is exactly one of the two fields set. *)
Theorem Version_prerelease_all_or_nothing (s : string) (v : Version) :
  Version_init s = Ok v ->
  (prerelease v = None /\ num v = None)
  \/ (exists tag n, prerelease v = Some tag /\ num v = Some n).
Proof.
  rewrite Version_init_scan. intros Hv.
  destruct (Version_scan_Ok_core _ _ Hv)
    as (ma & mi & pa & rest & Hma & Hmi & Hpa & ->).
  rewrite Version_scan_core in Hv by done. cbv zeta in Hv.
  destruct (span is_lower _).1 in Hv; [injection Hv as <-; by left |].
  destruct (span is_digit _).1 in Hv; injection Hv as <-; [by left |].
  right. by eexists _, _.
Qed.

Lemma Version_prerelease_all_or_nothing_witness :
  (prerelease
     {| raw := "0.16.0b1"; major := 0; minor := 16; patch := 0;
        prerelease := Some "b"; num := Some 1%N |} = None
   /\ num
     {| raw := "0.16.0b1"; major := 0; minor := 16; patch := 0;
        prerelease := Some "b"; num := Some 1%N |} = None)
  \/ (exists tag n,
        prerelease
          {| raw := "0.16.0b1"; major := 0; minor := 16; patch := 0;
             prerelease := Some "b"; num := Some 1%N |} = Some tag
        /\ num
          {| raw := "0.16.0b1"; major := 0; minor := 16; patch := 0;
             prerelease := Some "b"; num := Some 1%N |} = Some n).
Proof.
  apply (Version_prerelease_all_or_nothing "0.16.0b1").
  vm_compute. reflexivity.
Defined.

(** C4, as the spec states it, fails: a string that carries a prerelease
    tag and no number after it is accepted, as the version without any
    prerelease. *)
Lemma Version_tag_without_number_accepted :
  Version_init "1.2.3b"
  = Ok {| raw := "1.2.3b"; major := 1; minor := 2; patch := 3;
          prerelease := None; num := None |}.
Proof. vm_compute. reflexivity. Qed.

(** C4, amended.  [Version.__init__] fails exactly on the strings that do
    not begin with the three numeric components [M.N.P], so on every string
    that misses one of them at its start; the failure is raised by the
    construction itself, and [Arguments.parse] then leaves the world as it
    was.  The pattern is anchored at the start only: whatever follows
    [M.N.P] is accepted, and a prerelease tag that no number follows is
    dropped, tag and number both absent. *)
Theorem Version_rejected_iff_no_core (s : string) :
  (~ starts_with_core s ->
     Version_init s = Raise no_match
     /\ forall cl w, cl_version cl = s ->
          Arguments_parse cl w = (Raised (Exn no_match), w))
  /\ (starts_with_core s -> exists v, Version_init s = Ok v /\ raw v = s)
  /\ (forall ma mi pa tag,
        digits ma -> digits mi -> digits pa -> letters tag ->
        s = core_text ma mi pa +:+ tag ->
        Version_init s = Ok (version_of_text s ma mi pa None)).
Proof.
  split; [| split].
  - intros Hn. apply Version_init_rejects in Hn. split; [done |].
    intros cl w <-. unfold Arguments_parse. by rewrite Hn.
  - apply starts_with_core_Ok.
  - intros ma mi pa tag Hma Hmi Hpa Htag ->.
    pose proof (Version_init_text ma mi pa None tag Hma Hmi Hpa I) as H.
    unfold version_text in H. cbn [pair_text] in H.
    rewrite append_nil_r in H. apply H.
    destruct Htag as [Hne Hl]. destruct tag as [|c t]; [done |].
    cbn [extends_match].
    rewrite string_forall_cons in Hl. apply andb_true_iff in Hl as [Hc Hl].
    rewrite (lower_not_digit c Hc).
    rewrite <- (append_nil_r (String c t)), span_app_all
      by (by rewrite string_forall_cons, Hc, Hl).
    cbn. by rewrite append_cons.
Qed.

Lemma Version_rejected_iff_no_core_witness :
  (Version_init "1.2" = Raise no_match)
  /\ (exists v, Version_init "1.2.3-rc" = Ok v /\ raw v = "1.2.3-rc")
  /\ Version_init "1.2.3rc" = Ok (version_of_text "1.2.3rc" "1" "2" "3" None).
Proof.
  split; [| split].
  - apply (Version_rejected_iff_no_core "1.2").
    apply Version_init_rejects. vm_compute. reflexivity.
  - apply (Version_rejected_iff_no_core "1.2.3-rc").
    exists "1", "2", "3", "-rc". repeat split; done.
  - apply (Version_rejected_iff_no_core "1.2.3rc" ) with (tag := "rc");
      repeat split; done.
Defined.

Lemma concat_cons2 sep (x y : string) (l : list string) :
  String.concat sep (x :: y :: l) = x +:+ sep +:+ String.concat sep (y :: l).
Proof. reflexivity. Qed.

(** A line of a text put together from lines, other than the first and
    the last, is a line of the text. *)
Lemma unlines_has_line (before : list string) (line : string)
    (after : list string) :
  before <> [] -> after <> [] ->
  has_line (unlines (before ++ line :: after)) line.
Proof.
  unfold unlines. intros Hb Ha.
  destruct after as [|a after]; [done |]. clear Ha.
  induction before as [|x before IH]; [done |]. clear Hb.
  destruct before as [|y before].
  - exists x, (String.concat nl (a :: after)).
    cbn [app]. by rewrite !concat_cons2.
  - destruct IH as (pre & post & Heq); [done |].
    exists (x +:+ nl +:+ pre), post.
    change ((x :: y :: before) ++ line :: a :: after)
      with (x :: y :: (before ++ line :: a :: after)).
    rewrite concat_cons2.
    change (y :: before ++ line :: a :: after)
      with ((y :: before) ++ line :: a :: after).
    rewrite Heq. by rewrite !append_assoc.
Qed.

(** The rendered formula has the line [version "<version>"], whatever the
    other fields are. *)
Lemma DBT_HOMEBREW_FORMULA_format_version
    (formula_name url_data hash_data version dependencies trailer : string) :
  has_line
    (DBT_HOMEBREW_FORMULA_format formula_name url_data hash_data version
       dependencies trailer)
    ("  version " +:+ quoted version).
Proof.
  unfold DBT_HOMEBREW_FORMULA_format.
  by apply (unlines_has_line [_; _; _; _; _; _; _; _] _ (_ :: _)).
Qed.

(** C9.  [Version.__init__] succeeds on every string that begins with
    [M.N.P], optionally followed by a letters-then-digits pair: whatever
    comes after is accepted, and when it does not extend the match the
    fields are those of the version string alone.  The raw string, trailing
    text included, is kept, and the text [DbtHomebrewTemplate.contents]
    renders for a template of this version has the line
    [version "<raw string>"]. *)
Theorem Version_trailing_text_accepted_and_kept
    (ma mi pa : string) (pair : option (string * string)) (trailing : string) :
  digits ma -> digits mi -> digits pa -> well_formed_pair pair ->
  let s := version_text ma mi pa pair +:+ trailing in
  exists v,
    Version_init s = Ok v
    /\ raw v = s
    /\ (extends_match (bool_decide (is_Some pair)) trailing = false ->
        v = version_of_text s ma mi pa pair)
    /\ forall url hash deps versioned,
         has_line
           (contents {| url_data := url; hash_data := hash;
                        dependencies := deps; version := v |} versioned)
           ("  version " +:+ dq +:+ s +:+ dq).
Proof.
  intros Hma Hmi Hpa Hpair s.
  assert (starts_with_core s) as Hs.
  { exists ma, mi, pa, (pair_text pair +:+ trailing).
    split; [done | split; [done | split; [done |]]].
    unfold s, version_text. by rewrite append_assoc. }
  destruct (starts_with_core_Ok s Hs) as (v & Hv & Hraw).
  exists v. repeat split; try done.
  - intros Hext. unfold s in Hv.
    rewrite Version_init_text in Hv by done. by injection Hv as <-.
  - intros url hash deps versioned. unfold contents, Version_str.
    cbn [version url_data hash_data dependencies]. rewrite Hraw.
    apply DBT_HOMEBREW_FORMULA_format_version.
Qed.

Lemma Version_trailing_text_accepted_and_kept_witness :
  exists v,
    Version_init "0.16.0b1-dirty" = Ok v
    /\ raw v = "0.16.0b1-dirty"
    /\ v = version_of_text "0.16.0b1-dirty" "0" "16" "0" (Some ("b", "1"))
    /\ has_line
         (contents {| url_data := sample_url; hash_data := sample_hash;
                      dependencies := ""; version := v |} true)
         ("  version " +:+ dq +:+ "0.16.0b1-dirty" +:+ dq).
Proof.
  destruct (Version_trailing_text_accepted_and_kept
              "0" "16" "0" (Some ("b", "1")) "-dirty")
    as (v & Hv & Hraw & Hfields & Hline); try done.
  exists v. split; [done |]. split; [done |]. split; [by apply Hfields |].
  apply Hline.
Defined.

(** C5, as the spec states it, fails: the projections write each number
    in its decimal notation, so a component written with leading zeros
    does not come back as it was written. *)
Lemma Version_leading_zero_not_kept :
  exists v,
    Version_init "01.2.3" = Ok v
    /\ homebrew_filename v = "dbt@1.2.3.rb"
    /\ homebrew_filename v <> "dbt@01.2.3.rb"
    /\ homebrew_class_name v = "DbtAT123".
Proof.
  exists {| raw := "01.2.3"; major := 1; minor := 2; patch := 3;
            prerelease := None; num := None |}.
  split; [vm_compute; reflexivity |].
  split; [vm_compute; reflexivity |].
  split; [| vm_compute; reflexivity].
  vm_compute. intros H. discriminate H.
Qed.

(** C5, amended.  For every string [M.N.P] or [M.N.P<tag><num>] parsing
    succeeds, the filename projection is [dbt@M'.N'.P'.rb] (or
    [dbt@M'.N'.P'-<tag><num'>.rb]) and the class-name projection is [DbtAT]
    followed by [M'], [N'], [P'] and, with a prerelease, the title-cased
    tag and [num'], where [X'] is [X] without superfluous leading zeros; so
    the components come back as written exactly when they are written
    without leading zeros.  The class name holds letters and digits only,
    and the title case of the tag is the tag with its first letter in upper
    case. *)
Theorem Version_projections
    (ma mi pa : string) (pair : option (string * string)) :
  digits ma -> digits mi -> digits pa -> well_formed_pair pair ->
  exists v,
    Version_init (version_text ma mi pa pair) = Ok v
    /\ homebrew_filename v
       = "dbt@" +:+ canon ma +:+ "." +:+ canon mi +:+ "." +:+ canon pa
         +:+ match pair with
             | Some (tag, nu) => "-" +:+ tag +:+ canon nu
             | None => ""
             end +:+ ".rb"
    /\ homebrew_class_name v
       = "DbtAT" +:+ canon ma +:+ canon mi +:+ canon pa
         +:+ match pair with
             | Some (tag, nu) => title tag +:+ canon nu
             | None => ""
             end
    /\ string_forall is_alnum (homebrew_class_name v) = true
    /\ (forall x, digits x ->
          canonical (canon x)
          /\ canon (String "0" x) = canon x
          /\ (canon x = x <-> canonical x))
    /\ (forall c t nu, pair = Some (String c t, nu) ->
          title (String c t) = String (upper c) t).
Proof.
  intros Hma Hmi Hpa Hpair.
  pose proof (Version_init_text ma mi pa pair "" Hma Hmi Hpa Hpair eq_refl) as Hv.
  rewrite append_nil_r in Hv. eexists. split; [exact Hv |].
  assert (homebrew_class_name
            (version_of_text (version_text ma mi pa pair) ma mi pa pair)
          = "DbtAT" +:+ canon ma +:+ canon mi +:+ canon pa
            +:+ match pair with
                | Some (tag, nu) => title tag +:+ canon nu
                | None => ""
                end) as Hname.
  { unfold homebrew_class_name, version_of_text, canon.
    cbn [major minor patch prerelease num].
    destruct pair as [[tag nu]|]; cbn [fmap option_fmap option_map fst snd].
    - by rewrite !append_assoc.
    - by rewrite append_nil_r. }
  split; [| split; [exact Hname | split; [| split]]].
  - unfold homebrew_filename, version_of_text, canon.
    cbn [major minor patch prerelease num].
    destruct pair as [[tag nu]|]; cbn [fmap option_fmap option_map fst snd];
      by rewrite !append_assoc.
  - rewrite Hname. rewrite !string_forall_app, !canon_alnum.
    destruct pair as [[tag nu]|]; [| done].
    destruct Hpair as [Htag Hnu].
    by rewrite string_forall_app, title_alnum, canon_alnum.
  - apply canon_drops_leading_zeros.
  - intros c t nu ->. destruct Hpair as [[_ Htag] _]. by apply title_letters.
Qed.

Lemma Version_projections_witness :
  (exists v,
     Version_init "0.15.2" = Ok v
     /\ homebrew_class_name v = "DbtAT0152"
     /\ homebrew_filename v = "dbt@0.15.2.rb")
  /\ (exists v,
        Version_init "0.16.0b1" = Ok v
        /\ homebrew_class_name v = "DbtAT0160B1"
        /\ homebrew_filename v = "dbt@0.16.0-b1.rb").
Proof.
  split.
  - destruct (Version_projections "0" "15" "2" None)
      as (v & Hv & Hf & Hc & _); try done.
    exists v. by rewrite Hf, Hc.
  - destruct (Version_projections "0" "16" "0" (Some ("b", "1")))
      as (v & Hv & Hf & Hc & _); try done.
    exists v. by rewrite Hf, Hc.
Defined.

(** ** Extraction of the url and hash lines *)










(** ** The formula file is never overwritten *)

Lemma exists_snoc (m : gmap (list string) node) p x :
  exists_ m (p ++ [x]) = bool_decide (is_Some (m !! (p ++ [x]))).
Proof. by destruct p. Qed.

Lemma is_dir_snoc (m : gmap (list string) node) p x :
  is_dir m (p ++ [x]) = match m !! (p ++ [x]) with Some Dir => true | _ => false end.
Proof. by destruct p. Qed.

Lemma create_homebrew_formula_exists template version homebrew_path w :
  is_Some (fs w !! formula_path homebrew_path version) ->
  create_homebrew_formula template version homebrew_path w
  = (Raised already_exists, w).
Proof.
  intros H.
  cbv beta iota zeta delta [create_homebrew_formula bind path_exists get_fs ret raise].
  rewrite exists_snoc. fold (formula_path homebrew_path version).
  by rewrite bool_decide_eq_true_2.
Qed.

Lemma create_homebrew_formula_Return template version homebrew_path w p w' :
  create_homebrew_formula template version homebrew_path w = (Return p, w') ->
  p = formula_path homebrew_path version
  /\ fs w !! p = None
  /\ fs w' = <[p:=File (contents template true)]> (fs w)
  /\ trace w' = trace w ++ [EvWriteText p (contents template true)].
Proof.
  cbv beta iota zeta delta [create_homebrew_formula bind path_exists get_fs ret
    write_text log raise set_fs].
  cbn [fs trace]. rewrite exists_snoc.
  case_bool_decide as Hex; [done |].
  destruct (file_on_the_way (fs w) _); [done |].
  rewrite is_dir_snoc.
  fold (formula_path homebrew_path version).
  destruct (fs w !! formula_path homebrew_path version) as [n|] eqn:Hp;
    [by destruct Hex |].
  destruct (is_dir (fs w) (parent (formula_path homebrew_path version)));
    [| done].
  by intros [= <- <-].
Qed.

(** C1.  When [create_homebrew_formula] has written the formula of a
    version, a second call for the same version, made while the file is
    still there, raises the error of the existence check; it leaves the
    world as it found it, so it writes nothing and the file keeps the
    contents the first call gave it. *)
Theorem create_homebrew_formula_twice
    (template template' : DbtHomebrewTemplate) (version : Version)
    (homebrew_path : list string) (w w1 : World) (p : list string) :
  create_homebrew_formula template version homebrew_path w = (Return p, w1) ->
  fs w1 !! p = Some (File (contents template true))
  /\ create_homebrew_formula template' version homebrew_path w1
     = (Raised already_exists, w1)
  /\ forall w2,
       is_Some (fs w2 !! p) ->
       create_homebrew_formula template' version homebrew_path w2
       = (Raised already_exists, w2).
Proof.
  intros (-> & Hnone & Hfs & Htr)%create_homebrew_formula_Return.
  assert (fs w1 !! formula_path homebrew_path version
          = Some (File (contents template true))) as Hw1.
  { rewrite Hfs. apply lookup_insert_eq. }
  split; [done |]. split.
  - apply create_homebrew_formula_exists. by rewrite Hw1.
  - intros w2 H2. by apply create_homebrew_formula_exists.
Qed.

(** ** Runs: what a computation adds to the log *)

Lemma new_events_app w w' evs :
  trace w' = trace w ++ evs -> new_events w w' = evs.
Proof. intros H. unfold new_events. rewrite H. by rewrite drop_app_length. Qed.

Lemma bind_run {A B} (m : M A) (f : A -> M B) w :
  bind m f w
  = match m w with
    | (Return a, w') => f a w'
    | (Raised e, w') => (Raised e, w')
    end.
Proof. reflexivity. Qed.

Section Only.
Context (P : event -> Prop).

Lemma only_ret {A} (a : A) : only P (ret a).
Proof. intros w. exists []. by rewrite app_nil_r. Qed.

Lemma only_raise {A} e : only P (@raise A e).
Proof. intros w. exists []. by rewrite app_nil_r. Qed.

Lemma only_get_fs : only P get_fs.
Proof. intros w. exists []. by rewrite app_nil_r. Qed.

Lemma only_set_fs m : only P (set_fs m).
Proof. intros w. exists []. by rewrite app_nil_r. Qed.

Lemma only_log e : P e -> only P (log e).
Proof. intros He w. exists [e]. split; [done | by constructor]. Qed.

Lemma only_bind {A B} (m : M A) (f : A -> M B) :
  only P m -> (forall a, only P (f a)) -> only P (bind m f).
Proof.
  intros Hm Hf w. rewrite bind_run.
  destruct (Hm w) as (evs1 & Ht1 & H1).
  destruct (m w) as [[a | e] w1]; cbn [fst snd] in *.
  - destruct (Hf a w1) as (evs2 & Ht2 & H2).
    exists (evs1 ++ evs2). rewrite Ht2, Ht1, app_assoc.
    split; [done | by apply Forall_app].
  - by exists evs1.
Qed.

Lemma only_for_fold {A S} (xs : list A) (s : S) body :
  (forall s x, only P (body s x)) -> only P (for_fold xs s body).
Proof.
  intros Hb. revert s. induction xs as [|x xs IH]; intros s; cbn [for_fold].
  - apply only_ret.
  - apply only_bind; [apply Hb | intros s'; apply IH].
Qed.

Lemma only_try_finally {A} (body : M A) final :
  only P body -> only P final -> only P (try_finally body final).
Proof.
  intros Hb Hf w. unfold try_finally.
  destruct (Hb w) as (evs1 & Ht1 & H1).
  destruct (body w) as [r w1]; cbn [fst snd] in *.
  destruct (Hf w1) as (evs2 & Ht2 & H2).
  exists (evs1 ++ evs2).
  destruct (final w1) as [[[] | e] w2]; cbn [fst snd] in *;
    rewrite Ht2, Ht1, app_assoc; (split; [done | by apply Forall_app]).
Qed.

Lemma only_of_result {A} (r : result A) : only P (of_result r).
Proof. destruct r; [apply only_ret | apply only_raise]. Qed.

Lemma only_check_output E cmd cwd :
  (forall found out, P (EvExec cmd cwd found out)) ->
  only P (check_output E cmd cwd).
Proof.
  intros He w. exists [EvExec cmd cwd (fs w) (run_program E cmd cwd w).1].
  unfold check_output. destruct (run_program E cmd cwd w) as [[rc out | e] fs'];
    cbn [fst snd]; [destruct (rc =? 0)%Z |]; cbn [fst snd trace];
    (split; [done | by constructor]).
Qed.

Lemma only_input E prompt :
  (forall answer, P (EvInput prompt answer)) -> only P (input E prompt).
Proof.
  intros He w. exists [EvInput prompt (stdin E prompt w)].
  unfold input. destruct (stdin E prompt w); cbn [fst snd trace];
    (split; [done | by constructor]).
Qed.

Lemma only_mkdtemp E :
  (forall p, P (EvMkdtemp p)) -> only P (tempfile_mkdtemp E).
Proof.
  intros He w. exists [EvMkdtemp (mkdtemp_name E w)].
  split; [done | by constructor].
Qed.

Lemma only_venv E env_dir :
  P (EvVenv env_dir) -> only P (EnvBuilder_setup E env_dir).
Proof.
  intros He w. exists [EvVenv env_dir]. unfold EnvBuilder_setup.
  destruct (venv_setup E env_dir w) as [[e | exe] fs'];
    cbn [fst snd trace]; (split; [done | by constructor]).
Qed.

(** Nothing that follows a failed assertion runs. *)
Lemma only_bind_assert_false {B} msg (f : unit -> M B) :
  only P (bind (assert_ false msg) f).
Proof. intros w. exists []. by rewrite app_nil_r. Qed.

Lemma only_impl (Q : event -> Prop) {A} (m : M A) :
  (forall e, Q e -> P e) -> only Q m -> only P m.
Proof.
  intros HQP Hm w. destruct (Hm w) as (evs & Ht & H).
  exists evs. split; [done |]. by eapply Forall_impl.
Qed.
End Only.

Ltac head_of t :=
  lazymatch t with
  | ?f _ => head_of f
  | _ => t
  end.

(** One step of the proof that a computation logs only events of a kind:
    through the monad, into the branches, and into the definitions of the
    script. *)
Ltac only_step :=
  lazymatch goal with
  | |- only _ (bind (assert_ false _) _) => apply only_bind_assert_false
  | |- only _ (bind _ _) => apply only_bind; [| intros ?]
  | |- only _ (ret _) => apply only_ret
  | |- only _ (raise _) => apply only_raise
  | |- only _ (log _) => apply only_log
  | |- only _ get_fs => apply only_get_fs
  | |- only _ (set_fs _) => apply only_set_fs
  | |- only _ (check_output _ _ _) => apply only_check_output; intros ? ?
  | |- only _ (input _ _) => apply only_input; intros ?
  | |- only _ (tempfile_mkdtemp _) => apply only_mkdtemp; intros ?
  | |- only _ (EnvBuilder_setup _ _) => apply only_venv
  | |- only _ (try_finally _ _) => apply only_try_finally
  | |- only _ (for_fold _ _ _) => apply only_for_fold; intros ? ?
  | |- only _ (of_result _) => apply only_of_result
  | |- only _ (if ?b then _ else _) => destruct b
  | |- only _ (match ?x with _ => _ end) => destruct x
  | |- only _ ?m => let h := head_of m in unfold h; cbv zeta
  end.

Ltac only_steps := repeat only_step.

(** ** The default formula is never touched *)

Lemma homebrew_filename_not_default v : homebrew_filename v <> "dbt.rb".
Proof.
  unfold homebrew_filename. intros H.
  rewrite !append_cons, append_nil_l in H. discriminate H.
Qed.

Lemma formula_path_not_default homebrew_path v :
  (homebrew_path ++ ["Formula"]) ++ [homebrew_filename v]
  <> homebrew_path ++ ["Formula"; "dbt.rb"].
Proof.
  rewrite <- app_assoc. intros H%app_inv_head.
  apply (homebrew_filename_not_default v).
  by inversion H.
Qed.

Lemma build_homebrew_package_only E dbt_path v homebrew_path set_default :
  only (fun e => ~ touches_default homebrew_path e)
       (build_homebrew_package E dbt_path v homebrew_path set_default).
Proof.
  only_steps; cbn [touches_default]; try tauto.
  apply formula_path_not_default.
Qed.

Lemma check_output_Return E cmd cwd w out w' :
  check_output E cmd cwd w = (Return out, w') ->
  trace w' = trace w ++ [EvExec cmd cwd (fs w) (Exited 0 out)].
Proof.
  unfold check_output. destruct (run_program E cmd cwd w) as [[rc o | e] fs'].
  - destruct (Z.eqb_spec rc 0) as [-> | Hrc]; [| done].
    by intros [= <- <-].
  - done.
Qed.

Lemma only_True {A} (m : M A) (P : event -> Prop) :
  only P m -> forall w, exists evs, trace (m w).2 = trace w ++ evs.
Proof. intros H w. destruct (H w) as (evs & Ht & _). by exists evs. Qed.

Lemma build_homebrew_package_flag E dbt_path v homebrew_path w :
  build_homebrew_package E dbt_path v homebrew_path true w
  = match build_homebrew_package E dbt_path v homebrew_path false w with
    | (Return _, w') => (Raised should_not_be_set, w')
    | (Raised e, w') => (Raised e, w')
    end.
Proof.
  unfold build_homebrew_package. rewrite !bind_run.
  destruct (homebrew_formula_template E dbt_path v w) as [[t | e] w1]; [| done].
  rewrite !bind_run.
  destruct (create_homebrew_formula t v homebrew_path w1) as [[p | e] w2];
    [| done].
  rewrite !bind_run.
  destruct (homebrew_run_tests E p w2) as [[[] | e] w3]; [| done].
  rewrite !bind_run.
  by destruct (homebrew_commit_formula E p v homebrew_path w3)
    as [[[] | e] w4].
Qed.

Lemma homebrew_commit_formula_Return E p v homebrew_path w w' :
  homebrew_commit_formula E p v homebrew_path w = (Return tt, w') ->
  exists found1 out1 found2 out2,
    trace w'
    = trace w
      ++ [EvExec [Str "git"; Str "add"; PathArg p] (Some homebrew_path)
                 found1 (Exited 0 out1);
          EvExec [Str "git"; Str "commit"; Str "-m";
                  Str ("add dbt@" +:+ Version_str v)] (Some homebrew_path)
                 found2 (Exited 0 out2)].
Proof.
  unfold homebrew_commit_formula. rewrite bind_run.
  destruct (check_output E _ _ w) as [[o1 | e] w1] eqn:H1; [| done].
  rewrite bind_run.
  destruct (check_output E _ _ w1) as [[o2 | e] w2] eqn:H2; [| done].
  intros [= <-]. apply check_output_Return in H1, H2.
  exists (fs w), o1, (fs w1), o2. rewrite H2, H1. by rewrite <- app_assoc.
Qed.

(** C7.  No run of [build_homebrew_package] executes the update of the
    default formula: its log never holds the removal or the writing of
    [Formula/dbt.rb].  With the flag false the guarded branch is skipped;
    with the flag true the run is the run with the flag false, except that
    where that one returns, the formula committed, this one raises the
    assertion error of the unreachable path, in the same final world. *)
Theorem set_default_homebrew_package_never_runs
    (E : Env) (dbt_path : list string) (v : Version)
    (homebrew_path : list string) (set_default : bool) (w : World) :
  Forall (fun e => ~ touches_default homebrew_path e)
         (new_events w
            (build_homebrew_package E dbt_path v homebrew_path set_default w).2)
  /\ build_homebrew_package E dbt_path v homebrew_path true w
     = match build_homebrew_package E dbt_path v homebrew_path false w with
       | (Return _, w') => (Raised should_not_be_set, w')
       | (Raised e, w') => (Raised e, w')
       end
  /\ (forall p,
        (build_homebrew_package E dbt_path v homebrew_path false w).1 = Return p ->
        exists evs0 found out,
          new_events w
            (build_homebrew_package E dbt_path v homebrew_path false w).2
          = evs0
            ++ [EvExec [Str "git"; Str "commit"; Str "-m";
                        Str ("add dbt@" +:+ Version_str v)]
                       (Some homebrew_path) found (Exited 0 out)]).
Proof.
  split; [| split].
  - destruct (build_homebrew_package_only E dbt_path v homebrew_path
                set_default w) as (evs & Ht & H).
    by rewrite (new_events_app _ _ _ Ht).
  - apply build_homebrew_package_flag.
  - intros p. unfold build_homebrew_package. rewrite bind_run.
    assert (only (fun _ => True) (homebrew_formula_template E dbt_path v)) as H1
      by (only_steps; done).
    destruct (only_True _ _ H1 w) as (evs1 & Ht1).
    destruct (homebrew_formula_template E dbt_path v w) as [[t | e] w1];
      [| done].
    rewrite bind_run.
    assert (only (fun _ => True) (create_homebrew_formula t v homebrew_path))
      as H2 by (only_steps; done).
    destruct (only_True _ _ H2 w1) as (evs2 & Ht2).
    destruct (create_homebrew_formula t v homebrew_path w1) as [[fp | e] w2];
      [| done].
    rewrite bind_run.
    assert (only (fun _ => True) (homebrew_run_tests E fp)) as H3
      by (only_steps; done).
    destruct (only_True _ _ H3 w2) as (evs3 & Ht3).
    destruct (homebrew_run_tests E fp w2) as [[[] | e] w3]; [| done].
    rewrite bind_run.
    destruct (homebrew_commit_formula E fp v homebrew_path w3)
      as [[[] | e] w4] eqn:H4; [| done].
    apply homebrew_commit_formula_Return in H4
      as (found1 & out1 & found2 & out2 & Ht4).
    cbv beta iota zeta delta [bind ret]. cbn [fst snd] in *. intros _.
    exists (evs1 ++ evs2 ++ evs3
            ++ [EvExec [Str "git"; Str "add"; PathArg fp] (Some homebrew_path)
                       found1 (Exited 0 out1)]), found2, out2.
    apply new_events_app. rewrite Ht4, Ht3, Ht2, Ht1.
    by rewrite <- !app_assoc.
Qed.

(** ** Uploads: which index a command goes to *)

Lemma ends_with_app suffix s :
  ends_with suffix s = true -> exists pre, s = pre +:+ suffix.
Proof.
  induction s as [|c s IH]; cbn [ends_with].
  - rewrite orb_false_r. intros ->%String.eqb_eq. by exists "".
  - intros [->%String.eqb_eq | H]%orb_true_iff; [by exists "" |].
    destruct (IH H) as (pre & ->). by exists (String c pre).
Qed.

Lemma path_str_basename q :
  q <> [] -> exists pre, path_str q = pre +:+ basename q.
Proof.
  destruct q as [|x q]; [done |]. intros _. unfold path_str, basename.
  revert x. induction q as [|y q IH]; intros x.
  - by exists "".
  - destruct (IH y) as (pre & Hpre).
    exists (x +:+ "/" +:+ pre).
    change (String.concat "/" (x :: y :: q))
      with (x +:+ "/" +:+ String.concat "/" (y :: q)).
    change (List.last (x :: y :: q) "") with (List.last (y :: q) "").
    by rewrite Hpre, !append_assoc.
Qed.

Lemma glob_suffix_elem (m : gmap (list string) node) d suffix q :
  q ∈ glob_suffix m d suffix ->
  exists pre, path_str q = pre +:+ suffix.
Proof.
  unfold glob_suffix. rewrite list_elem_of_In, filter_In.
  intros [_ [Hq Hs]%andb_true_iff].
  apply bool_decide_eq_true in Hq as [Hne _].
  destruct (path_str_basename q Hne) as (pre & ->).
  destruct (ends_with_app _ _ Hs) as (pre' & ->).
  exists (pre +:+ pre'). by rewrite append_assoc.
Qed.

Lemma tar_gz_not_repository x : x +:+ ".tar.gz" <> "--repository".
Proof.
  intros H.
  do 12 (destruct x as [|? x];
         [ discriminate H | rewrite append_cons in H; injection H as _ H ]).
  destruct x; discriminate H.
Qed.

Lemma whl_not_repository x : x +:+ ".whl" <> "--repository".
Proof.
  intros H.
  do 12 (destruct x as [|? x];
         [ discriminate H | rewrite append_cons in H; injection H as _ H ]).
  destruct x; discriminate H.
Qed.

Lemma found_not_repository (m : gmap (list string) node) d q :
  q ∈ glob_suffix m d ".tar.gz" ++ glob_suffix m d ".whl" ->
  path_str q <> "--repository".
Proof.
  intros [H | H]%elem_of_app; apply glob_suffix_elem in H as (pre & ->).
  - apply tar_gz_not_repository.
  - apply whl_not_repository.
Qed.

(** ** The publication protocol *)

Lemma publication_app evs1 evs2 :
  publication (evs1 ++ evs2) = publication evs1 ++ publication evs2.
Proof. apply omap_app. Qed.

Lemma publication_none evs :
  Forall (fun e => step_of e = None) evs -> publication evs = [].
Proof.
  induction 1 as [|e evs He _ IH]; [done |].
  unfold publication in *. cbn [omap list_omap]. by rewrite He.
Qed.

Lemma is_staging_production (m : gmap (list string) node) d :
  is_staging
    ([Str "twine"; Str "upload"]
     ++ List.map (fun p => Str (path_str p))
          (glob_suffix m d ".tar.gz" ++ glob_suffix m d ".whl"))
  = false.
Proof.
  pose proof (found_not_repository m d) as H.
  destruct (glob_suffix m d ".tar.gz" ++ glob_suffix m d ".whl")
    as [|q1 [|q2 found]]; [done | done |].
  cbn [app List.map is_staging].
  destruct (String.eqb_spec (path_str q1) "--repository") as [Heq | _];
    [| done].
  exfalso. apply (H q1); [left | done].
Qed.

(** What an upload logs: its announcement and the call of [twine], to the
    index its flag selects; it returns exactly when [twine] exits with 0. *)
Lemma upload_pypi_packages_run E dist_path test w :
  exists text cmd out,
    trace (upload_pypi_packages E dist_path test w).2
    = trace w ++ [EvPrint text; EvExec cmd None (fs w) out]
    /\ is_upload cmd = true
    /\ is_staging cmd = test
    /\ ((upload_pypi_packages E dist_path test w).1 = Return tt
         /\ succeeded out = true
        \/ (exists e, (upload_pypi_packages E dist_path test w).1 = Raised e)
           /\ succeeded out = false).
Proof.
  unfold upload_pypi_packages, _all_packages_in.
  cbv beta iota zeta delta [bind get_fs ret print log].
  cbn [fs trace].
  set (found := glob_suffix (fs w) dist_path ".tar.gz"
                ++ glob_suffix (fs w) dist_path ".whl").
  set (cmd := (if test
               then [Str "twine"; Str "upload"] ++ [Str "--repository"; Str "pypitest"]
               else [Str "twine"; Str "upload"])
              ++ List.map (fun p => Str (path_str p)) found).
  assert (is_upload cmd = true) as Hup by (unfold cmd; by destruct test).
  assert (is_staging cmd = test) as Hst.
  { unfold cmd. destruct test; [done |]. apply is_staging_production. }
  unfold check_output. cbn [fs trace].
  destruct (run_program E cmd None _) as [[rc out | e] fs'] eqn:Hsp.
  - destruct (Z.eqb_spec rc 0) as [-> | Hrc]; cbn [fst snd trace].
    + eexists _, cmd, (Exited 0 out). rewrite <- app_assoc.
      split; [done |]. split; [done |]. split; [done |]. by left.
    + eexists _, cmd, (Exited rc out). rewrite <- app_assoc.
      split; [done |]. split; [done |]. split; [done |]. right.
      split; [by eexists |]. cbn. by apply Z.eqb_neq.
  - cbn [fst snd trace]. eexists _, cmd, (NotRun e). rewrite <- app_assoc.
    split; [done |]. split; [done |]. split; [done |]. right.
    split; [by eexists | done].
Qed.

Lemma input_run E prompt w :
  exists answer,
    trace (input E prompt w).2 = trace w ++ [EvInput prompt answer]
    /\ ((exists line, (input E prompt w).1 = Return line) /\ is_Some answer
        \/ (exists e, (input E prompt w).1 = Raised e) /\ answer = None).
Proof.
  unfold input. exists (stdin E prompt w).
  destruct (stdin E prompt w) as [line |]; cbn [fst snd trace].
  - split; [done |]. left. split; by eexists.
  - split; [done |]. right. split; [by eexists | done].
Qed.

Lemma build_homebrew_package_no_step E dbt_path v homebrew_path set_default :
  only (fun e => step_of e = None)
       (build_homebrew_package E dbt_path v homebrew_path set_default).
Proof. only_steps; done. Qed.

Lemma publication_upload text cmd cwd found out :
  is_upload cmd = true ->
  publication [EvPrint text; EvExec cmd cwd found out]
  = [(if is_staging cmd then Staging else Production) (succeeded out)].
Proof. intros H. unfold publication. cbn. by rewrite H. Qed.

Lemma publication_input prompt answer :
  publication [EvInput prompt answer]
  = [Confirmation (bool_decide (is_Some answer))].
Proof. reflexivity. Qed.

(** The statements of [upgrade_to] that follow the build, from the first
    upload on, taken by themselves: the publication goes upload to the
    staging index, prompt of the operator, upload to the production index,
    each step only when the one before went through; when they run to the
    end, there were exactly two uploads, first to staging and then to
    production. *)
Lemma later_stages_publication E args dist w :
  let m :=
    (upload_pypi_packages E dist true ;;
     input E ("Ensure https://test.pypi.org/project/dbt/"
              +:+ Version_str (args_version args)
              +:+ "/ exists and looks reasonable") ;;
     upload_pypi_packages E dist false ;;
     build_homebrew_package E (args_path args) (args_version args)
       (args_homebrew_path args) (args_homebrew_set_default args) ;;
     ret tt) in
  let evs := new_events w (m w).2 in
  (publication evs = [Staging false]
   \/ publication evs = [Staging true; Confirmation false]
   \/ exists ok,
        publication evs = [Staging true; Confirmation true; Production ok])
  /\ ((m w).1 = Return tt ->
      publication evs = [Staging true; Confirmation true; Production true]).
Proof.
  cbv zeta.
  set (prompt := "Ensure https://test.pypi.org/project/dbt/"
                 +:+ Version_str (args_version args)
                 +:+ "/ exists and looks reasonable").
  rewrite bind_run.
  destruct (upload_pypi_packages_run E dist true w)
    as (text3 & cmd3 & out3 & Ht3 & Hup3 & Hst3 & Hres3).
  pose proof (publication_upload text3 cmd3 None (fs w) out3 Hup3) as H3.
  rewrite Hst3 in H3.
  set (evs3 := [EvPrint text3; EvExec cmd3 None (fs w) out3]) in Ht3, H3.
  destruct (upload_pypi_packages E dist true w) as [[[] | e] w3];
    cbn [fst snd] in Ht3, Hres3 |- *; cycle 1.
  { destruct Hres3 as [[Hr _] | [_ Hout]]; [discriminate Hr |].
    rewrite Hout in H3.
    rewrite (new_events_app _ _ _ Ht3), H3.
    split; [by left | discriminate]. }
  destruct Hres3 as [[_ Hout3] | [[e He] _]]; [| discriminate He].
  rewrite Hout3 in H3.
  rewrite bind_run.
  destruct (input_run E prompt w3) as (answer & Ht4 & Hres4).
  pose proof (publication_input prompt answer) as H4.
  set (evs4 := [EvInput prompt answer]) in Ht4, H4.
  destruct (input E prompt w3) as [[line | e] w4];
    cbn [fst snd] in Ht4, Hres4 |- *; cycle 1.
  { destruct Hres4 as [[[l Hl] _] | [_ ->]]; [discriminate Hl |].
    assert (trace w4 = trace w ++ evs3 ++ evs4) as Ht
      by (rewrite Ht4, Ht3; by rewrite <- !app_assoc).
    rewrite (new_events_app _ _ _ Ht), !publication_app, H3, H4.
    split; [by right; left | discriminate]. }
  destruct Hres4 as [[_ Hans] | [[e He] _]]; [| discriminate He].
  rewrite (bool_decide_eq_true_2 _ Hans) in H4.
  rewrite bind_run.
  destruct (upload_pypi_packages_run E dist false w4)
    as (text5 & cmd5 & out5 & Ht5 & Hup5 & Hst5 & Hres5).
  pose proof (publication_upload text5 cmd5 None (fs w4) out5 Hup5) as H5.
  rewrite Hst5 in H5.
  set (evs5 := [EvPrint text5; EvExec cmd5 None (fs w4) out5]) in Ht5, H5.
  destruct (upload_pypi_packages E dist false w4) as [[[] | e] w5];
    cbn [fst snd] in Ht5, Hres5 |- *; cycle 1.
  { assert (trace w5 = trace w ++ evs3 ++ evs4 ++ evs5) as Ht
      by (rewrite Ht5, Ht4, Ht3; by rewrite <- !app_assoc).
    rewrite (new_events_app _ _ _ Ht), !publication_app, H3, H4, H5.
    split; [right; right; by eexists | discriminate]. }
  destruct Hres5 as [[_ Hout5] | [[e He] _]]; [| discriminate He].
  rewrite Hout5 in H5.
  rewrite bind_run.
  destruct (build_homebrew_package_no_step E (args_path args)
              (args_version args) (args_homebrew_path args)
              (args_homebrew_set_default args) w5)
    as (evs6 & Ht6 & H6%publication_none).
  assert (trace (build_homebrew_package E (args_path args)
                   (args_version args) (args_homebrew_path args)
                   (args_homebrew_set_default args) w5).2
          = trace w ++ evs3 ++ evs4 ++ evs5 ++ evs6) as Ht
    by (rewrite Ht6, Ht5, Ht4, Ht3; by rewrite <- !app_assoc).
  clear Ht3 Ht4 Ht5 Ht6.
  destruct (build_homebrew_package E _ _ _ _ w5) as [[p | e] w6];
    cbn [fst snd] in Ht |- *; unfold ret; cbn [fst snd];
    rewrite (new_events_app _ _ _ Ht), !publication_app, H3, H4, H5, H6;
    (split; [right; right; by eexists | done]).
Qed.

(** What [set_version] does as [upgrade_to] calls it, with the [Version]
    object for its [version]: the argument list is refused, no program is
    started and nothing is printed. *)
Lemma set_version_refused E args w :
  set_version E (args_path args) (VersionArg (args_version args))
    (args_part args) w
  = (Raised (Exn not_a_string),
     {| fs := fs w;
        trace := trace w
                 ++ [EvExec (set_version_cmd args) (Some (args_path args))
                       (fs w) (NotRun not_a_string)] |}).
Proof. reflexivity. Qed.

(** C3.  The code is written to publish as the claim says: the statements
    of [upgrade_to] from the first upload on go staging upload, prompt,
    production upload, each only when the one before went through, with
    exactly these two uploads when they run to the end.  But no run of
    [upgrade_to] gets there, and so none is complete: its first statement
    hands the [Version] object of the arguments to [set_version], whose
    argument list [subprocess] refuses with a [TypeError] before any
    program is started.  Every run ends there, with nothing uploaded. *)
Theorem upgrade_to_stops_at_set_version (E : Env) (args : Arguments) (w : World) :
  upgrade_to E args w
  = (Raised (Exn not_a_string),
     {| fs := fs w;
        trace := trace w
                 ++ [EvExec (set_version_cmd args) (Some (args_path args))
                       (fs w) (NotRun not_a_string)] |})
  /\ publication (new_events w (upgrade_to E args w).2) = []
  /\ forall dist w1,
       let later :=
         (upload_pypi_packages E dist true ;;
          input E ("Ensure https://test.pypi.org/project/dbt/"
                   +:+ Version_str (args_version args)
                   +:+ "/ exists and looks reasonable") ;;
          upload_pypi_packages E dist false ;;
          build_homebrew_package E (args_path args) (args_version args)
            (args_homebrew_path args) (args_homebrew_set_default args) ;;
          ret tt) in
       upgrade_to E args
       = (set_version E (args_path args) (VersionArg (args_version args))
            (args_part args) ;;
          dist_path <- build_pypi_packages E (args_path args) ;;
          upload_pypi_packages E dist_path true ;;
          input E ("Ensure https://test.pypi.org/project/dbt/"
                   +:+ Version_str (args_version args)
                   +:+ "/ exists and looks reasonable") ;;
          upload_pypi_packages E dist_path false ;;
          build_homebrew_package E (args_path args) (args_version args)
            (args_homebrew_path args) (args_homebrew_set_default args) ;;
          ret tt)
       /\ ((later w1).1 = Return tt ->
           publication (new_events w1 (later w1).2)
           = [Staging true; Confirmation true; Production true])
       /\ (publication (new_events w1 (later w1).2) = [Staging false]
           \/ publication (new_events w1 (later w1).2)
              = [Staging true; Confirmation false]
           \/ exists ok,
                publication (new_events w1 (later w1).2)
                = [Staging true; Confirmation true; Production ok]).
Proof.
  assert (upgrade_to E args w
          = (Raised (Exn not_a_string),
             {| fs := fs w;
                trace := trace w
                         ++ [EvExec (set_version_cmd args) (Some (args_path args))
                               (fs w) (NotRun not_a_string)] |})) as Hrun.
  { unfold upgrade_to. rewrite bind_run. by rewrite set_version_refused. }
  split; [exact Hrun |]. split.
  - rewrite Hrun. cbn [snd].
    by erewrite new_events_app by (cbn [trace]; reflexivity).
  - intros dist w1. cbv zeta. split; [reflexivity |].
    destruct (later_stages_publication E args dist w1) as [Hshape Hfull].
    by split.
Qed.

(** ** A failed build halts the run *)

Section Failfast.
Context (sel : list arg -> Prop).

Lemma failfast_silent {A} (m : M A) :
  (forall w, trace (m w).2 = trace w) -> failfast sel m.
Proof.
  intros Hm w. exists []. rewrite app_nil_r. split; [apply Hm |].
  intros cmd cwd found rc out _ Hin. inversion Hin.
Qed.

Lemma failfast_ret {A} (a : A) : failfast sel (ret a).
Proof. by apply failfast_silent. Qed.

Lemma failfast_raise {A} e : failfast sel (@raise A e).
Proof. by apply failfast_silent. Qed.

Lemma failfast_get_fs : failfast sel get_fs.
Proof. by apply failfast_silent. Qed.

Lemma failfast_set_fs m : failfast sel (set_fs m).
Proof. by apply failfast_silent. Qed.

Lemma failfast_only {A} (m : M A) :
  only (fun e => match e with
                 | EvExec cmd _ _ _ => ~ sel cmd
                 | _ => True
                 end) m ->
  failfast sel m.
Proof.
  intros Hm w. destruct (Hm w) as (evs & Ht & H). exists evs.
  split; [done |]. intros cmd cwd found rc out Hsel Hin _.
  rewrite Forall_forall in H. by apply H in Hin.
Qed.

Lemma failfast_check_output E cmd cwd : failfast sel (check_output E cmd cwd).
Proof.
  intros w. exists [EvExec cmd cwd (fs w) (run_program E cmd cwd w).1].
  unfold check_output.
  destruct (run_program E cmd cwd w) as [[rc out | e] fs'] eqn:Hsp; cbn [fst snd].
  - destruct (Z.eqb_spec rc 0) as [-> | Hrc]; cbn [fst snd trace];
      (split; [done |]);
      intros cmd' cwd' found' rc' out' _ Hin Hne;
      apply list_elem_of_singleton in Hin; injection Hin as -> -> -> -> ->.
    + done.
    + split; [done | by exists []].
  - cbn [fst snd trace]. split; [done |].
    intros cmd' cwd' found' rc' out' _ Hin Hne.
    by apply list_elem_of_singleton in Hin.
Qed.

Lemma failfast_bind {A B} (m : M A) (f : A -> M B) :
  failfast sel m -> (forall a, failfast sel (f a)) -> failfast sel (bind m f).
Proof.
  intros Hm Hf w. rewrite bind_run.
  destruct (Hm w) as (evs1 & Ht1 & H1).
  destruct (m w) as [[a | e] w1]; cbn [fst snd] in *.
  - destruct (Hf a w1) as (evs2 & Ht2 & H2).
    exists (evs1 ++ evs2). rewrite Ht2, Ht1, app_assoc. split; [done |].
    intros cmd cwd found rc out Hsel [Hin | Hin]%elem_of_app Hne.
    + by destruct (H1 cmd cwd found rc out Hsel Hin Hne).
    + destruct (H2 cmd cwd found rc out Hsel Hin Hne) as (Hr & evs0 & ->).
      split; [done |]. exists (evs1 ++ evs0). by rewrite app_assoc.
  - exists evs1. split; [done |].
    intros cmd cwd found rc out Hsel Hin Hne.
    destruct (H1 cmd cwd found rc out Hsel Hin Hne) as ([= ->] & Hev).
    by split.
Qed.

Lemma failfast_for_fold {A S} (xs : list A) (s : S) body :
  (forall s x, failfast sel (body s x)) -> failfast sel (for_fold xs s body).
Proof.
  intros Hb. revert s. induction xs as [|x xs IH]; intros s; cbn [for_fold].
  - apply failfast_ret.
  - apply failfast_bind; [apply Hb | intros s'; apply IH].
Qed.
End Failfast.

Ltac failfast_step :=
  lazymatch goal with
  | |- failfast _ (bind _ _) => apply failfast_bind; [| intros ?]
  | |- failfast _ (ret _) => apply failfast_ret
  | |- failfast _ (for_fold _ _ _) => apply failfast_for_fold; intros ? ?
  | |- failfast _ (check_output _ _ _) => apply failfast_check_output
  | |- failfast _ (build_pypi_packages _ _) => unfold build_pypi_packages
  | |- failfast _ (build_pypi_package _ _) => unfold build_pypi_package
  | |- failfast _ _ => apply failfast_only; only_steps
  end.

Lemma last_of_app {A} (l1 l2 l0 : list A) (x : A) :
  l1 ++ l2 = l0 ++ [x] -> l2 = [] \/ x ∈ l2.
Proof.
  destruct l2 as [|y l2 _] using rev_ind; [by left |].
  rewrite app_assoc. intros [_ ->]%app_inj_tail. right.
  apply elem_of_app. right. by left.
Qed.

(** ** The release directory is removed before anything is built *)

Lemma first_exec_app evs1 evs2 :
  Forall (fun e => is_exec e = false) evs1 ->
  first_exec (evs1 ++ evs2) = first_exec evs2.
Proof.
  unfold first_exec. induction 1 as [|e evs1 He _ IH]; [done |].
  cbn [app List.find]. by rewrite He.
Qed.

Lemma first_exec_none evs :
  Forall (fun e => is_exec e = false) evs -> first_exec evs = None.
Proof.
  intros H. rewrite <- (app_nil_r evs). by rewrite first_exec_app.
Qed.

Lemma remove_tree_lookup (d : list string) (m : gmap (list string) node)
    (q : list string) :
  remove_tree d m !! q = if decide (d `prefix_of` q) then None else m !! q.
Proof.
  unfold remove_tree. destruct (decide (d `prefix_of` q)) as [Hp | Hp].
  - apply map_lookup_filter_None. right. intros x _. cbn. by intros [].
  - destruct (m !! q) as [x|] eqn:Hq.
    + by apply map_lookup_filter_Some.
    + apply map_lookup_filter_None. by left.
Qed.

(** What [clean_dist] does when it is not asked to make the directory: it
    calls no program and creates nothing; when [dist] is there, the first
    thing it does is to remove it; when it returns, [dist] is not there. *)
Lemma clean_dist_run path w :
  exists evs,
    trace (clean_dist path false w).2 = trace w ++ evs
    /\ Forall (fun e => is_exec e = false) evs
    /\ (forall q, fs w !! q = None -> fs (clean_dist path false w).2 !! q = None)
    /\ (exists_ (fs w) (path ++ ["dist"]) = true ->
        exists evs', evs = EvRmtree (path ++ ["dist"]) :: evs')
    /\ (forall p, (clean_dist path false w).1 = Return p ->
        p = path ++ ["dist"]
        /\ fs (clean_dist path false w).2 !! (path ++ ["dist"]) = None).
Proof.
  unfold clean_dist.
  cbv beta iota zeta delta [bind path_exists get_fs ret shutil_rmtree log
                            raise set_fs].
  cbn [fs trace]. rewrite exists_snoc.
  case_bool_decide as Hex.
  - destruct (fs w !! (path ++ ["dist"])) as [[text |] |] eqn:Hp;
      [| | by destruct Hex]; cbn [fst snd fs trace].
    + exists [EvRmtree (path ++ ["dist"])].
      split; [done |]. split; [by repeat constructor |]. split; [done |].
      split; [by eexists | done].
    + exists [EvRmtree (path ++ ["dist"])].
      split; [done |]. split; [by repeat constructor |].
      split; [| split; [by eexists |]].
      * intros q Hq. rewrite remove_tree_lookup. by case_decide.
      * intros p [= <-]. split; [done |].
        rewrite remove_tree_lookup. by rewrite decide_True.
  - exists []. cbn [fst snd fs trace]. rewrite app_nil_r.
    split; [done |]. split; [constructor |]. split; [done |].
    split; [done |]. intros p [= <-]. split; [done |].
    destruct (fs w !! (path ++ ["dist"])) eqn:Hp; [| done].
    destruct Hex. by eexists.
Qed.

Lemma bind_assoc_run {A B C} (m : M A) (f : A -> M B) (g : B -> M C) w :
  bind (bind m f) g w = bind m (fun a => bind (f a) g) w.
Proof.
  rewrite !bind_run. destruct (m w) as [[a | e] w1]; [| done].
  by rewrite bind_run.
Qed.

Lemma build_pypi_packages_failfast E dbt_path :
  failfast (fun _ => True) (build_pypi_packages E dbt_path).
Proof. repeat failfast_step; done. Qed.

Lemma first_exec_elem evs e : first_exec evs = Some e -> e ∈ evs.
Proof.
  unfold first_exec. intros [H _]%find_some. by apply list_elem_of_In.
Qed.

(** C10.  [build_pypi_packages] removes the [dist] directory of the main
    package before it builds anything: when [dist] is there, its removal
    is the first event of the run; the first program the run calls is the
    build of the first subpackage, and the file system that build finds
    has no [dist] of the main package.  So when this first build fails (the
    run then raises its error and stops), the former release directory is
    gone already. *)
Theorem build_pypi_packages_removes_dist_first
    (E : Env) (dbt_path : list string) (w : World) :
  let dist := dbt_path ++ ["dist"] in
  let r := (build_pypi_packages E dbt_path w).1 in
  let evs := new_events w (build_pypi_packages E dbt_path w).2 in
  (exists_ (fs w) dist = true -> exists evs', evs = EvRmtree dist :: evs')
  /\ (forall cmd cwd found out,
        first_exec evs = Some (EvExec cmd cwd found out) ->
        cmd = build_cmd
        /\ cwd = Some (dbt_path ++ ["core"])
        /\ found !! dist = None
        /\ forall rc o,
             out = Exited rc o -> rc <> 0%Z ->
             r = Raised (CalledProcessError rc build_cmd o)
             /\ exists evs0, evs = evs0 ++ [EvExec cmd cwd found out]).
Proof.
  cbv zeta.
  destruct (build_pypi_packages_failfast E dbt_path w) as (evs & Ht & Hff).
  rewrite (new_events_app _ _ _ Ht).
  assert ((exists_ (fs w) (dbt_path ++ ["dist"]) = true ->
           exists evs', evs = EvRmtree (dbt_path ++ ["dist"]) :: evs')
          /\ forall cmd cwd found out,
               first_exec evs = Some (EvExec cmd cwd found out) ->
               cmd = build_cmd /\ cwd = Some (dbt_path ++ ["core"])
               /\ found !! (dbt_path ++ ["dist"]) = None) as [Ha Hb].
  { clear Hff. revert Ht. unfold build_pypi_packages, _SUBPACKAGES.
    cbn [for_fold]. rewrite bind_run.
    destruct (clean_dist_run dbt_path w)
      as (evs1 & Ht1 & Hne1 & Hmono1 & Hfirst1 & Hret1).
    destruct (clean_dist dbt_path false w) as [[d | e] w1];
      cbn [fst snd] in Ht1, Hmono1, Hret1 |- *.
    2:{ rewrite Ht1. intros <-%app_inv_head. split; [done |].
        intros cmd cwd found out. by rewrite first_exec_none. }
    destruct (Hret1 d eq_refl) as [-> Hgone1]. clear Hret1.
    rewrite !bind_assoc_run, bind_run.
    destruct (clean_dist_run (dbt_path ++ ["core"]) w1)
      as (evs2 & Ht2 & Hne2 & Hmono2 & _ & _).
    destruct (clean_dist (dbt_path ++ ["core"]) false w1) as [[d2 | e] w2];
      cbn [fst snd] in Ht2, Hmono2 |- *.
    2:{ rewrite Ht2, Ht1, <- app_assoc. intros <-%app_inv_head. split.
        - intros Hex. destruct (Hfirst1 Hex) as (evs' & ->). by eexists.
        - intros cmd cwd found out.
          rewrite first_exec_none; [done |]. by apply Forall_app. }
    unfold build_pypi_package at 1. rewrite !bind_assoc_run.
    match goal with
    | |- trace (bind (check_output E build_cmd ?c) ?F w2).2 = _ -> _ =>
        set (K := F);
        assert (forall a, only (fun _ => True) (K a)) as HK
          by (intros a; unfold K; only_steps; done);
        clearbody K
    end.
    rewrite bind_run. unfold check_output.
    destruct (run_program E build_cmd (Some (dbt_path ++ ["core"])) w2)
      as [out fs'].
    set (e0 := EvExec build_cmd (Some (dbt_path ++ ["core"])) (fs w2) out).
    assert (forall rest,
              trace w ++ evs = trace w2 ++ [e0] ++ rest ->
              (exists_ (fs w) (dbt_path ++ ["dist"]) = true ->
               exists evs', evs = EvRmtree (dbt_path ++ ["dist"]) :: evs')
              /\ forall cmd cwd found out',
                   first_exec evs = Some (EvExec cmd cwd found out') ->
                   cmd = build_cmd /\ cwd = Some (dbt_path ++ ["core"])
                   /\ found !! (dbt_path ++ ["dist"]) = None) as Hgoal.
    { intros rest. rewrite Ht2, Ht1, <- !app_assoc. intros ->%app_inv_head.
      split.
      - intros Hex. destruct (Hfirst1 Hex) as (evs' & ->). by eexists.
      - intros cmd cwd found out'. rewrite !first_exec_app by done.
        unfold e0. cbn. intros [= <- <- <- <-].
        split; [done |]. split; [done |]. by apply Hmono2. }
    destruct out as [rc o | e].
    - destruct (rc =? 0)%Z.
      + match goal with
        | |- trace (K ?a ?w3).2 = _ -> _ =>
            destruct (only_True _ _ (HK a) w3) as (rest & Hrest)
        end.
        rewrite Hrest. cbn [trace]. rewrite <- app_assoc. intros Heq.
        by apply (Hgoal rest).
      + cbn [fst snd trace]. intros Heq. apply (Hgoal []). cbn [app]. by rewrite Heq.
    - cbn [fst snd trace]. intros Heq. apply (Hgoal []). cbn [app]. by rewrite Heq. }
  split; [done |]. intros cmd cwd found out Hfirst.
  destruct (Hb cmd cwd found out Hfirst) as (-> & -> & Hgone).
  split; [done |]. split; [done |]. split; [done |].
  intros rc o -> Hrc. apply first_exec_elem in Hfirst.
  by apply (Hff build_cmd _ _ rc o I Hfirst Hrc).
Qed.

(** ** A failed build halts the build stage *)

Lemma in_two_stages_bind (P Q : event -> Prop) {A B} (m : M A) (f : A -> M B) :
  only P m -> (forall a, in_two_stages P Q (f a)) ->
  in_two_stages P Q (bind m f).
Proof.
  intros Hm Hf w. rewrite bind_run.
  destruct (Hm w) as (evs1 & Ht1 & H1).
  destruct (m w) as [[a | e] w1]; cbn [fst snd] in *.
  - destruct (Hf a w1) as (early & later & Ht2 & He & Hl).
    exists (evs1 ++ early), later. rewrite Ht2, Ht1.
    split; [by rewrite <- !app_assoc |]. split; [by apply Forall_app | done].
  - exists evs1, []. rewrite app_nil_r. by repeat split.
Qed.

Lemma in_two_stages_later (P Q : event -> Prop) {A} (m : M A) :
  only Q m -> in_two_stages P Q m.
Proof.
  intros Hm w. destruct (Hm w) as (evs & Ht & H).
  exists [], evs. by repeat split.
Qed.

(** The events of [build_pypi_packages]: those of the builds, then the
    copies and the report, among which no program is called. *)
Lemma build_pypi_packages_stages E dbt_path :
  in_two_stages build_stage_event (fun e => is_exec e = false)
    (build_pypi_packages E dbt_path).
Proof.
  unfold build_pypi_packages.
  apply in_two_stages_bind; [only_steps; done | intros dist].
  apply in_two_stages_bind; [only_steps; done | intros sub_pkgs].
  apply in_two_stages_bind; [only_steps; done | intros _].
  apply in_two_stages_later. only_steps; done.
Qed.

Lemma printed_none evs : Forall build_stage_event evs -> printed evs = [].
Proof.
  induction 1 as [|e evs He _ IH]; [done |].
  unfold printed in *. cbn [omap list_omap]. by destruct e.
Qed.

(** C2, as the spec states it, fails: when the build tool fails, what it
    wrote is not shown to the operator.  The script prints nothing, and the
    message of the error, which is what the interpreter reports of it,
    names the command and the status only; the captured output is a field
    of the exception, which nothing reads. *)
Lemma build_output_is_not_shown :
  (build_pypi_packages (sample_env (Some ["dbt"; "core"])) ["dbt"]
     sample_world).1
  = Raised (CalledProcessError 1 build_cmd "error: could not build")
  /\ printed
       (new_events sample_world
          (build_pypi_packages (sample_env (Some ["dbt"; "core"])) ["dbt"]
             sample_world).2)
     = []
  /\ CalledProcessError_str 1 build_cmd
     = Some "Command '['python', 'setup.py', 'sdist', 'bdist_wheel']' returned non-zero exit status 1."
  /\ occurs_in "error: could not build"
       "Command '['python', 'setup.py', 'sdist', 'bdist_wheel']' returned non-zero exit status 1."
     = false.
Proof. repeat split; vm_compute; reflexivity. Qed.

(** C2, amended.  When the build tool exits with a status other than 0 on
    a package, [build_pypi_packages] halts there: that call is its last
    event, nothing but removals of [dist] directories and builds came
    before it (no copy and no report), it raises the [CalledProcessError]
    that carries the status, the command and the output the tool wrote,
    and whatever follows the build stage (in [upgrade_to]: the uploads,
    the prompt, the extraction of the formula and all later stages) is not
    run.  The output is a field of that exception only: the script prints
    nothing, and the message of the exception names the command and the
    status. *)
Theorem build_failure_halts_build_stage
    (E : Env) (dbt_path : list string) (w : World)
    (cwd : option (list string)) (found : gmap (list string) node)
    (rc : Z) (out : string) :
  EvExec build_cmd cwd found (Exited rc out)
    ∈ new_events w (build_pypi_packages E dbt_path w).2 ->
  rc <> 0%Z ->
  (build_pypi_packages E dbt_path w).1
  = Raised (CalledProcessError rc build_cmd out)
  /\ (exists evs0,
        new_events w (build_pypi_packages E dbt_path w).2
        = evs0 ++ [EvExec build_cmd cwd found (Exited rc out)])
  /\ Forall build_stage_event
       (new_events w (build_pypi_packages E dbt_path w).2)
  /\ printed (new_events w (build_pypi_packages E dbt_path w).2) = []
  /\ (forall B (later : list string -> M B),
        bind (build_pypi_packages E dbt_path) later w
        = (Raised (CalledProcessError rc build_cmd out),
           (build_pypi_packages E dbt_path w).2))
  /\ ((0 < rc)%Z ->
      CalledProcessError_str rc build_cmd
      = Some ("Command '['python', 'setup.py', 'sdist', 'bdist_wheel']' returned non-zero exit status "
              +:+ str_of_int (Z.to_N rc) +:+ ".")).
Proof.
  intros Hin Hrc.
  destruct (build_pypi_packages_failfast E dbt_path w) as (evs & Ht & Hff).
  rewrite (new_events_app _ _ _ Ht) in Hin |- *.
  destruct (Hff build_cmd cwd found rc out I Hin Hrc) as (Hr & evs0 & Hev).
  assert (Forall build_stage_event evs) as Hstage.
  { destruct (build_pypi_packages_stages E dbt_path w)
      as (early & later & Ht' & He & Hl).
    rewrite Ht in Ht'. apply app_inv_head in Ht'.
    rewrite Ht'. rewrite Ht' in Hev.
    destruct (last_of_app _ _ _ _ Hev) as [-> | Hlast].
    - by rewrite app_nil_r.
    - rewrite Forall_forall in Hl. apply Hl in Hlast. discriminate Hlast. }
  split; [done |]. split; [by exists evs0 |]. split; [done |].
  split; [by apply printed_none |]. split.
  - intros B later. rewrite bind_run.
    destruct (build_pypi_packages E dbt_path w) as [r w'].
    cbn [fst snd] in Hr |- *. by rewrite Hr.
  - intros Hpos. unfold CalledProcessError_str.
    apply Z.ltb_lt in Hpos. by rewrite Hpos.
Qed.

Lemma build_failure_halts_build_stage_witness :
  (build_pypi_packages (sample_env (Some ["dbt"; "plugins"; "postgres"]))
     ["dbt"] sample_world).1
  = Raised (CalledProcessError 1 build_cmd "error: could not build")
  /\ printed
       (new_events sample_world
          (build_pypi_packages (sample_env (Some ["dbt"; "plugins"; "postgres"]))
             ["dbt"] sample_world).2)
     = []
  /\ List.length
       (new_events sample_world
          (build_pypi_packages (sample_env (Some ["dbt"; "plugins"; "postgres"]))
             ["dbt"] sample_world).2)
     = 2%nat.
Proof.
  destruct (build_failure_halts_build_stage
              (sample_env (Some ["dbt"; "plugins"; "postgres"]))
              ["dbt"] sample_world
              (Some ["dbt"; "plugins"; "postgres"]) (fs sample_world)
              1 "error: could not build")
    as (Hr & _ & _ & Hprinted & _).
  - apply list_elem_of_lookup. exists 1%nat. vm_compute. reflexivity.
  - discriminate.
  - split; [exact Hr |]. split; [exact Hprinted |]. vm_compute. reflexivity.
Defined.

(** ** Extraction: the claims *)





(** ** The sample release *)

Lemma create_homebrew_formula_twice_witness :
  fs sample_world_written !! formula_path ["homebrew-dbt"] sample_version
  = Some (File (contents sample_template true))
  /\ create_homebrew_formula sample_template sample_version ["homebrew-dbt"]
       sample_world_written
     = (Raised already_exists, sample_world_written).
Proof.
  destruct (create_homebrew_formula_twice sample_template sample_template
              sample_version ["homebrew-dbt"] sample_world
              sample_world_written
              (formula_path ["homebrew-dbt"] sample_version))
    as (Hfile & Hsecond & _).
  - vm_compute. reflexivity.
  - by split.
Defined.

Lemma set_default_homebrew_package_never_runs_witness :
  (build_homebrew_package (sample_env None) ["dbt"] sample_version
     ["homebrew-dbt"] true sample_world).1
  = Raised should_not_be_set
  /\ exists evs0 found out,
       new_events sample_world
         (build_homebrew_package (sample_env None) ["dbt"] sample_version
            ["homebrew-dbt"] false sample_world).2
       = evs0
         ++ [EvExec [Str "git"; Str "commit"; Str "-m";
                     Str ("add dbt@" +:+ Version_str sample_version)]
                    (Some ["homebrew-dbt"]) found (Exited 0 out)].
Proof.
  destruct (set_default_homebrew_package_never_runs (sample_env None) ["dbt"]
              sample_version ["homebrew-dbt"] true sample_world)
    as (_ & Hflag & Hcommit).
  split.
  - rewrite Hflag. vm_compute. reflexivity.
  - apply (Hcommit (formula_path ["homebrew-dbt"] sample_version)).
    vm_compute. reflexivity.
Defined.

Lemma build_pypi_packages_removes_dist_first_witness :
  exists_ (fs sample_world_with_dist) ["dbt"; "dist"] = true
  /\ (exists evs',
        new_events sample_world_with_dist
          (build_pypi_packages (sample_env (Some ["dbt"; "core"])) ["dbt"]
             sample_world_with_dist).2
        = EvRmtree ["dbt"; "dist"] :: evs')
  /\ (build_pypi_packages (sample_env (Some ["dbt"; "core"])) ["dbt"]
        sample_world_with_dist).1
     = Raised (CalledProcessError 1 build_cmd "error: could not build")
  /\ fs (build_pypi_packages (sample_env (Some ["dbt"; "core"])) ["dbt"]
           sample_world_with_dist).2 !! ["dbt"; "dist"; "dbt-0.15.1.tar.gz"]
     = None.
Proof.
  destruct (build_pypi_packages_removes_dist_first
              (sample_env (Some ["dbt"; "core"])) ["dbt"]
              sample_world_with_dist) as (Hfirst & Hexec).
  split; [reflexivity |]. split; [by apply Hfirst |].
  split; [| vm_compute; reflexivity].
  destruct (Hexec build_cmd (Some ["dbt"; "core"])
              (remove_tree ["dbt"; "dist"] (fs sample_world_with_dist))
              (Exited 1 "error: could not build"))
    as (_ & _ & _ & Hfail).
  - vm_compute. reflexivity.
  - by destruct (Hfail 1%Z "error: could not build" eq_refl) as [Hr _].
Defined.

(** * Further properties *)

(** ** The order of the external calls *)

Lemma calls_app evs1 evs2 : calls (evs1 ++ evs2) = calls evs1 ++ calls evs2.
Proof. apply List.filter_app. Qed.

Lemma calls_none evs :
  Forall (fun e => is_exec e = false) evs -> calls evs = [].
Proof.
  induction 1 as [|e evs He _ IH]; [done |].
  unfold calls in *. cbn [List.filter]. by rewrite He.
Qed.

Lemma completed_in_order shapes evs : completed shapes evs -> in_order shapes evs.
Proof.
  induction 1 as [|shape e shapes evs He _ IH]; [constructor |].
  destruct e as [cmd cwd found [rc o | e] | | | | | | | | | |]; try done.
  destruct He as [-> Hs]. by constructor.
Qed.

Lemma in_order_weaken shapes1 shapes2 evs :
  in_order shapes1 evs -> in_order (shapes1 ++ shapes2) evs.
Proof. induction 1; cbn [app]; by constructor. Qed.

Lemma in_order_app shapes1 shapes2 evs1 evs2 :
  completed shapes1 evs1 -> in_order shapes2 evs2 ->
  in_order (shapes1 ++ shapes2) (evs1 ++ evs2).
Proof.
  intros H1 H2. induction H1 as [|shape e shapes evs He _ IH]; [done |].
  destruct e as [cmd cwd found [rc o | e] | | | | | | | | | |]; try done.
  destruct He as [-> Hs]. cbn [app]. by constructor.
Qed.

Lemma calls_in_order_bind shapes1 shapes2 {A B} (m : M A) (f : A -> M B) :
  calls_in_order shapes1 m -> (forall a, calls_in_order shapes2 (f a)) ->
  calls_in_order (shapes1 ++ shapes2) (bind m f).
Proof.
  intros Hm Hf w. rewrite bind_run.
  destruct (Hm w) as (evs1 & Ht1 & Ho1 & Hc1).
  destruct (m w) as [[a | e] w1]; cbn [fst snd] in *.
  - destruct (Hf a w1) as (evs2 & Ht2 & Ho2 & Hc2).
    exists (evs1 ++ evs2). rewrite Ht2, Ht1, app_assoc. split; [done |].
    rewrite calls_app. split.
    + apply in_order_app; [by apply (Hc1 a) | done].
    + intros b Hb. apply Forall2_app; [by apply (Hc1 a) | by apply (Hc2 b)].
  - exists evs1. split; [done |]. split; [by apply in_order_weaken | done].
Qed.

Lemma calls_in_order_silent {A} (m : M A) :
  only (fun e => is_exec e = false) m -> calls_in_order [] m.
Proof.
  intros Hm w. destruct (Hm w) as (evs & Ht & H). exists evs.
  rewrite (calls_none _ H). split; [done |]. split; constructor.
Qed.

Lemma calls_in_order_bind_silent shapes {A B} (m : M A) (f : A -> M B) :
  only (fun e => is_exec e = false) m -> (forall a, calls_in_order shapes (f a)) ->
  calls_in_order shapes (bind m f).
Proof.
  intros Hm Hf. apply (calls_in_order_bind [] shapes); [| done].
  by apply calls_in_order_silent.
Qed.

Lemma calls_in_order_bind_call shape shapes {A B} (m : M A) (f : A -> M B) :
  calls_in_order [shape] m -> (forall a, calls_in_order shapes (f a)) ->
  calls_in_order (shape :: shapes) (bind m f).
Proof. apply (calls_in_order_bind [shape] shapes). Qed.

Lemma calls_in_order_ret {A} (a : A) : calls_in_order [] (ret a).
Proof. apply calls_in_order_silent, only_ret. Qed.

Lemma calls_in_order_check_output E
    (shape : list arg -> option (list string) -> Prop) cmd cwd :
  shape cmd cwd -> calls_in_order [shape] (check_output E cmd cwd).
Proof.
  intros Hs w. exists [EvExec cmd cwd (fs w) (run_program E cmd cwd w).1].
  unfold check_output.
  destruct (run_program E cmd cwd w) as [[rc out | e] fs'] eqn:Hsp; cbn [fst snd].
  - destruct (Z.eqb_spec rc 0) as [-> | Hrc]; cbn [fst snd trace calls List.filter is_exec].
    + split; [done |]. split.
      * constructor; [done | constructor].
      * intros _ _. by repeat constructor.
    + split; [done |]. split; [| done].
      apply in_order_fail; [done |]. cbn. by apply Z.eqb_neq.
  - cbn [fst snd trace calls List.filter is_exec]. split; [done |].
    split; [| done]. by apply in_order_fail.
Qed.

Lemma calls_in_order_try_finally shapes {A} (body : M A) final :
  calls_in_order shapes body -> only (fun e => is_exec e = false) final ->
  calls_in_order shapes (try_finally body final).
Proof.
  intros Hb Hf w. unfold try_finally.
  destruct (Hb w) as (evs1 & Ht1 & Ho1 & Hc1).
  destruct (body w) as [r w1]; cbn [fst snd] in *.
  destruct (Hf w1) as (evs2 & Ht2 & H2).
  exists (evs1 ++ evs2). rewrite calls_app, (calls_none _ H2), app_nil_r.
  destruct (final w1) as [[[] | e] w2]; cbn [fst snd] in *;
    rewrite Ht2, Ht1, app_assoc; (split; [done |]); (split; [done |]); done.
Qed.

Lemma build_pypi_package_call E path :
  calls_in_order [exactly build_cmd (Some path)] (build_pypi_package E path).
Proof.
  unfold build_pypi_package.
  apply (calls_in_order_bind_call _ []); [| intros ?; apply calls_in_order_ret].
  by apply calls_in_order_check_output.
Qed.

Lemma clean_dist_silent path make :
  only (fun e => is_exec e = false) (clean_dist path make).
Proof. only_steps; done. Qed.

Lemma calls_in_order_for_fold {A S}
    (shape_of : A -> list arg -> option (list string) -> Prop)
    (xs : list A) (s : S) body :
  (forall s x, calls_in_order [shape_of x] (body s x)) ->
  calls_in_order (List.map shape_of xs) (for_fold xs s body).
Proof.
  intros Hb. revert s. induction xs as [|x xs IH]; intros s; cbn [for_fold List.map].
  - apply calls_in_order_ret.
  - apply calls_in_order_bind_call; [apply Hb | intros s'; apply IH].
Qed.

Lemma build_pypi_packages_calls E dbt_path :
  calls_in_order (pypi_build_calls dbt_path) (build_pypi_packages E dbt_path).
Proof.
  unfold build_pypi_packages, pypi_build_calls, get_targets.
  rewrite List.map_app, List.map_map. cbn [List.map].
  apply calls_in_order_bind_silent; [apply clean_dist_silent | intros dist].
  apply calls_in_order_bind.
  - apply (calls_in_order_for_fold
             (fun path => exactly build_cmd (Some (dbt_path ++ path)))).
    intros sub_pkgs path.
    apply calls_in_order_bind_silent; [apply clean_dist_silent | intros d].
    apply (calls_in_order_bind_call _ []); [apply build_pypi_package_call |].
    intros _. apply calls_in_order_silent. only_steps; done.
  - intros sub_pkgs.
    apply (calls_in_order_bind_call _ []); [apply build_pypi_package_call |].
    intros _. apply calls_in_order_silent. only_steps; done.
Qed.

Lemma calls_in_order_bind_post shapes1 shapes2 {A B} (m : M A) (f : A -> M B)
    (P : A -> Prop) :
  calls_in_order shapes1 m ->
  (forall w a w', m w = (Return a, w') -> P a) ->
  (forall a, P a -> calls_in_order shapes2 (f a)) ->
  calls_in_order (shapes1 ++ shapes2) (bind m f).
Proof.
  intros Hm HP Hf w. rewrite bind_run.
  destruct (Hm w) as (evs1 & Ht1 & Ho1 & Hc1).
  pose proof (HP w) as HP'.
  destruct (m w) as [[a | e] w1]; cbn [fst snd] in *.
  - destruct (Hf a (HP' a w1 eq_refl) w1) as (evs2 & Ht2 & Ho2 & Hc2).
    exists (evs1 ++ evs2). rewrite Ht2, Ht1, app_assoc. split; [done |].
    rewrite calls_app. split.
    + apply in_order_app; [by apply (Hc1 a) | done].
    + intros b Hb. apply Forall2_app; [by apply (Hc1 a) | by apply (Hc2 b)].
  - exists evs1. split; [done |]. split; [by apply in_order_weaken | done].
Qed.

Lemma build_pypi_packages_Return E dbt_path w p w' :
  build_pypi_packages E dbt_path w = (Return p, w') -> p = dbt_path ++ ["dist"].
Proof.
  unfold build_pypi_packages. rewrite bind_run.
  destruct (clean_dist_run dbt_path w) as (_ & _ & _ & _ & _ & Hret).
  destruct (clean_dist dbt_path false w) as [[d | e] w1]; [| done].
  destruct (Hret d eq_refl) as [-> _]. clear Hret.
  rewrite bind_run.
  destruct (for_fold _SUBPACKAGES _ _ w1) as [[sub_pkgs | e] w2]; [| done].
  rewrite bind_run.
  destruct (build_pypi_package E dbt_path w2) as [[[] | e] w3]; [| done].
  rewrite bind_run.
  destruct (for_fold sub_pkgs _ _ w3) as [[[] | e] w4]; [| done].
  by intros [= <- _].
Qed.

(** What [_all_packages_in] returns: it leaves the world as it is, and
    every path it yields is an entry of the directory. *)
Lemma _all_packages_in_run path w :
  exists found,
    _all_packages_in path w = (Return found, w)
    /\ Forall (fun p => p <> [] /\ parent p = path) found.
Proof.
  eexists. split; [reflexivity |].
  apply Forall_app. split; apply Forall_forall; intros q Hq;
    unfold glob_suffix in Hq; apply list_elem_of_In, filter_In in Hq;
    destruct Hq as [_ [Hq _]%andb_true_iff];
    by apply bool_decide_eq_true in Hq.
Qed.

Lemma upload_pypi_packages_calls E dist_path test :
  calls_in_order [twine_upload dist_path test]
                 (upload_pypi_packages E dist_path test).
Proof.
  intros w. unfold upload_pypi_packages. rewrite bind_run.
  destruct (_all_packages_in_run dist_path w) as (found & -> & Hfound).
  revert w.
  change (calls_in_order [twine_upload dist_path test]
            (print ("uploading packages: " +:+ String.concat " "
               (List.map format_arg
                  ((if test
                    then [Str "twine"; Str "upload"] ++ [Str "--repository"; Str "pypitest"]
                    else [Str "twine"; Str "upload"])
                   ++ List.map (fun p => Str (path_str p)) found))) ;;
             check_output E
               ((if test
                 then [Str "twine"; Str "upload"] ++ [Str "--repository"; Str "pypitest"]
                 else [Str "twine"; Str "upload"])
                ++ List.map (fun p => Str (path_str p)) found) None ;;
             ret tt)).
  apply calls_in_order_bind_silent; [only_steps; done | intros _].
  apply (calls_in_order_bind_call _ []); [| intros ?; apply calls_in_order_ret].
  apply calls_in_order_check_output. split; [done |].
  exists found. split; [done |]. by destruct test.
Qed.

Lemma make_venv_Return E dbt_path v w p w' :
  make_venv E dbt_path v w = (Return p, w') ->
  p = (dbt_path ++ ["build"]) ++ ["tmp-venv"].
Proof.
  unfold make_venv. rewrite bind_run.
  destruct (os_makedirs _ true w) as [[[] | e] w1]; [| done].
  rewrite bind_run. unfold path_exists at 1, get_fs at 1, ret at 1.
  rewrite !bind_run.
  destruct (exists_ (fs w1) _).
  - destruct (shutil_rmtree _ w1) as [[[] | e] w2]; [| done].
    rewrite bind_run.
    destruct (PoetVirtualenv_create E v _ w2) as [[[] | e] w3]; [| done].
    by intros [= <- _].
  - unfold ret at 1. rewrite bind_run.
    destruct (PoetVirtualenv_create E v _ w1) as [[[] | e] w3]; [| done].
    by intros [= <- _].
Qed.

Lemma make_venv_calls E dbt_path v :
  calls_in_order [pip_install v] (make_venv E dbt_path v).
Proof.
  unfold make_venv.
  apply calls_in_order_bind_silent; [only_steps; done | intros _].
  apply calls_in_order_bind_silent; [only_steps; done | intros ex].
  apply calls_in_order_bind_silent; [only_steps; done | intros _].
  apply (calls_in_order_bind_call _ []); [| intros ?; apply calls_in_order_ret].
  unfold PoetVirtualenv_create.
  apply calls_in_order_bind_silent; [only_steps; done | intros env_exe].
  unfold post_setup.
  apply calls_in_order_bind_silent; [only_steps; done | intros tmp].
  apply calls_in_order_bind_silent; [only_steps; done | intros _].
  apply (calls_in_order_bind_call _ []).
  - apply calls_in_order_try_finally; [| only_steps; done].
    apply calls_in_order_check_output. by exists env_exe, tmp.
  - intros result. apply calls_in_order_silent. only_steps; done.
Qed.

Lemma homebrew_formula_template_calls E dbt_path v :
  calls_in_order
    [ pip_install v;
      exactly [PathArg (poet_path dbt_path); Str "-s"; Str "dbt"] None;
      exactly [PathArg (poet_path dbt_path); Str "-r"; Str "dbt"] None ]
    (homebrew_formula_template E dbt_path v).
Proof.
  unfold homebrew_formula_template.
  apply (calls_in_order_bind_post [_] [_; _] _ _
           (fun p => p = (dbt_path ++ ["build"]) ++ ["tmp-venv"])).
  - apply make_venv_calls.
  - intros w a w'. apply make_venv_Return.
  - intros env_path ->. fold (poet_path dbt_path).
    apply calls_in_order_bind_silent; [only_steps; done | intros _].
    apply calls_in_order_bind_call;
      [by apply calls_in_order_check_output | intros output].
    apply calls_in_order_bind_silent; [only_steps; done | intros parts].
    apply (calls_in_order_bind_call _ []);
      [by apply calls_in_order_check_output | intros deps].
    apply calls_in_order_ret.
Qed.

Lemma homebrew_run_tests_calls E p :
  calls_in_order
    [ exactly [Str "brew"; Str "uninstall"; Str "--force"; PathArg p] None;
      exactly [Str "brew"; Str "install"; PathArg p] None;
      exactly [Str "brew"; Str "test"; Str "dbt"] None;
      exactly [Str "brew"; Str "audit"; Str "--strict"; Str "dbt"] None ]
    (homebrew_run_tests E p).
Proof.
  unfold homebrew_run_tests.
  repeat (apply calls_in_order_bind_call;
          [by apply calls_in_order_check_output | intros ?]).
  apply calls_in_order_ret.
Qed.

Lemma homebrew_commit_formula_calls E p v homebrew_path :
  calls_in_order
    [ exactly [Str "git"; Str "add"; PathArg p] (Some homebrew_path);
      exactly [Str "git"; Str "commit"; Str "-m";
               Str ("add dbt@" +:+ Version_str v)] (Some homebrew_path) ]
    (homebrew_commit_formula E p v homebrew_path).
Proof.
  unfold homebrew_commit_formula.
  repeat (apply calls_in_order_bind_call;
          [by apply calls_in_order_check_output | intros ?]).
  apply calls_in_order_ret.
Qed.

Lemma build_homebrew_package_calls E dbt_path v homebrew_path set_default :
  calls_in_order (homebrew_calls dbt_path v homebrew_path)
    (build_homebrew_package E dbt_path v homebrew_path set_default).
Proof.
  unfold build_homebrew_package, homebrew_calls. cbv zeta.
  apply (calls_in_order_bind [_; _; _] [_; _; _; _; _; _]);
    [apply homebrew_formula_template_calls | intros template].
  apply (calls_in_order_bind_post [] [_; _; _; _; _; _] _ _
           (fun p => p = formula_path homebrew_path v)).
  - apply calls_in_order_silent. only_steps; done.
  - intros w p w' H. by apply create_homebrew_formula_Return in H as [-> _].
  - intros p ->.
    apply (calls_in_order_bind [_; _; _; _] [_; _]);
      [apply homebrew_run_tests_calls | intros _].
    apply (calls_in_order_bind [_; _] []);
      [apply homebrew_commit_formula_calls | intros _].
    apply calls_in_order_silent.
    destruct set_default; only_steps; done.
Qed.

(** X1.  [build_pypi_packages] builds the subpackages [get_targets] lists,
    in that order, and then the main package, each in its own directory
    and each only when the builds before it went through.  It returns, the
    release directory [dist] of the main package, only when all six builds
    went through. *)
Theorem build_pypi_packages_builds_targets_in_order
    (E : Env) (dbt_path : list string) (w : World) :
  let r := (build_pypi_packages E dbt_path w).1 in
  let evs := new_events w (build_pypi_packages E dbt_path w).2 in
  in_order (pypi_build_calls dbt_path) (calls evs)
  /\ forall p, r = Return p ->
       p = dbt_path ++ ["dist"]
       /\ completed (pypi_build_calls dbt_path) (calls evs).
Proof.
  cbv zeta. destruct (build_pypi_packages_calls E dbt_path w) as (evs & Ht & Ho & Hc).
  rewrite (new_events_app _ _ _ Ht). split; [done |].
  intros p Hp. split; [| by apply (Hc p)].
  destruct (build_pypi_packages E dbt_path w) as [r w'] eqn:Hrun.
  cbn [fst] in Hp. subst r. by apply build_pypi_packages_Return in Hrun.
Qed.

(** X2.  The programs a run of [build_homebrew_package] calls are, in this
    order: [pip] in the new virtual environment, [poet -s dbt],
    [poet -r dbt], [brew uninstall], [brew install], [brew test],
    [brew audit], [git add] and [git commit]; each is called only when
    those before it exited with 0.  So the formula is committed only after
    it was installed, tested and audited, and the run returns only when
    all nine went through. *)
Theorem build_homebrew_package_calls_in_order
    (E : Env) (dbt_path : list string) (v : Version)
    (homebrew_path : list string) (set_default : bool) (w : World) :
  let r := (build_homebrew_package E dbt_path v homebrew_path set_default w).1 in
  let evs :=
    new_events w
      (build_homebrew_package E dbt_path v homebrew_path set_default w).2 in
  in_order (homebrew_calls dbt_path v homebrew_path) (calls evs)
  /\ forall p, r = Return p ->
       p = formula_path homebrew_path v
       /\ completed (homebrew_calls dbt_path v homebrew_path) (calls evs).
Proof.
  cbv zeta.
  destruct (build_homebrew_package_calls E dbt_path v homebrew_path set_default w)
    as (evs & Ht & Ho & Hc).
  rewrite (new_events_app _ _ _ Ht). split; [done |].
  intros p Hp. split; [| by apply (Hc p)].
  revert Hp. clear. unfold build_homebrew_package. rewrite bind_run.
  destruct (homebrew_formula_template E dbt_path v w) as [[t | e] w1]; [| done].
  rewrite bind_run.
  destruct (create_homebrew_formula t v homebrew_path w1) as [[fp | e] w2] eqn:Hc;
    [| done].
  apply create_homebrew_formula_Return in Hc as [-> _].
  rewrite bind_run.
  destruct (homebrew_run_tests E _ w2) as [[[] | e] w3]; [| done].
  rewrite bind_run.
  destruct (homebrew_commit_formula E _ v homebrew_path w3) as [[[] | e] w4];
    [| done].
  rewrite bind_run. destruct set_default; [done |].
  by intros [= <-].
Qed.

(** X3.  [set_version] calls [bumpversion] in the repository and reports
    the bump exactly when the program exited with 0: the call is its first
    event, the report follows it in a run that returns, and nothing
    follows it otherwise.  Given a string for the version, the program
    runs as the environment has it; given the [Version] object, as
    [upgrade_to] gives it, the argument list is refused, no program is
    started and the file system stays as it is. *)
Theorem set_version_reports_only_success
    (E : Env) (path : list string) (version : arg) (part : string) (w : World) :
  let cmd := [Str "bumpversion"; Str "--commit"; Str "--no-tag";
              Str "--new-version"; version; Str part] in
  let r := (set_version E path version part w).1 in
  let w' := (set_version E path version part w).2 in
  exists out rest,
    new_events w w' = EvExec cmd (Some path) (fs w) out :: rest
    /\ (r = Return tt <-> succeeded out = true)
    /\ (succeeded out = true ->
        rest = [EvPrint ("bumped version to " +:+ format_arg version)])
    /\ (succeeded out = false -> rest = [])
    /\ (forall s, version = Str s ->
        out = (spawn E cmd (Some path) w).1
        /\ (forall rc o, out = Exited rc o ->
            fs w' = (spawn E cmd (Some path) w).2))
    /\ (forall v, version = VersionArg v ->
        out = NotRun not_a_string /\ r = Raised (Exn not_a_string)
        /\ fs w' = fs w).
Proof.
  cbv zeta. unfold set_version, check_output, print, log.
  cbv beta iota zeta delta [bind].
  set (cmd := [Str "bumpversion"; Str "--commit"; Str "--no-tag";
               Str "--new-version"; version; Str part]).
  assert (forall s, version = Str s ->
            run_program E cmd (Some path) w = spawn E cmd (Some path) w) as Hstr
    by (by intros s ->).
  assert (forall v, version = VersionArg v ->
            run_program E cmd (Some path) w = (NotRun not_a_string, fs w)) as Hobj
    by (by intros v ->).
  exists (run_program E cmd (Some path) w).1.
  destruct (run_program E cmd (Some path) w) as [[rc o | e] fs'] eqn:Hrun;
    cbn [fst snd].
  - destruct (Z.eqb_spec rc 0) as [-> | Hrc]; cbn [fst snd fs trace].
    + exists [EvPrint ("bumped version to " +:+ format_arg version)].
      split; [apply new_events_app; cbn [trace]; by rewrite <- app_assoc |].
      split; [done |]. split; [done |]. split; [done |]. split.
      * intros s Hs. rewrite <- (Hstr s Hs). split; [done |]. by intros ? ? _.
      * intros v Hv. discriminate (Hobj v Hv).
    + exists [].
      split; [by apply new_events_app |].
      assert ((rc =? 0)%Z = false) as Hz by (by apply Z.eqb_neq).
      split; [cbn; rewrite Hz; by split |]. split; [cbn; by rewrite Hz |].
      split; [done |]. split.
      * intros s Hs. rewrite <- (Hstr s Hs). split; [done |]. by intros ? ? _.
      * intros v Hv. discriminate (Hobj v Hv).
  - exists []. cbn [fs trace].
    split; [by apply new_events_app |]. split; [by split |].
    split; [done |]. split; [done |]. split.
    + intros s Hs. rewrite <- (Hstr s Hs). split; [done |].
      intros rc o H. discriminate H.
    + intros v Hv. by injection (Hobj v Hv) as -> ->.
Qed.

(** ** Failures of the other programs *)

Ltac failfast_all_step :=
  lazymatch goal with
  | |- failfast _ (bind _ _) => apply failfast_bind; [| intros ?]
  | |- failfast _ (ret _) => apply failfast_ret
  | |- failfast _ (raise _) => apply failfast_raise
  | |- failfast _ get_fs => apply failfast_get_fs
  | |- failfast _ (set_fs _) => apply failfast_set_fs
  | |- failfast _ (for_fold _ _ _) => apply failfast_for_fold; intros ? ?
  | |- failfast _ (check_output _ _ _) => apply failfast_check_output
  | |- failfast _ (try_finally _ _) => apply failfast_only; only_steps
  | |- failfast _ (log _) => apply failfast_only; only_steps
  | |- failfast _ (input _ _) => apply failfast_only; only_steps
  | |- failfast _ (tempfile_mkdtemp _) => apply failfast_only; only_steps
  | |- failfast _ (EnvBuilder_setup _ _) => apply failfast_only; only_steps
  | |- failfast _ (of_result _) => apply failfast_only; only_steps
  | |- failfast _ (if ?b then _ else _) => destruct b
  | |- failfast _ (match ?x with _ => _ end) => destruct x
  | |- failfast _ ?m => let h := head_of m in unfold h; cbv zeta
  end.

Lemma build_homebrew_package_failfast E dbt_path v homebrew_path set_default :
  failfast (fun cmd => is_pip_install cmd = false)
    (build_homebrew_package E dbt_path v homebrew_path set_default).
Proof. repeat failfast_all_step; done. Qed.

(** X4.  Whatever program of a run of [build_homebrew_package] exits with
    a status other than 0, the call of [pip] apart, the run halts there:
    that call is the last event, and the run raises the
    [CalledProcessError] with the status, the command and the output of
    the program. *)
Theorem any_failure_halts_homebrew_stage
    (E : Env) (dbt_path : list string) (v : Version)
    (homebrew_path : list string) (set_default : bool) (w : World)
    (cmd : list arg) (cwd : option (list string))
    (found : gmap (list string) node) (rc : Z) (out : string) :
  is_pip_install cmd = false ->
  EvExec cmd cwd found (Exited rc out)
    ∈ new_events w
        (build_homebrew_package E dbt_path v homebrew_path set_default w).2 ->
  rc <> 0%Z ->
  (build_homebrew_package E dbt_path v homebrew_path set_default w).1
  = Raised (CalledProcessError rc cmd out)
  /\ exists evs0,
       new_events w
         (build_homebrew_package E dbt_path v homebrew_path set_default w).2
       = evs0 ++ [EvExec cmd cwd found (Exited rc out)].
Proof.
  intros Hsel Hin Hrc.
  destruct (build_homebrew_package_failfast E dbt_path v homebrew_path
              set_default w) as (evs & Ht & Hff).
  rewrite (new_events_app _ _ _ Ht) in Hin |- *.
  by apply Hff.
Qed.

Lemma any_failure_halts_homebrew_stage_witness :
  (build_homebrew_package (sample_env_where is_brew_test) ["dbt"]
     sample_version ["homebrew-dbt"] false sample_world).1
  = Raised (CalledProcessError 1 [Str "brew"; Str "test"; Str "dbt"] "failed")
  /\ List.length
       (calls (new_events sample_world
                 (build_homebrew_package (sample_env_where is_brew_test) ["dbt"]
                    sample_version ["homebrew-dbt"] false sample_world).2))
     = 6%nat.
Proof.
  destruct (any_failure_halts_homebrew_stage (sample_env_where is_brew_test)
              ["dbt"] sample_version ["homebrew-dbt"] false sample_world
              [Str "brew"; Str "test"; Str "dbt"] None
              (fs (build_homebrew_package (sample_env_where is_brew_test)
                     ["dbt"] sample_version ["homebrew-dbt"] false
                     sample_world).2)
              1 "failed") as (Hr & _).
  - reflexivity.
  - apply list_elem_of_lookup.
    exists (Nat.pred (List.length
              (new_events sample_world
                 (build_homebrew_package (sample_env_where is_brew_test)
                    ["dbt"] sample_version ["homebrew-dbt"] false
                    sample_world).2))).
    vm_compute. reflexivity.
  - discriminate.
  - split; [exact Hr | vm_compute; reflexivity].
Defined.

(** ** The temporary directory of [post_setup] *)

(** X5.  Every run of [post_setup] makes a temporary directory, announces
    the installation, calls [pip] in that directory and then, whatever
    [pip] did, tries to remove the directory.  It returns only when [pip]
    exited with 0 and the directory could be removed, and then has printed
    the output of [pip]; otherwise nothing follows the removal.  When the
    directory is still there in the end, the run raises the [OSError] of
    the removal, also when [pip] had failed: the error of [pip] comes out
    only when the directory was removed. *)
Theorem post_setup_always_removes_temp_dir
    (E : Env) (v : Version) (env_exe : string) (w : World) :
  let r := (post_setup E v env_exe w).1 in
  let w' := (post_setup E v env_exe w).2 in
  exists tmp found out rest,
    new_events w w'
    = [EvMkdtemp tmp;
       EvPrint ("installing homebrew-pypi-poet and dbt==" +:+ Version_str v);
       EvExec (pip_cmd v env_exe) (Some tmp) found out;
       EvRmdir tmp] ++ rest
    /\ (r = Return tt ->
        exists o, out = Exited 0 o /\ rest = [EvPrint "done:"; EvPrint o]
                  /\ fs w' !! tmp = None)
    /\ (forall e, r = Raised e -> rest = [])
    /\ (is_Some (fs w' !! tmp) -> exists msg, r = Raised (Exn (OSError msg)))
    /\ (forall rc cmd o,
          r = Raised (CalledProcessError rc cmd o) ->
          cmd = pip_cmd v env_exe /\ out = Exited rc o /\ rc <> 0%Z
          /\ fs w' !! tmp = None).
Proof.
  cbv zeta. unfold post_setup. fold (pip_cmd v env_exe).
  set (tmp := mkdtemp_name E w).
  cbv beta iota zeta delta [bind tempfile_mkdtemp print log try_finally
    check_output os_rmdir get_fs raise set_fs ret].
  cbn [fs trace]. fold tmp.
  set (w1 := {| fs := <[tmp:=Dir]> (fs w);
                trace := (trace w ++ [EvMkdtemp tmp])
                         ++ [EvPrint ("installing homebrew-pypi-poet and dbt=="
                                      +:+ Version_str v)] |}).
  exists tmp, (<[tmp:=Dir]> (fs w)), (run_program E (pip_cmd v env_exe) (Some tmp) w1).1.
  destruct (run_program E (pip_cmd v env_exe) (Some tmp) w1) as [[rc o | e] fs'];
    cbn [fst snd fs trace].
  - destruct (Z.eqb_spec rc 0) as [-> | Hrc]; cbn [fst snd fs trace].
    + destruct (fs' !! tmp) as [[text |] |] eqn:Htmp; cbn [fst snd fs trace].
      * exists []. split; [apply new_events_app; cbn [trace]; by rewrite <- !app_assoc |].
        split; [done |]. split; [done |]. split; [by eexists | done].
      * destruct (has_children fs' tmp); cbn [fst snd fs trace].
        -- exists []. split; [apply new_events_app; cbn [trace]; by rewrite <- !app_assoc |].
           split; [done |]. split; [done |]. split; [by eexists | done].
        -- exists [EvPrint "done:"; EvPrint o].
           split; [apply new_events_app; cbn [trace]; by rewrite <- !app_assoc |].
           split.
           { intros _. exists o. split; [done |]. split; [done |].
             apply lookup_delete_eq. }
           split; [done |]. split; [| done].
           rewrite lookup_delete_eq. by intros [? ?].
      * exists []. split; [apply new_events_app; cbn [trace]; by rewrite <- !app_assoc |].
        split; [done |]. split; [done |]. split; [by eexists | done].
    + destruct (fs' !! tmp) as [[text |] |] eqn:Htmp; cbn [fst snd fs trace].
      * exists []. split; [apply new_events_app; cbn [trace]; by rewrite <- !app_assoc |].
        split; [done |]. split; [done |]. split; [by eexists | done].
      * destruct (has_children fs' tmp); cbn [fst snd fs trace].
        -- exists []. split; [apply new_events_app; cbn [trace]; by rewrite <- !app_assoc |].
           split; [done |]. split; [done |]. split; [by eexists | done].
        -- exists []. split; [apply new_events_app; cbn [trace]; by rewrite <- !app_assoc |].
           split; [done |]. split; [done |]. split.
           { rewrite lookup_delete_eq. by intros [? ?]. }
           intros rc' cmd' o' [= <- <- <-]. split; [done |]. split; [done |].
           split; [done |]. apply lookup_delete_eq.
      * exists []. split; [apply new_events_app; cbn [trace]; by rewrite <- !app_assoc |].
        split; [done |]. split; [done |]. split; [by eexists | done].
  - destruct (<[tmp:=Dir]> (fs w) !! tmp) as [[text |] |] eqn:Htmp;
      cbn [fst snd fs trace].
    + exists []. split; [apply new_events_app; cbn [trace]; by rewrite <- !app_assoc |].
      split; [done |]. split; [done |]. split; [by eexists | done].
    + destruct (has_children (<[tmp:=Dir]> (fs w)) tmp); cbn [fst snd fs trace].
      * exists []. split; [apply new_events_app; cbn [trace]; by rewrite <- !app_assoc |].
        split; [done |]. split; [done |]. split; [by eexists | done].
      * exists []. split; [apply new_events_app; cbn [trace]; by rewrite <- !app_assoc |].
        split; [done |]. split; [done |]. split; [| done].
        rewrite lookup_delete_eq. by intros [? ?].
    + exists []. split; [apply new_events_app; cbn [trace]; by rewrite <- !app_assoc |].
      split; [done |]. split; [done |]. split; [by eexists | done].
Qed.

(** ** What [main] checks before it acts *)

(** X6.  [main] does nothing to the outside before its checks have passed.
    Under an interpreter other than 3.7, or without the [wheel] package,
    it prints one message and exits with status 1.  Otherwise, on a version
    argument that does not begin with [M.N.P], it raises the error of the
    failed match (not a usage error of the argument parser) and leaves the
    world as it found it; and on one that [Version] accepts it is
    [upgrade_to] on the arguments given. *)
Theorem main_checks_before_it_acts (E : Env) (cl : CommandLine) (w : World) :
  (python_version E <> HOMEBREW_PYTHON \/ wheel_importable E = false ->
   exists text,
     main E cl w
     = (Raised (SystemExit 1),
        {| fs := fs w; trace := trace w ++ [EvPrint text] |}))
  /\ (python_version E = HOMEBREW_PYTHON -> wheel_importable E = true ->
      (~ starts_with_core (cl_version cl) ->
       main E cl w = (Raised (Exn no_match), w))
      /\ (forall v, Version_init (cl_version cl) = Ok v ->
          main E cl w
          = upgrade_to E
              {| args_version := v; args_part := cl_part cl;
                 args_path := cl_path cl;
                 args_homebrew_path := cl_homebrew_path cl;
                 args_homebrew_set_default := cl_homebrew_set_default cl |} w)).
Proof.
  unfold main, sanity_check.
  cbv beta iota zeta delta [bind print log raise ret].
  split.
  - intros [Hpy | Hwheel].
    + rewrite bool_decide_eq_false_2 by done. by eexists.
    + case_bool_decide; [| by eexists]. rewrite Hwheel. by eexists.
  - intros Hpy Hwheel. rewrite bool_decide_eq_true_2, Hwheel by done.
    destruct w as [fs0 tr]. unfold Arguments_parse. split.
    + intros Hn%Version_init_rejects. by rewrite Hn.
    + intros v Hv. by rewrite Hv.
Qed.

(** ** The artifacts of a directory *)

Lemma tar_gz_not_whl s :
  ends_with ".tar.gz" s = true -> ends_with ".whl" s = true -> False.
Proof.
  induction s as [|c s IH]; [done |].
  cbn [ends_with].
  intros [H1%String.eqb_eq | H1]%orb_true_iff [H2%String.eqb_eq | H2]%orb_true_iff.
  - congruence.
  - injection H1 as -> ->. by vm_compute in H2.
  - injection H2 as -> ->. by vm_compute in H1.
  - by apply IH.
Qed.

Lemma glob_suffix_spec (m : gmap (list string) node) d suffix q :
  q ∈ glob_suffix m d suffix
  <-> q <> [] /\ parent q = d /\ is_Some (m !! q)
      /\ ends_with suffix (basename q) = true.
Proof.
  unfold glob_suffix. rewrite list_elem_of_In, filter_In, <- list_elem_of_In.
  rewrite andb_true_iff, bool_decide_eq_true.
  assert (q ∈ (map_to_list m).*1 <-> is_Some (m !! q)) as ->.
  { rewrite list_elem_of_fmap. split.
    - intros ([q' x] & -> & Hx%elem_of_map_to_list). by eexists.
    - intros [x Hx]. exists (q, x). split; [done |].
      by apply elem_of_map_to_list. }
  tauto.
Qed.

Lemma glob_suffix_NoDup (m : gmap (list string) node) d suffix :
  NoDup (glob_suffix m d suffix).
Proof.
  apply NoDup_ListNoDup, List.NoDup_filter, NoDup_ListNoDup.
  apply NoDup_fst_map_to_list.
Qed.

(** X7.  [_all_packages_in] changes nothing and yields, each once, the
    entries of the directory whose name ends with [.tar.gz] or [.whl]:
    first the former, then the latter. *)
Theorem all_packages_in_lists_the_artifacts (path : list string) (w : World) :
  exists sdists wheels,
    _all_packages_in path w = (Return (sdists ++ wheels), w)
    /\ NoDup (sdists ++ wheels)
    /\ (forall q, q ∈ sdists <->
          q <> [] /\ parent q = path /\ is_Some (fs w !! q)
          /\ ends_with ".tar.gz" (basename q) = true)
    /\ (forall q, q ∈ wheels <->
          q <> [] /\ parent q = path /\ is_Some (fs w !! q)
          /\ ends_with ".whl" (basename q) = true).
Proof.
  exists (glob_suffix (fs w) path ".tar.gz"), (glob_suffix (fs w) path ".whl").
  split; [done |]. split; [| split; intros q; apply glob_suffix_spec].
  apply NoDup_app. split; [apply glob_suffix_NoDup |].
  split; [| apply glob_suffix_NoDup].
  intros q (_ & _ & _ & H1)%glob_suffix_spec (_ & _ & _ & H2)%glob_suffix_spec.
  by apply (tar_gz_not_whl (basename q)).
Qed.

(** ** What [clean_dist] does to the file system *)

Lemma elem_of_prefixes (p q : list string) :
  q ∈ prefixes p <-> q <> [] /\ q `prefix_of` p.
Proof.
  unfold prefixes. rewrite list_elem_of_In, in_map_iff. split.
  - intros (n & <- & Hn%in_seq). split.
    + destruct p as [|x p], n as [|n]; cbn in Hn |- *; try lia; done.
    + exists (drop n p). by rewrite take_drop.
  - intros [Hne [k ->]]. exists (List.length q). split.
    + by rewrite take_app_length.
    + apply in_seq. rewrite length_app. destruct q; [done |]. cbn. lia.
Qed.

Lemma prefix_of_each_other (p q : list string) :
  p `prefix_of` q -> q `prefix_of` p -> q = p.
Proof.
  intros [k ->] [k' H]. rewrite <- app_assoc in H.
  apply (f_equal List.length) in H. rewrite !length_app in H.
  destruct k; [by rewrite app_nil_r | cbn in H; lia].
Qed.

Lemma makedirs_lookup (m : gmap (list string) node) (ps : list (list string))
    (q : list string) :
  foldr (fun q m => <[q:=Dir]> m) m ps !! q
  = if decide (q ∈ ps) then Some Dir else m !! q.
Proof.
  induction ps as [|p ps IH]; cbn [foldr].
  - by rewrite decide_False by apply not_elem_of_nil.
  - destruct (decide (p = q)) as [-> | Hne].
    + rewrite lookup_insert_eq. by rewrite decide_True by left.
    + rewrite lookup_insert_ne by done. rewrite IH.
      destruct (decide (q ∈ ps)) as [Hin | Hin].
      * by rewrite decide_True by (by right).
      * rewrite decide_False; [done |].
        intros [-> | H]%elem_of_cons; done.
Qed.

(** X8.  [clean_dist] touches nothing outside the [dist] directory of the
    path it is given, its ancestors apart, which it makes when asked to
    make the directory.  When it returns, the value is the path of [dist],
    which is then a directory when it was asked to make it and absent
    otherwise, and whatever a former [dist] held is gone.  When
    [dist] is a file it raises the error of [rmtree] and changes
    nothing. *)
Theorem clean_dist_touches_only_dist
    (path : list string) (make : bool) (w : World) :
  let dist := path ++ ["dist"] in
  let r := (clean_dist path make w).1 in
  let w' := (clean_dist path make w).2 in
  (forall q, ~ dist `prefix_of` q -> (make = true -> ~ q `prefix_of` dist) ->
     fs w' !! q = fs w !! q)
  /\ (forall p, r = Return p ->
        p = dist
        /\ fs w' !! dist = (if make then Some Dir else None)
        /\ (is_Some (fs w !! dist) ->
            forall q, dist `prefix_of` q -> q <> dist -> fs w' !! q = None))
  /\ (forall text, fs w !! dist = Some (File text) ->
        r = Raised (Exn (OSError "Not a directory")) /\ fs w' = fs w).
Proof.
  cbv zeta. unfold clean_dist.
  cbv beta iota zeta delta [bind path_exists get_fs ret shutil_rmtree
                            os_makedirs log raise set_fs].
  cbn [fs trace]. rewrite exists_snoc.
  set (dist := path ++ ["dist"]).
  assert (dist <> []) as Hdist by (unfold dist; by destruct path).
  assert (forall m : gmap (list string) node,
            m !! dist = None ->
            exists_ m dist && negb false = false) as Hfresh.
  { intros m Hm. unfold dist. rewrite exists_snoc. fold dist. rewrite Hm.
    by rewrite bool_decide_eq_false_2 by (by intros [? ?]). }
  destruct (fs w !! dist) as [[text |] |] eqn:Hd.
  - rewrite bool_decide_eq_true_2 by (by eexists). cbn [fs trace].
    rewrite Hd. cbn [fst snd fs].
    split; [done |]. split; [done |]. intros text' [= <-]. done.
  - rewrite bool_decide_eq_true_2 by (by eexists). cbn [fs trace].
    rewrite Hd. cbn [fst snd fs].
    assert (remove_tree dist (fs w) !! dist = None) as Hgone.
    { rewrite remove_tree_lookup. by rewrite decide_True. }
    destruct make; cbn [fst snd fs].
    + destruct (file_on_the_way _ dist); cbn [fst snd fs].
      * split; [| split; [done | done]].
        intros q Hq _. rewrite remove_tree_lookup. by rewrite decide_False.
      * rewrite Hgone, (Hfresh _ Hgone). cbn [fst snd fs].
        split; [| split; [| done]].
        -- intros q Hq Hq'. rewrite makedirs_lookup, decide_False.
           ++ rewrite remove_tree_lookup. by rewrite decide_False.
           ++ intros [_ H]%elem_of_prefixes. by apply Hq'.
        -- intros p [= <-]. split; [done |]. split.
           ++ rewrite makedirs_lookup, decide_True; [done |].
              by apply elem_of_prefixes.
           ++ intros _ q Hq Hne. rewrite makedirs_lookup, decide_False.
              ** rewrite remove_tree_lookup. by rewrite decide_True.
              ** intros [_ H]%elem_of_prefixes. apply Hne.
                 by apply prefix_of_each_other.
    + split; [| split; [| done]].
      * intros q Hq _. rewrite remove_tree_lookup. by rewrite decide_False.
      * intros p [= <-]. split; [done |]. split; [done |].
        intros _ q Hq Hne. rewrite remove_tree_lookup. by rewrite decide_True.
  - rewrite bool_decide_eq_false_2 by (by intros [? ?]). cbn [fst snd fs].
    destruct make; cbn [fst snd fs].
    + destruct (file_on_the_way _ dist); cbn [fst snd fs].
      * done.
      * rewrite Hd, (Hfresh _ Hd). cbn [fst snd fs].
        split; [| split; [| done]].
        -- intros q Hq Hq'. rewrite makedirs_lookup, decide_False; [done |].
           intros [_ H]%elem_of_prefixes. by apply Hq'.
        -- intros p [= <-]. split; [done |]. split.
           ++ rewrite makedirs_lookup, decide_True; [done |].
              by apply elem_of_prefixes.
           ++ by intros [? ?].
    + split; [done |]. split; [| done].
      intros p [= <-]. split; [done |]. split; [done |]. by intros [? ?].
Qed.

(** ** The names of the formula of a version *)

Lemma str_of_int_cons n :
  exists c r, str_of_int n = String c r /\ is_digit c = true.
Proof.
  pose proof (int_of_str_of_int n) as Hn.
  pose proof (str_of_int_digits n) as Hd.
  destruct (str_of_int n) as [|c r]; [done |].
  rewrite string_forall_cons in Hd. apply andb_true_iff in Hd as [Hc _].
  by exists c, r.
Qed.

Lemma str_of_int_inj a b : str_of_int a = str_of_int b -> a = b.
Proof.
  intros H. apply (f_equal int_of) in H. by rewrite !int_of_str_of_int' in H.
Qed.

(** The number [n] written in front of text that does not go on with a
    digit is read back as the longest run of digits. *)
Lemma span_str_of_int n c r :
  is_digit c = false ->
  span is_digit (str_of_int n +:+ String c r) = (str_of_int n, String c r).
Proof. intros Hc. apply span_app_stop; [apply str_of_int_digits | done]. Qed.

Lemma Version_init_well_formed s v :
  Version_init s = Ok v -> well_formed_prerelease v.
Proof.
  rewrite Version_init_scan. unfold Version_scan.
  destruct (span is_digit s) as [ma r1].
  destruct ma as [|a ma]; [done |].
  destruct r1 as [|c1 r1]; [done |].
  destruct (decide (c1 = "."%char)) as [-> | Hc1];
    [| by destruct c1 as [[] [] [] [] [] [] [] []]].
  destruct (span is_digit r1) as [mi r3].
  destruct mi as [|b mi]; [done |].
  destruct r3 as [|c3 r3]; [done |].
  destruct (decide (c3 = "."%char)) as [-> | Hc3];
    [| by destruct c3 as [[] [] [] [] [] [] [] []]].
  destruct (span is_digit r3) as [pa r5].
  pose proof (span_all is_lower r5) as Htag.
  destruct (span is_lower r5) as [tag r6]. cbn [fst] in Htag.
  destruct (span is_digit r6) as [nu r7].
  destruct pa as [|c pa]; [by destruct tag, nu |].
  destruct tag as [|t tag]; [by intros [= <-] |].
  destruct nu as [|n nu]; by intros [= <-].
Qed.

Lemma homebrew_filename_text v :
  homebrew_filename v
  = "dbt@" +:+ (str_of_int (major v)
      +:+ String "." (str_of_int (minor v)
      +:+ String "." (str_of_int (patch v) +:+ filename_tail v))).
Proof.
  unfold homebrew_filename, filename_tail.
  destruct (prerelease v), (num v); rewrite !append_assoc;
    by rewrite !append_cons, !append_nil_l.
Qed.

Lemma filename_tail_cons v :
  exists c r, filename_tail v = String c r /\ is_digit c = false.
Proof.
  unfold filename_tail. destruct (prerelease v), (num v); by eexists _, _.
Qed.

Lemma homebrew_filename_fields v1 v2 :
  well_formed_prerelease v1 -> well_formed_prerelease v2 ->
  homebrew_filename v1 = homebrew_filename v2 ->
  major v1 = major v2 /\ minor v1 = minor v2 /\ patch v1 = patch v2
  /\ prerelease v1 = prerelease v2 /\ num v1 = num v2.
Proof.
  intros Hw1 Hw2. rewrite !homebrew_filename_text.
  rewrite !append_cons, !append_nil_l. intros [= H].
  apply (f_equal (span is_digit)) in H.
  rewrite !span_str_of_int in H by done. injection H as Hmajor H.
  apply (f_equal (span is_digit)) in H.
  rewrite !span_str_of_int in H by done. injection H as Hminor H.
  apply (f_equal (span is_digit)) in H.
  destruct (filename_tail_cons v1) as (c1 & t1 & Ht1 & Hc1).
  destruct (filename_tail_cons v2) as (c2 & t2 & Ht2 & Hc2).
  rewrite Ht1, Ht2, !span_str_of_int in H by done.
  injection H as Hpatch -> ->. rewrite <- Ht2 in Ht1. clear Ht2 Hc1 Hc2.
  apply str_of_int_inj in Hmajor, Hminor, Hpatch.
  split; [done |]. split; [done |]. split; [done |].
  unfold filename_tail, well_formed_prerelease in *.
  destruct (prerelease v1) as [pre1 |], (num v1) as [n1 |];
    destruct (prerelease v2) as [pre2 |], (num v2) as [n2 |]; try done.
  injection Ht1 as H.
  destruct (str_of_int_cons n1) as (d1 & r1 & Hn1 & Hd1).
  destruct (str_of_int_cons n2) as (d2 & r2 & Hn2 & Hd2).
  pose proof H as H'. rewrite Hn1, Hn2, !append_cons in H'.
  apply (f_equal (span is_lower)) in H'.
  rewrite !span_app_stop in H' by (done || by apply digit_not_lower).
  injection H' as -> -> Hr. clear H.
  assert (str_of_int n1 +:+ String "." "rb" = str_of_int n2 +:+ String "." "rb")
    as H by (by rewrite Hn1, Hn2, !append_cons, Hr).
  apply (f_equal (span is_digit)) in H.
  rewrite !span_str_of_int in H by done. injection H as ->%str_of_int_inj.
  done.
Qed.

(** X9.  The file name of the formula tells the versions apart: two parsed
    versions with the same [homebrew_filename] have the same numbers and
    the same prerelease tag and number. *)
Theorem homebrew_filename_injective (s1 s2 : string) (v1 v2 : Version) :
  Version_init s1 = Ok v1 -> Version_init s2 = Ok v2 ->
  homebrew_filename v1 = homebrew_filename v2 ->
  major v1 = major v2 /\ minor v1 = minor v2 /\ patch v1 = patch v2
  /\ prerelease v1 = prerelease v2 /\ num v1 = num v2.
Proof.
  intros H1%Version_init_well_formed H2%Version_init_well_formed.
  by apply homebrew_filename_fields.
Qed.

Lemma homebrew_filename_injective_witness :
  Version_init "0.15.2" = Ok sample_version
  /\ patch sample_version = 2%N
  /\ exists v, Version_init "0.15.02" = Ok v /\ patch v = patch sample_version.
Proof.
  assert (Version_init "0.15.2" = Ok sample_version) as H1
    by (vm_compute; reflexivity).
  assert (Version_init "0.15.02"
          = Ok {| raw := "0.15.02"; major := 0; minor := 15; patch := 2;
                  prerelease := None; num := None |}) as H2
    by (vm_compute; reflexivity).
  destruct (homebrew_filename_injective _ _ _ _ H1 H2) as (_ & _ & Hpatch & _).
  - vm_compute. reflexivity.
  - split; [exact H1 |]. split; [reflexivity |]. eexists. split; [exact H2 |].
    symmetry. exact Hpatch.
Defined.

Lemma append_inv_nil (x y : string) : x = x +:+ y -> y = "".
Proof.
  induction x as [|c x IH]; [by rewrite append_nil_l |].
  rewrite append_cons. intros [= H]. by apply IH.
Qed.

Lemma canonical_app (x y : string) :
  canonical x -> x <> "0" -> digits y -> canonical (x +:+ y).
Proof.
  intros [[Hne Hx] [-> | (c & r & -> & Hc)]] H0 [_ Hy]; [done |].
  split; [split |].
  - by rewrite append_cons.
  - by rewrite string_forall_app, Hx, Hy.
  - right. exists c, (r +:+ y). by rewrite append_cons.
Qed.

(** X10.  The class name of the formula does not tell the versions apart:
    it writes the three numbers without a separator, so [x.yz.p] and
    [xy.z.p] get the same class name (for numerals [x], [y] other than 0
    and without leading zeros), though they get different file names. *)
Theorem homebrew_class_name_not_unique (x y z p : string) :
  canonical x -> x <> "0" -> canonical y -> y <> "0" -> canonical z ->
  digits p ->
  exists v1 v2,
    Version_init (core_text x (y +:+ z) p) = Ok v1
    /\ Version_init (core_text (x +:+ y) z p) = Ok v2
    /\ homebrew_class_name v1 = homebrew_class_name v2
    /\ homebrew_filename v1 <> homebrew_filename v2.
Proof.
  intros Hx Hx0 Hy Hy0 Hz Hp.
  pose proof (canonical_app y z Hy Hy0 (proj1 Hz)) as Hyz.
  pose proof (canonical_app x y Hx Hx0 (proj1 Hy)) as Hxy.
  pose proof (Version_init_text x (y +:+ z) p None ""
                (proj1 Hx) (proj1 Hyz) Hp I eq_refl) as H1.
  pose proof (Version_init_text (x +:+ y) z p None ""
                (proj1 Hxy) (proj1 Hz) Hp I eq_refl) as H2.
  unfold version_text in H1, H2. cbn [pair_text] in H1, H2.
  rewrite !append_nil_r in H1, H2.
  eexists _, _. split; [exact H1 |]. split; [exact H2 |]. split.
  - unfold homebrew_class_name, version_of_text.
    cbn [prerelease num major minor patch fmap option_fmap option_map].
    fold (canon x) (canon (y +:+ z)) (canon (x +:+ y)) (canon z) (canon p).
    rewrite (canon_canonical x), (canon_canonical (y +:+ z)),
      (canon_canonical (x +:+ y)), (canon_canonical z) by done.
    by rewrite !append_assoc.
  - intros Heq. apply homebrew_filename_fields in Heq as [Hmajor _]; [| exact I | exact I].
    cbn [major version_of_text] in Hmajor.
    apply (f_equal str_of_int) in Hmajor.
    fold (canon x) (canon (x +:+ y)) in Hmajor.
    rewrite (canon_canonical x), (canon_canonical (x +:+ y)) in Hmajor by done.
    apply append_inv_nil in Hmajor. by destruct Hy as [[Hne _] _].
Qed.

Lemma homebrew_class_name_not_unique_witness :
  exists v1 v2,
    Version_init "1.12.3" = Ok v1 /\ Version_init "11.2.3" = Ok v2
    /\ homebrew_class_name v1 = homebrew_class_name v2
    /\ homebrew_filename v1 <> homebrew_filename v2.
Proof.
  apply (homebrew_class_name_not_unique "1" "1" "2" "3").
  - split; [by split |]. right. by exists "1"%char, "".
  - done.
  - split; [by split |]. right. by exists "1"%char, "".
  - done.
  - split; [by split |]. right. by exists "2"%char, "".
  - by split.
Defined.

(** ** The update of the default formula *)

Lemma not_in_two {A} (x a b : A) : x ∈ [a; b] -> x <> a -> x <> b -> False.
Proof. intros [-> | [-> | H]%elem_of_cons]%elem_of_cons; [done | done |]. by apply elem_of_nil in H. Qed.

(** X11.  [set_default_homebrew_package] never returns: every run of it
    raises.  The one program it calls is [git add] on the default formula,
    so it never commits; and when that call exits with 0, it has removed
    the default formula, written the new one and staged it, and raises the
    [TypeError] of its last call. *)
Theorem set_default_homebrew_package_never_returns
    (E : Env) (t : DbtHomebrewTemplate) (v : Version)
    (homebrew_path : list string) (w : World) :
  let d := homebrew_path ++ ["Formula"; "dbt.rb"] in
  let r := (set_default_homebrew_package E t v homebrew_path w).1 in
  let evs :=
    new_events w (set_default_homebrew_package E t v homebrew_path w).2 in
  (exists e, r = Raised e)
  /\ Forall (fun e => match e with
                      | EvExec cmd _ _ _ => cmd = [Str "git"; Str "add"; PathArg d]
                      | _ => True
                      end) evs
  /\ (forall found o,
        EvExec [Str "git"; Str "add"; PathArg d] (Some homebrew_path) found
          (Exited 0 o) ∈ evs ->
        r = Raised (Exn (TypeError "bufsize must be an integer"))
        /\ evs = [EvRemove d; EvWriteText d (contents t false);
                  EvExec [Str "git"; Str "add"; PathArg d] (Some homebrew_path)
                    found (Exited 0 o)]).
Proof.
  cbv zeta. set (d := homebrew_path ++ ["Formula"; "dbt.rb"]).
  split; [| split].
  - unfold set_default_homebrew_package. fold d. rewrite bind_run.
    destruct (os_remove d w) as [[[] | e] w1]; [| by eexists].
    rewrite bind_run.
    destruct (write_text d _ w1) as [[[] | e] w2]; [| by eexists].
    rewrite bind_run.
    destruct (check_output E _ _ w2) as [[o | e] w3]; by eexists.
  - assert (only (fun e => match e with
                           | EvExec cmd _ _ _ => cmd = [Str "git"; Str "add"; PathArg d]
                           | _ => True
                           end)
                 (set_default_homebrew_package E t v homebrew_path)) as H
      by (only_steps; done).
    destruct (H w) as (evs & Ht & Hall). by rewrite (new_events_app _ _ _ Ht).
  - unfold set_default_homebrew_package. fold d.
    cbv beta iota zeta delta [bind os_remove write_text log get_fs raise set_fs].
    cbn [fs trace].
    destruct (fs w !! d) as [[text |] |]; cbn [fst snd fs trace]; cycle 1.
    { intros found o Hin. rewrite (new_events_app _ _ [EvRemove d]) in Hin by done.
      apply list_elem_of_singleton in Hin. discriminate Hin. }
    { intros found o Hin. rewrite (new_events_app _ _ [EvRemove d]) in Hin by done.
      apply list_elem_of_singleton in Hin. discriminate Hin. }
    destruct (file_on_the_way (delete d (fs w)) d); cbn [fst snd fs trace].
    { intros found o Hin.
      rewrite (new_events_app _ _ [EvRemove d; EvWriteText d (contents t false)])
        in Hin by (cbn [trace]; by rewrite <- app_assoc).
      by destruct (not_in_two _ _ _ Hin). }
    destruct (is_dir (delete d (fs w)) d); cbn [fst snd fs trace].
    { intros found o Hin.
      rewrite (new_events_app _ _ [EvRemove d; EvWriteText d (contents t false)])
        in Hin by (cbn [trace]; by rewrite <- app_assoc).
      by destruct (not_in_two _ _ _ Hin). }
    destruct (is_dir (delete d (fs w)) (parent d)); cbn [fst snd fs trace];
      cycle 1.
    { intros found o Hin.
      rewrite (new_events_app _ _ [EvRemove d; EvWriteText d (contents t false)])
        in Hin by (cbn [trace]; by rewrite <- app_assoc).
      by destruct (not_in_two _ _ _ Hin). }
    unfold check_output. cbn [fs trace].
    match goal with
    | |- context [run_program E ?c ?cwd ?w0] =>
        destruct (run_program E c cwd w0) as [[rc o' | e] fs']
    end.
    + destruct (Z.eqb_spec rc 0) as [-> | Hrc]; cbn [fst snd fs trace];
        intros found o Hin;
        erewrite new_events_app in Hin |- *
          by (cbn [trace]; rewrite <- !app_assoc; reflexivity);
        cbn [app] in Hin |- *;
        apply elem_of_cons in Hin as [Hin | Hin]; [discriminate Hin | | discriminate Hin |];
        apply elem_of_cons in Hin as [Hin | Hin]; [discriminate Hin | | discriminate Hin |];
        apply list_elem_of_singleton in Hin.
      * by injection Hin as <- <-.
      * injection Hin as _ Hz. by destruct Hrc.
    + cbn [fst snd fs trace]. intros found o Hin.
      erewrite new_events_app in Hin
        by (cbn [trace]; rewrite <- !app_assoc; reflexivity).
      cbn [app] in Hin.
      apply elem_of_cons in Hin as [Hin | Hin]; [discriminate Hin |].
      apply elem_of_cons in Hin as [Hin | Hin]; [discriminate Hin |].
      apply list_elem_of_singleton in Hin. discriminate Hin.
Qed.

(** ** What the formula is made of *)

Lemma homebrew_formula_template_not_write E dbt_path v :
  only not_write (homebrew_formula_template E dbt_path v).
Proof. only_steps; done. Qed.

Lemma homebrew_formula_template_Return_events E dbt_path v w t w' :
  homebrew_formula_template E dbt_path v w = (Return t, w') ->
  exists evs found1 output found2,
    trace w' = trace w ++ evs
    /\ Forall not_write evs
    /\ EvExec [PathArg (poet_path dbt_path); Str "-s"; Str "dbt"] None found1
         (Exited 0 output) ∈ evs
    /\ EvExec [PathArg (poet_path dbt_path); Str "-r"; Str "dbt"] None found2
         (Exited 0 (dependencies t)) ∈ evs
    /\ unpack2 (_extract_parts output) = Ok (url_data t, hash_data t)
    /\ version t = v.
Proof.
  unfold homebrew_formula_template. rewrite bind_run.
  assert (only not_write (make_venv E dbt_path v)) as Hmv0
    by (only_steps; done).
  destruct (Hmv0 w) as (evs_a & Ha & Hnwa).
  destruct (make_venv E dbt_path v w) as [[env_path | e] w1] eqn:Hmv; [| done].
  cbn [snd] in Ha. apply make_venv_Return in Hmv as ->.
  fold (poet_path dbt_path).
  rewrite bind_run. unfold print at 1, log at 1. rewrite bind_run.
  destruct (check_output E _ None _) as [[output | e] w2] eqn:H1; [| done].
  rewrite bind_run.
  destruct (unpack2 (_extract_parts output)) as [[a b] | e] eqn:Hparts;
    cbn [of_result]; [| done].
  unfold ret at 1. rewrite bind_run.
  destruct (check_output E _ None w2) as [[deps | e] w3] eqn:H2; [| done].
  unfold ret. intros [= <- <-].
  apply check_output_Return in H1, H2. cbn [fs trace] in H1, H2.
  exists (evs_a
          ++ [EvPrint "done setting up virtualenv";
              EvExec [PathArg (poet_path dbt_path); Str "-s"; Str "dbt"] None
                (fs w1) (Exited 0 output);
              EvExec [PathArg (poet_path dbt_path); Str "-r"; Str "dbt"] None
                (fs w2) (Exited 0 deps)]),
         (fs w1), output, (fs w2).
  split; [rewrite H2, H1, Ha; by rewrite <- !app_assoc |].
  split; [apply Forall_app; split; [done | by repeat constructor] |].
  split; [apply elem_of_app; right; right; left |].
  split; [apply elem_of_app; right; right; right; left |].
  done.
Qed.

Lemma create_homebrew_formula_events t v homebrew_path w :
  exists evs,
    trace (create_homebrew_formula t v homebrew_path w).2 = trace w ++ evs
    /\ (evs = []
        \/ evs = [EvWriteText (formula_path homebrew_path v) (contents t true)]).
Proof.
  cbv beta iota zeta delta [create_homebrew_formula bind path_exists get_fs ret
    write_text log raise set_fs].
  cbn [fs trace]. fold (formula_path homebrew_path v).
  destruct (exists_ (fs w) (formula_path homebrew_path v)); cbn [fst snd trace].
  - exists []. by rewrite app_nil_r; split; [| left].
  - destruct (file_on_the_way (fs w) (formula_path homebrew_path v));
      [| destruct (is_dir (fs w) (formula_path homebrew_path v));
         [| destruct (is_dir (fs w) (parent (formula_path homebrew_path v)))]];
      cbn [fst snd trace]; (eexists; split; [done | by right]).
Qed.

(** X12.  Whatever file a run of [build_homebrew_package] writes is the
    formula of the version, at [Formula/<homebrew_filename>] of the
    formula repository, and its text is the rendering of a template of
    that version whose url and hash lines are the two values extracted
    from the output of [poet -s dbt], and whose dependencies are the output
    of [poet -r dbt], both called in that run and exited with 0. *)
Theorem build_homebrew_package_writes_what_poet_gave
    (E : Env) (dbt_path : list string) (v : Version)
    (homebrew_path : list string) (set_default : bool) (w : World)
    (p : list string) (text : string) :
  let evs :=
    new_events w
      (build_homebrew_package E dbt_path v homebrew_path set_default w).2 in
  EvWriteText p text ∈ evs ->
  p = formula_path homebrew_path v
  /\ exists t found1 output found2,
       text = contents t true
       /\ version t = v
       /\ unpack2 (_extract_parts output) = Ok (url_data t, hash_data t)
       /\ EvExec [PathArg (poet_path dbt_path); Str "-s"; Str "dbt"] None found1
            (Exited 0 output) ∈ evs
       /\ EvExec [PathArg (poet_path dbt_path); Str "-r"; Str "dbt"] None found2
            (Exited 0 (dependencies t)) ∈ evs.
Proof.
  cbv zeta. unfold build_homebrew_package. rewrite bind_run.
  destruct (homebrew_formula_template_not_write E dbt_path v w)
    as (evs0 & Ht0 & Hnw0).
  destruct (homebrew_formula_template E dbt_path v w) as [[t | e] w1] eqn:Htpl;
    cbn [snd] in Ht0 |- *; cycle 1.
  { rewrite (new_events_app _ _ _ Ht0). intros Hin.
    rewrite Forall_forall in Hnw0. by apply Hnw0 in Hin. }
  clear evs0 Ht0 Hnw0.
  apply homebrew_formula_template_Return_events in Htpl
    as (evs1 & found1 & output & found2 & Ht1 & Hnw1 & Hs & Hr & Hparts & Hv).
  rewrite bind_run.
  destruct (create_homebrew_formula_events t v homebrew_path w1)
    as (evs2 & Ht2 & Hcase).
  assert (forall fp,
            only not_write
              (homebrew_run_tests E fp ;;
               homebrew_commit_formula E fp v homebrew_path ;;
               (if set_default
                then
                  assert_ false "should not be set!!!" ;;
                  set_default_homebrew_package E t v homebrew_path
                else ret tt) ;;
               ret fp)) as Hrest
    by (intros fp; destruct set_default; only_steps; done).
  assert (exists evs3,
            trace (match create_homebrew_formula t v homebrew_path w1 with
                   | (Return fp, w2) =>
                       (homebrew_run_tests E fp ;;
                        homebrew_commit_formula E fp v homebrew_path ;;
                        (if set_default
                         then
                           assert_ false "should not be set!!!" ;;
                           set_default_homebrew_package E t v homebrew_path
                         else ret tt) ;;
                        ret fp) w2
                   | (Raised e, w2) => (Raised e, w2)
                   end).2
            = trace w ++ evs1 ++ evs2 ++ evs3
            /\ Forall not_write evs3) as (evs3 & Ht3 & Hnw3).
  { destruct (create_homebrew_formula t v homebrew_path w1) as [[fp | e] w2];
      cbn [snd] in Ht2 |- *.
    - destruct (Hrest fp w2) as (evs3 & Ht3 & Hnw3). exists evs3.
      split; [| done]. rewrite Ht3, Ht2, Ht1. by rewrite <- !app_assoc.
    - exists []. split; [| constructor].
      rewrite Ht2, Ht1. by rewrite app_nil_r, <- !app_assoc. }
  rewrite (new_events_app _ _ _ Ht3).
  intros [Hin | [Hin | Hin]%elem_of_app]%elem_of_app.
  - rewrite Forall_forall in Hnw1. by apply Hnw1 in Hin.
  - destruct Hcase as [-> | ->]; [by apply elem_of_nil in Hin |].
    apply list_elem_of_singleton in Hin. injection Hin as -> ->.
    split; [done |]. exists t, found1, output, found2.
    split; [done |]. split; [done |]. split; [done |].
    split; apply elem_of_app; by left.
  - rewrite Forall_forall in Hnw3. by apply Hnw3 in Hin.
Qed.

Lemma build_homebrew_package_writes_what_poet_gave_witness :
  exists t found1 output found2,
    contents sample_template true = contents t true
    /\ version t = sample_version
    /\ unpack2 (_extract_parts output) = Ok (url_data t, hash_data t)
    /\ EvExec [PathArg (poet_path ["dbt"]); Str "-s"; Str "dbt"] None found1
         (Exited 0 output)
       ∈ new_events sample_world
           (build_homebrew_package (sample_env None) ["dbt"] sample_version
              ["homebrew-dbt"] false sample_world).2
    /\ EvExec [PathArg (poet_path ["dbt"]); Str "-r"; Str "dbt"] None found2
         (Exited 0 (dependencies t))
       ∈ new_events sample_world
           (build_homebrew_package (sample_env None) ["dbt"] sample_version
              ["homebrew-dbt"] false sample_world).2.
Proof.
  refine (proj2 (build_homebrew_package_writes_what_poet_gave (sample_env None)
                   ["dbt"] sample_version ["homebrew-dbt"] false sample_world
                   (formula_path ["homebrew-dbt"] sample_version)
                   (contents sample_template true) _)).
  apply list_elem_of_lookup. exists 11%nat. vm_compute. reflexivity.
Defined.

(** ** The values [_extract_parts] yields *)

Lemma rstrip_String c s :
  rstrip (String c s)
  = match rstrip s with
    | EmptyString => if is_space c then "" else String c ""
    | r => String c r
    end.
Proof. reflexivity. Qed.

Lemma rstrip_idem s : rstrip (rstrip s) = rstrip s.
Proof.
  induction s as [|c s IH]; [done |].
  rewrite rstrip_String. destruct (rstrip s) as [|d r] eqn:Hr.
  - destruct (is_space c) eqn:Hc; [done |]. rewrite rstrip_String. cbn [rstrip].
    by rewrite Hc.
  - rewrite rstrip_String, IH. done.
Qed.

Lemma rstrip_cons c s :
  is_space c = false -> exists r, rstrip (String c s) = String c r.
Proof.
  intros Hc. rewrite rstrip_String. destruct (rstrip s); [| by eexists].
  rewrite Hc. by eexists.
Qed.

Lemma strip_idem s : strip (strip s) = strip s.
Proof.
  unfold strip, lstrip.
  pose proof (span_stops is_space s) as Hstop.
  destruct (span is_space s).2 as [|c t]; [done |].
  specialize (Hstop c t eq_refl).
  destruct (rstrip_cons c t Hstop) as (r & Hr). rewrite Hr.
  rewrite span_cons_false by done. cbn [snd]. by rewrite <- Hr, rstrip_idem.
Qed.

Lemma extract_loop_elem collecting lines x :
  x ∈ extract_loop collecting lines ->
  exists line, line ∈ lines /\ x = strip line /\ x <> "end".
Proof.
  revert collecting. induction lines as [|l lines IH]; intros collecting;
    cbn [extract_loop]; [by intros H%elem_of_nil |].
  destruct collecting; cbn [negb].
  - destruct (String.eqb_spec (strip l) "end") as [He | He];
      [by intros H%elem_of_nil |].
    intros [-> | H]%elem_of_cons.
    + exists l. split; [by left | done].
    + destruct (IH _ H) as (line & Hin & Hx). exists line. split; [by right | done].
  - intros H.
    assert (exists b, x ∈ extract_loop b lines) as [b Hb]
      by (destruct (String.eqb _ _); by eexists).
    destruct (IH _ Hb) as (line & Hin & Hx). exists line. split; [by right | done].
Qed.

(** X13.  Every value [_extract_parts] yields is a line of the output with
    the white space around it removed: it has none left around it, and it
    is not the line [end]. *)
Theorem extract_parts_yields_stripped_lines (output x : string) :
  x ∈ _extract_parts output ->
  (exists line, line ∈ split_lines output /\ x = strip line)
  /\ strip x = x
  /\ x <> "end".
Proof.
  intros (line & Hin & -> & Hne)%extract_loop_elem.
  split; [by exists line |]. split; [apply strip_idem | done].
Qed.

Lemma extract_parts_yields_stripped_lines_witness :
  (exists line, line ∈ split_lines sample_poet_output /\ sample_url = strip line)
  /\ strip sample_url = sample_url
  /\ sample_url <> "end".
Proof.
  apply (extract_parts_yields_stripped_lines sample_poet_output sample_url).
  apply list_elem_of_lookup. exists 0%nat. vm_compute. reflexivity.
Defined.

(** ** What is copied into the release directory *)

Lemma returns_for_fold {A S} (I : S -> Prop) (xs : list A) (s : S) body :
  (forall s x, x ∈ xs -> I s -> returns I (body s x)) -> I s ->
  returns I (for_fold xs s body).
Proof.
  revert s. induction xs as [|x xs IH]; intros s Hb Hs w a w'; cbn [for_fold].
  - by intros [= <- _].
  - rewrite bind_run. destruct (body s x w) as [[s' | e] w1] eqn:Hrun; [| done].
    apply IH.
    + intros s0 x0 Hx0. apply Hb. by right.
    + eapply Hb; [by left | done | done].
Qed.

Lemma only_for_fold_elem (P : event -> Prop) {A S} (xs : list A) (s : S) body :
  (forall s x, x ∈ xs -> only P (body s x)) -> only P (for_fold xs s body).
Proof.
  revert s. induction xs as [|x xs IH]; intros s Hb; cbn [for_fold].
  - apply only_ret.
  - apply only_bind; [apply Hb; by left |].
    intros s'. apply IH. intros s0 x0 Hx0. apply Hb. by right.
Qed.

Lemma build_loop_returns E dbt_path (sub_pkgs : list (list string)) path :
  path ∈ _SUBPACKAGES ->
  Forall (subpackage_artifact dbt_path) sub_pkgs ->
  returns (Forall (subpackage_artifact dbt_path))
    (sub_dist <- clean_dist (dbt_path ++ path) false ;;
     build_pypi_package E (dbt_path ++ path) ;;
     found <- _all_packages_in sub_dist ;;
     ret (sub_pkgs ++ found)).
Proof.
  intros Hpath Hsub w a w'. rewrite bind_run.
  destruct (clean_dist_run (dbt_path ++ path) w) as (_ & _ & _ & _ & _ & Hret).
  destruct (clean_dist (dbt_path ++ path) false w) as [[d | e] w1]; [| done].
  destruct (Hret d eq_refl) as [-> _]. clear Hret.
  rewrite bind_run.
  destruct (build_pypi_package E (dbt_path ++ path) w1) as [[[] | e] w2]; [| done].
  intros [= <- _]. apply Forall_app. split; [done |].
  apply Forall_app. split; apply Forall_forall;
    intros q (Hne & Hparent & _ & Hends)%glob_suffix_spec;
    (split; [done |]); (split; [by exists path |]); auto.
Qed.

(** X14.  Whatever [build_pypi_packages] copies, it copies into the release
    directory [dist] of the main package, it is an artifact ([.tar.gz] or
    [.whl]) from the [dist] directory of one of the subpackages, and it is
    copied only after all six builds went through. *)
Theorem build_pypi_packages_copies_subpackage_artifacts
    (E : Env) (dbt_path : list string) (w : World) (src dst : list string) :
  let evs := new_events w (build_pypi_packages E dbt_path w).2 in
  EvCopy src dst ∈ evs ->
  dst = dbt_path ++ ["dist"]
  /\ subpackage_artifact dbt_path src
  /\ completed (pypi_build_calls dbt_path) (calls evs).
Proof.
  cbv zeta. unfold build_pypi_packages. rewrite bind_run.
  (* the removal of the release directory *)
  assert (only (fun e => not_copy e /\ is_exec e = false)
               (clean_dist dbt_path false)) as H1 by (only_steps; done).
  destruct (H1 w) as (evs1 & Ht1 & Hq1). clear H1.
  destruct (clean_dist_run dbt_path w) as (_ & _ & _ & _ & _ & Hret).
  destruct (clean_dist dbt_path false w) as [[d | e] w1];
    cbn [fst snd] in Ht1, Hret |- *; cycle 1.
  { rewrite (new_events_app _ _ _ Ht1). intros Hin.
    rewrite Forall_forall in Hq1. by destruct (Hq1 _ Hin). }
  destruct (Hret d eq_refl) as [-> _]. clear Hret.
  (* the builds of the subpackages *)
  rewrite bind_run.
  set (body := fun (sub_pkgs : list (list string)) (path : list string) =>
         (sub_dist <- clean_dist (dbt_path ++ path) false ;;
          build_pypi_package E (dbt_path ++ path) ;;
          found <- _all_packages_in sub_dist ;;
          ret (sub_pkgs ++ found))).
  assert (calls_in_order
            (List.map (fun path => exactly build_cmd (Some (dbt_path ++ path)))
               _SUBPACKAGES)
            (for_fold _SUBPACKAGES [] body)) as H2.
  { apply (calls_in_order_for_fold
             (fun path => exactly build_cmd (Some (dbt_path ++ path)))).
    intros sub_pkgs path. unfold body.
    apply calls_in_order_bind_silent; [apply clean_dist_silent | intros d].
    apply (calls_in_order_bind_call _ []); [apply build_pypi_package_call |].
    intros _. apply calls_in_order_silent. only_steps; done. }
  assert (only not_copy (for_fold _SUBPACKAGES [] body)) as H2'
    by (unfold body; only_steps; done).
  assert (returns (Forall (subpackage_artifact dbt_path))
            (for_fold _SUBPACKAGES [] body)) as H2''.
  { apply returns_for_fold; [| constructor].
    intros s x Hx Hs. by apply build_loop_returns. }
  destruct (H2 w1) as (evs2 & Ht2 & _ & Hc2).
  destruct (H2' w1) as (evs2' & Ht2' & Hq2).
  rewrite Ht2 in Ht2'. apply app_inv_head in Ht2' as <-.
  specialize (H2'' w1). clear H2 H2'.
  destruct (for_fold _SUBPACKAGES [] body w1) as [[sub_pkgs | e] w2];
    cbn [fst snd] in Ht2, Hc2 |- *; cycle 1.
  { rewrite Ht1 in Ht2. rewrite <- app_assoc in Ht2.
    rewrite (new_events_app _ _ _ Ht2).
    intros [Hin | Hin]%elem_of_app.
    - rewrite Forall_forall in Hq1. by destruct (Hq1 _ Hin).
    - rewrite Forall_forall in Hq2. by apply Hq2 in Hin. }
  specialize (H2'' sub_pkgs w2 eq_refl). specialize (Hc2 sub_pkgs eq_refl).
  (* the build of the main package *)
  rewrite bind_run.
  destruct (build_pypi_package_call E dbt_path w2) as (evs3 & Ht3 & _ & Hc3).
  assert (Forall not_copy evs3) as Hq3.
  { assert (only not_copy (build_pypi_package E dbt_path)) as H
      by (only_steps; done).
    destruct (H w2) as (evs3' & Ht3' & Hq3).
    rewrite Ht3 in Ht3'. by apply app_inv_head in Ht3' as <-. }
  destruct (build_pypi_package E dbt_path w2) as [[[] | e] w3];
    cbn [fst snd] in Ht3, Hc3 |- *; cycle 1.
  { rewrite Ht2, Ht1 in Ht3. rewrite <- !app_assoc in Ht3.
    rewrite (new_events_app _ _ _ Ht3).
    intros [Hin | [Hin | Hin]%elem_of_app]%elem_of_app.
    - rewrite Forall_forall in Hq1. by destruct (Hq1 _ Hin).
    - rewrite Forall_forall in Hq2. by apply Hq2 in Hin.
    - rewrite Forall_forall in Hq3. by apply Hq3 in Hin. }
  specialize (Hc3 tt eq_refl).
  (* the copies *)
  assert (only (fun e => match e with
                         | EvCopy s t => s ∈ sub_pkgs /\ t = dbt_path ++ ["dist"]
                         | e => is_exec e = false
                         end)
            (for_fold sub_pkgs tt
               (fun _ package => shutil_copy package (dbt_path ++ ["dist"])) ;;
             print "built pypi packages" ;;
             ret (dbt_path ++ ["dist"]))) as H4.
  { apply only_bind; [| intros ?; only_steps; done].
    apply only_for_fold_elem. intros [] x Hx. only_steps; done. }
  destruct (H4 w3) as (evs4 & Ht4 & Hq4). clear H4.
  rewrite Ht3, Ht2, Ht1 in Ht4. rewrite <- !app_assoc in Ht4.
  rewrite (new_events_app _ _ _ Ht4).
  rewrite Forall_forall in Hq1, Hq2, Hq3, Hq4.
  intros [Hin | [Hin | [Hin | Hin]%elem_of_app]%elem_of_app]%elem_of_app.
  - by destruct (Hq1 _ Hin).
  - by apply Hq2 in Hin.
  - by apply Hq3 in Hin.
  - apply Hq4 in Hin as [Hsrc ->]. split; [done |]. split.
    + rewrite Forall_forall in H2''. by apply H2''.
    + rewrite !calls_app.
      rewrite (calls_none evs1), (calls_none evs4).
      * cbn [app]. rewrite app_nil_r.
        unfold pypi_build_calls, get_targets.
        rewrite List.map_app, List.map_map. by apply Forall2_app.
      * apply Forall_forall. intros e He. specialize (Hq4 e He).
        by destruct e.
      * apply Forall_forall. intros e He. by destruct (Hq1 e He).
Qed.

Lemma build_pypi_packages_copies_subpackage_artifacts_witness :
  subpackage_artifact ["dbt"] ["dbt"; "core"; "dist"; "dbt.whl"]
  /\ completed (pypi_build_calls ["dbt"])
       (calls (new_events sample_world
                 (build_pypi_packages sample_env_building ["dbt"]
                    sample_world).2)).
Proof.
  refine (proj2 (build_pypi_packages_copies_subpackage_artifacts
                   sample_env_building ["dbt"] sample_world
                   ["dbt"; "core"; "dist"; "dbt.whl"] ["dbt"; "dist"] _)).
  apply list_elem_of_lookup. exists 6%nat. vm_compute. reflexivity.
Defined.

(** ** The directory of the formulas *)

(** X15.  [create_homebrew_formula] does not make the [Formula] directory
    of the formula repository.  When the formula of the version is not
    there yet, the call writes it, changing nothing else, exactly when
    [Formula] is a directory; otherwise it raises the error of the write
    and leaves the file system as it is: "Not a directory" when [Formula],
    or another ancestor of the formula, is a regular file, and "No such
    file or directory" when no ancestor is a file and [Formula] is not
    there. *)
Theorem create_homebrew_formula_needs_formula_directory
    (t : DbtHomebrewTemplate) (v : Version) (homebrew_path : list string)
    (w : World) :
  let p := formula_path homebrew_path v in
  let run := create_homebrew_formula t v homebrew_path w in
  fs w !! p = None ->
  (file_on_the_way (fs w) p = false ->
   is_dir (fs w) (homebrew_path ++ ["Formula"]) = true ->
   run = (Return p,
          {| fs := <[p:=File (contents t true)]> (fs w);
             trace := trace w ++ [EvWriteText p (contents t true)] |}))
  /\ (file_on_the_way (fs w) p = false ->
      is_dir (fs w) (homebrew_path ++ ["Formula"]) = false ->
      run = (Raised (Exn (OSError "No such file or directory")),
             {| fs := fs w;
                trace := trace w ++ [EvWriteText p (contents t true)] |}))
  /\ (file_on_the_way (fs w) p = true ->
      run = (Raised (Exn (OSError "Not a directory")),
             {| fs := fs w;
                trace := trace w ++ [EvWriteText p (contents t true)] |}))
  /\ (forall text,
        fs w !! (homebrew_path ++ ["Formula"]) = Some (File text) ->
        file_on_the_way (fs w) p = true).
Proof.
  cbv zeta. intros Hnone.
  assert (exists_ (fs w) (formula_path homebrew_path v) = false) as Hex.
  { unfold formula_path in *. rewrite exists_snoc, Hnone.
    apply bool_decide_eq_false_2. by intros [? ?]. }
  assert (is_dir (fs w) (formula_path homebrew_path v) = false) as Hd.
  { unfold formula_path in *. by rewrite is_dir_snoc, Hnone. }
  assert (parent (formula_path homebrew_path v) = homebrew_path ++ ["Formula"])
    as Hparent by apply removelast_last.
  cbv beta iota zeta delta [create_homebrew_formula bind path_exists get_fs ret
    write_text log raise set_fs].
  cbn [fs trace]. fold (formula_path homebrew_path v).
  rewrite Hex, Hd, Hparent.
  split; [by intros -> -> |]. split; [by intros -> -> |].
  split; [by intros -> |].
  intros text Hfile. unfold file_on_the_way. rewrite Hparent.
  apply existsb_exists. exists (homebrew_path ++ ["Formula"]).
  split; [| by rewrite Hfile].
  apply list_elem_of_In, elem_of_prefixes. split; [by destruct homebrew_path | done].
Qed.

Lemma create_homebrew_formula_needs_formula_directory_witness :
  (create_homebrew_formula sample_template sample_version ["homebrew-dbt"]
     sample_world).1
  = Return (formula_path ["homebrew-dbt"] sample_version)
  /\ (create_homebrew_formula sample_template sample_version ["elsewhere"]
        sample_world).1
     = Raised (Exn (OSError "No such file or directory"))
  /\ (create_homebrew_formula sample_template sample_version ["homebrew-dbt"]
        {| fs := {[ ["homebrew-dbt"; "Formula"] := File "not a directory" ]};
           trace := [] |}).1
     = Raised (Exn (OSError "Not a directory")).
Proof.
  destruct (create_homebrew_formula_needs_formula_directory sample_template
              sample_version ["homebrew-dbt"] sample_world)
    as (Hthere & _); [vm_compute; reflexivity |].
  destruct (create_homebrew_formula_needs_formula_directory sample_template
              sample_version ["elsewhere"] sample_world)
    as (_ & Hmissing & _); [vm_compute; reflexivity |].
  destruct (create_homebrew_formula_needs_formula_directory sample_template
              sample_version ["homebrew-dbt"]
              {| fs := {[ ["homebrew-dbt"; "Formula"] := File "not a directory" ]};
                 trace := [] |})
    as (_ & _ & Hfile & Hway); [vm_compute; reflexivity |].
  split; [| split].
  - rewrite Hthere; [reflexivity | vm_compute; reflexivity ..].
  - rewrite Hmissing; [reflexivity | vm_compute; reflexivity ..].
  - rewrite Hfile; [reflexivity |].
    apply (Hway "not a directory"). vm_compute. reflexivity.
Defined.
